(** * Reimbursement arithmetic of the Georgetown travel form generator

    A shallow embedding of the calculations of [travel_form_generate.py]:
    the numeric text field parser [number_text_input], the totals computed
    by [main] when the form is submitted, and the figures recomputed by
    [create_pdf] when the document is laid out, with the rows of its
    tables.  The widgets are given by what they hold; the styling of the
    document and the calls of the PDF library are left out.

    Python values are embedded as they are at run time.  A [float] is an
    IEEE 754 binary64 number, modelled with the Standard Library's
    [SpecFloat] (round to nearest, ties to even); an [int] is a [Z]; a
    [str] is a [string] whose characters are read as code points below 256.
    An operation that can raise returns a [result].  The builtins the
    calculations call ([int], [float], [round], [max], [sum],
    [str.strip], [str.replace], [re.match]) are written out for the
    arguments they get here. *)

From Stdlib Require Import ZArith List String Ascii Bool Lia SpecFloat DecimalString DecimalZ DecimalFacts.
From stdpp Require Import base option list gmap.
Import ListNotations.

Local Open Scope Z_scope.

(** ** Exceptions and results *)

Inductive exn : Type :=
  | ValueError
  | TypeError
  | IndexError
  | OverflowError
  | AttributeError.

Inductive result (A : Type) : Type :=
  | Ok (a : A)
  | Raise (e : exn).

Arguments Ok {A} a.
Arguments Raise {A} e.

Definition exn_eqb (a b : exn) : bool :=
  match a, b with
  | ValueError, ValueError | TypeError, TypeError | IndexError, IndexError
  | OverflowError, OverflowError | AttributeError, AttributeError => true
  | _, _ => false
  end.

Definition bind {A B : Type} (r : result A) (k : A -> result B) : result B :=
  match r with
  | Ok a => k a
  | Raise e => Raise e
  end.

Notation "'let*' x ':=' r 'in' k" := (bind r (fun x => k))
  (at level 10, x pattern, r at level 100, k at level 200).

(** [try: body except: handler] with a bare [except]. *)
Definition try_except {A : Type} (body : result A) (handler : A) : A :=
  match body with
  | Ok a => a
  | Raise _ => handler
  end.

(** A [for] loop over [xs] that threads the mutated locals [st] and stops
    at the first exception. *)
Fixpoint for_each {A S : Type} (xs : list A) (st : S) (body : S -> A -> result S)
  : result S :=
  match xs with
  | [] => Ok st
  | x :: xs' => let* st' := body st x in for_each xs' st' body
  end.

(** ** Binary64 floats *)

Module Float.

Definition prec : Z := 53.
Definition emax : Z := 1024.

Definition float : Type := spec_float.

Definition add : float -> float -> float := SFadd prec emax.
Definition sub : float -> float -> float := SFsub prec emax.
Definition mul : float -> float -> float := SFmul prec emax.
Definition div : float -> float -> float := SFdiv prec emax.
Definition ltb : float -> float -> bool := SFltb.
Definition leb : float -> float -> bool := SFleb.
Definition eqb : float -> float -> bool := SFeqb.

Definition is_nan (x : float) : bool :=
  match x with S754_nan => true | _ => false end.

Definition is_zero (x : float) : bool :=
  match x with S754_zero _ => true | _ => false end.

(** The float nearest to an integer; an infinity when it is out of range. *)
Definition of_Z (z : Z) : float := binary_normalize prec emax z 0 false.

(** The float nearest to [(-1)^s * n / d]. *)
Definition of_ratio (s : bool) (n d : positive) : float :=
  div (S754_finite s n 0) (S754_finite false d 0).

(** The float nearest to the decimal [(-1)^s * digits * 10^e10], which is
    how a decimal numeral is read. *)
Definition of_decimal (s : bool) (digits : Z) (e10 : Z) : float :=
  match digits with
  | Zpos p =>
      if 0 <=? e10 then
        match 10 ^ e10 with
        | Zpos q => binary_round prec emax s (p * q) 0
        | _ => S754_zero s
        end
      else
        match 10 ^ (- e10) with
        | Zpos q => of_ratio s p q
        | _ => S754_zero s
        end
  | _ => S754_zero s
  end.

(** [n / d] rounded to the nearest integer, ties to the even one. *)
Definition div_half_even (n d : Z) : Z :=
  let q := n / d in
  let r := n mod d in
  match 2 * r ?= d with
  | Lt => q
  | Gt => q + 1
  | Eq => if Z.even q then q else q + 1
  end.

(** [round(x, ndigits)] for [ndigits >= 0]: the exact binary value is
    rounded to [ndigits] decimals, ties to even, and that decimal is
    read back as a float.  Zeros, infinities and NaN round to
    themselves. *)
Definition round (x : float) (ndigits : Z) : float :=
  match x with
  | S754_finite s m e =>
      let p10 := 10 ^ ndigits in
      let k := if 0 <=? e then Zpos m * 2 ^ e * p10
               else div_half_even (Zpos m * p10) (2 ^ (- e)) in
      of_decimal s k (- ndigits)
  | _ => x
  end.

(** Truncation toward zero of a finite float. *)
Definition trunc (s : bool) (m : positive) (e : Z) : Z :=
  let a := if 0 <=? e then Zpos m * 2 ^ e else Zpos m / 2 ^ (- e) in
  if s then - a else a.

(** Exact comparison of an integer with a float. *)
Definition compare_Z (z : Z) (x : float) : option comparison :=
  match x with
  | S754_nan => None
  | S754_infinity s => Some (if s then Gt else Lt)
  | S754_zero _ => Some (z ?= 0)
  | S754_finite s m e =>
      let v := if s then Zneg m else Zpos m in
      Some (if 0 <=? e then z ?= v * 2 ^ e else z * 2 ^ (- e) ?= v)
  end.

Definition zero : float := S754_zero false.
Definition lit_0_75 : float := Eval vm_compute in of_decimal false 75 (-2).
Definition lit_0_70 : float := Eval vm_compute in of_decimal false 70 (-2).

End Float.

Abbreviation float := Float.float.

(** ** Strings *)

Definition code (c : ascii) : N := N_of_ascii c.

(** Characters removed by [str.strip()]. *)
Definition is_space (c : ascii) : bool :=
  let n := code c in
  ((9 <=? n) && (n <=? 13) || (28 <=? n) && (n <=? 32) || (n =? 133) || (n =? 160))%N.

(** Characters that [int()] and [float()] skip around a numeral. *)
Definition is_numeral_space (c : ascii) : bool :=
  let n := code c in
  ((9 <=? n) && (n <=? 13) || (n =? 32) || (n =? 133) || (n =? 160))%N.

Definition is_digit (c : ascii) : bool :=
  let n := code c in ((48 <=? n) && (n <=? 57))%N.

Definition digit_value (c : ascii) : Z := Z.of_N (code c) - 48.

Definition lower (c : ascii) : ascii :=
  let n := code c in
  if ((65 <=? n) && (n <=? 90))%N then ascii_of_N (n + 32) else c.

Fixpoint drop_while {A : Type} (p : A -> bool) (l : list A) : list A :=
  match l with
  | [] => []
  | x :: l' => if p x then drop_while p l' else l
  end.

Fixpoint span {A : Type} (p : A -> bool) (l : list A) : list A * list A :=
  match l with
  | [] => ([], [])
  | x :: l' => if p x then let '(a, b) := span p l' in (x :: a, b) else ([], l)
  end.

Definition strip_chars (p : ascii -> bool) (cs : list ascii) : list ascii :=
  rev (drop_while p (rev (drop_while p cs))).

(** [s.strip()] *)
Definition strip (s : string) : string :=
  string_of_list_ascii (strip_chars is_space (list_ascii_of_string s)).

(** [s.replace(c, '')] for a one-character [c]. *)
Definition remove_char (c : ascii) (s : string) : string :=
  string_of_list_ascii
    (List.filter (fun x => negb (Ascii.eqb x c)) (list_ascii_of_string s)).

(** Truth value of a [str]. *)
Definition str_truthy (s : string) : bool :=
  match s with EmptyString => false | _ => true end.

Definition digits_value (ds : list ascii) : Z :=
  fold_left (fun acc c => 10 * acc + digit_value c) ds 0.

(** Underscores in a numeral must stand between two digits; they are
    dropped.  [prev] is the character before [cs]. *)
Fixpoint drop_underscores (prev : option ascii) (cs : list ascii)
  : option (list ascii) :=
  let prev_digit := match prev with Some p => is_digit p | None => false end in
  match cs with
  | [] => Some []
  | c :: cs' =>
      if Ascii.eqb c "_" then
        match cs' with
        | d :: _ => if prev_digit && is_digit d then drop_underscores (Some c) cs'
                    else None
        | [] => None
        end
      else option_map (cons c) (drop_underscores (Some c) cs')
  end.

Definition split_sign (cs : list ascii) : bool * list ascii :=
  match cs with
  | "-"%char :: r => (true, r)
  | "+"%char :: r => (false, r)
  | _ => (false, cs)
  end.

(** Default of [sys.int_max_str_digits]. *)
Definition int_max_str_digits : nat := 4300.

(** [int(s)] for a [str], base 10. *)
Definition int_of_string (s : string) : result Z :=
  match drop_underscores None (strip_chars is_numeral_space (list_ascii_of_string s)) with
  | None => Raise ValueError
  | Some cs =>
      let '(neg, ds) := split_sign cs in
      match ds with
      | [] => Raise ValueError
      | _ =>
          if forallb is_digit ds && (length ds <=? int_max_str_digits)%nat
          then Ok (if neg then - digits_value ds else digits_value ds)
          else Raise ValueError
      end
  end.

(** The unsigned part of a decimal numeral:
    [digits [. digits] [(e|E) [sign] digits]] with a digit before the
    exponent. *)
Definition decimal_of_chars (s : bool) (cs : list ascii) : result float :=
  let '(ip, r1) := span is_digit cs in
  let '(fp, r2) :=
    match r1 with
    | "."%char :: r => span is_digit r
    | _ => ([], r1)
    end in
  match ip ++ fp with
  | [] => Raise ValueError
  | mant =>
      let m := digits_value mant in
      let shift := Z.of_nat (length fp) in
      match r2 with
      | [] => Ok (Float.of_decimal s m (- shift))
      | c :: r3 =>
          if Ascii.eqb (lower c) "e" then
            let '(eneg, eds) := split_sign r3 in
            match eds with
            | [] => Raise ValueError
            | _ =>
                if forallb is_digit eds then
                  let e := digits_value eds in
                  Ok (Float.of_decimal s m ((if eneg then - e else e) - shift))
                else Raise ValueError
            end
          else Raise ValueError
      end
  end.

(** [float(s)] for a [str]. *)
Definition float_of_string (s : string) : result float :=
  match drop_underscores None (strip_chars is_numeral_space (list_ascii_of_string s)) with
  | None => Raise ValueError
  | Some cs =>
      let '(neg, body) := split_sign cs in
      let word := string_of_list_ascii (map lower body) in
      if (word =? "inf")%string || (word =? "infinity")%string
      then Ok (S754_infinity neg)
      else if (word =? "nan")%string then Ok S754_nan
      else decimal_of_chars neg body
  end.

(** [re.match(r'^-?\d+(\.\d+)?$', s)] as a truth value. *)
Definition matches_plain_number (s : string) : bool :=
  let at_end (r : list ascii) :=
    match r with
    | [] => true
    | [c] => (code c =? 10)%N
    | _ => false
    end in
  let cs := list_ascii_of_string s in
  let cs := match cs with "-"%char :: r => r | _ => cs end in
  let '(ip, r1) := span is_digit cs in
  match ip with
  | [] => false
  | _ =>
      at_end r1 ||
      match r1 with
      | "."%char :: r =>
          let '(fp, r2) := span is_digit r in
          match fp with [] => false | _ => at_end r2 end
      | _ => false
      end
  end.

(** ** Values and numbers *)

(** The objects that reach the calculation through the form lists. *)
Inductive value : Type :=
  | VNone
  | VBool (b : bool)
  | VInt (z : Z)
  | VFloat (f : float)
  | VStr (s : string).

(** Truth value of a float: everything but the two zeros. *)
Definition float_truthy (f : float) : bool := negb (Float.is_zero f).

(** Truth value of an object, as tested by [if v] and [v and ...]. *)
Definition truthy (v : value) : bool :=
  match v with
  | VNone => false
  | VBool b => b
  | VInt z => negb (z =? 0)
  | VFloat f => float_truthy f
  | VStr s => str_truthy s
  end.

(** Truth value of [str(v).strip()].  The text of [None], of a [bool] and
    of a number is never blank. *)
Definition str_strip_truthy (v : value) : bool :=
  match v with
  | VStr s => str_truthy (strip s)
  | _ => true
  end.

(** [v and str(v).strip()] as a truth value. *)
Definition present (v : value) : bool := truthy v && str_strip_truthy v.

(** [float(z)] for an [int]. *)
Definition float_of_int (z : Z) : result float :=
  match Float.of_Z z with
  | S754_infinity _ => Raise OverflowError
  | f => Ok f
  end.

(** [int(v)] *)
Definition py_int (v : value) : result Z :=
  match v with
  | VNone => Raise TypeError
  | VBool b => Ok (if b then 1 else 0)
  | VInt z => Ok z
  | VFloat S754_nan => Raise ValueError
  | VFloat (S754_infinity _) => Raise OverflowError
  | VFloat (S754_zero _) => Ok 0
  | VFloat (S754_finite s m e) => Ok (Float.trunc s m e)
  | VStr s => int_of_string s
  end.

(** [float(v)] *)
Definition py_float (v : value) : result float :=
  match v with
  | VNone => Raise TypeError
  | VBool b => Ok (Float.of_Z (if b then 1 else 0))
  | VInt z => float_of_int z
  | VFloat f => Ok f
  | VStr s => float_of_string s
  end.

(** [max(a, b)] on floats: the second argument wins only when it is
    strictly greater. *)
Definition float_max (a b : float) : float := if Float.ltb a b then b else a.

(** A number: the [int] or [float] a total can be. *)
Inductive num : Type :=
  | NInt (z : Z)
  | NFloat (f : float).

Definition num_compare (a b : num) : option comparison :=
  match a, b with
  | NInt x, NInt y => Some (x ?= y)
  | NInt x, NFloat g => Float.compare_Z x g
  | NFloat f, NInt y => option_map CompOpp (Float.compare_Z y f)
  | NFloat f, NFloat g => SFcompare f g
  end.

Definition num_ltb (a b : num) : bool :=
  match num_compare a b with Some Lt => true | _ => false end.

Definition num_eqb (a b : num) : bool :=
  match num_compare a b with Some Eq => true | _ => false end.

(** [a + b] *)
Definition num_add (a b : num) : result num :=
  match a, b with
  | NInt x, NInt y => Ok (NInt (x + y))
  | NInt x, NFloat g => let* f := float_of_int x in Ok (NFloat (Float.add f g))
  | NFloat f, NInt y => let* g := float_of_int y in Ok (NFloat (Float.add f g))
  | NFloat f, NFloat g => Ok (NFloat (Float.add f g))
  end.

(** [max(a, b)] *)
Definition num_max (a b : num) : num := if num_ltb a b then b else a.

(** [round(x, ndigits)] with [ndigits >= 0]; an [int] is returned as it is. *)
Definition num_round (x : num) (ndigits : Z) : num :=
  match x with
  | NInt z => NInt z
  | NFloat f => NFloat (Float.round f ndigits)
  end.

(** [sum(xs)] for a list of floats: the start value is the [int] 0 and
    the items are added from left to right.  (From version 3.12 on the
    interpreter carries a compensation term through a run of floats,
    which can change the last bit of a long sum.) *)
Definition py_sum (xs : list float) : num :=
  match xs with
  | [] => NInt 0
  | x :: xs' => NFloat (fold_left Float.add xs' (Float.add (Float.of_Z 0) x))
  end.

(** ** The numeric text field *)

(** [number_text_input(label, key, value, min_value, placeholder)].
    [text_val] is what the text widget holds.  The result is the returned
    number together with the validation flag the function leaves in the
    session state under [key + "_has_error"]. *)
Definition number_text_input (text_val : string) (min_value : float)
  : result (float * bool) :=
  if negb (str_truthy text_val) || negb (str_truthy (strip text_val)) then
    Ok (Float.zero, false)
  else
    let cleaned_text :=
      remove_char " " (remove_char "," (remove_char "$" (strip text_val))) in
    match float_of_string cleaned_text with
    | Ok num_val =>
        let num_val := if Float.ltb num_val min_value then min_value else num_val in
        Ok (num_val, false)
    | Raise e =>
        if exn_eqb e ValueError || exn_eqb e AttributeError then
          let has_error := negb (matches_plain_number cleaned_text) in
          Ok (Float.zero, has_error)
        else Raise e
    end.

(** The default [min_value=0.0]. *)
Definition default_min_value : float := Float.zero.

(** ** Shared shapes *)

(** One entry of the [meal_deductions] dictionary. *)
Record deduction_row : Type := {
  breakfast : Z;
  lunch : Z;
  dinner : Z;
  incidental : Z;
  first_last : float
}.

(** [enumerate(xs)] counted from [i]. *)
Fixpoint enumerate_from {A : Type} (i : nat) (xs : list A) : list (nat * A) :=
  match xs with
  | [] => []
  | x :: xs' => (i, x) :: enumerate_from (S i) xs'
  end.

(** [i < len(xs) and xs[i]] as a truth value. *)
Definition flag_at (xs : list value) (i : nat) : bool :=
  match xs !! i with
  | Some v => truthy v
  | None => false
  end.

(** [i < len(xs) and xs[i] and str(xs[i]).strip()] as a truth value. *)
Definition present_at (xs : list value) (i : nat) : bool :=
  match xs !! i with
  | Some v => present v
  | None => false
  end.

(** The entries of the [form_data] dictionary that the calculations read.
    The traveler fields and the per-day expense lists are only printed. *)
Module FormData.
Record t : Type := {
  mileage_amounts : list value;
  per_diem_dates : list value;
  per_diem_amounts : list value;
  breakfast_checks : list value;
  lunch_checks : list value;
  dinner_checks : list value;
  total_mileage : num;
  total_airfare : num;
  total_ground_transport : num;
  total_parking : num;
  total_lodging : num;
  total_baggage : num;
  total_misc : num;
  total_per_diem : num;
  total_amount_due : num
}.
End FormData.

(** ** Form submission: the totals of [main] *)

Module Main.

Definition meal_deductions : gmap Z deduction_row :=
  <[68 := {| breakfast := 16; lunch := 19; dinner := 28; incidental := 5;
             first_last := Float.of_decimal false 5100 (-2) |}]>
 (<[74 := {| breakfast := 18; lunch := 20; dinner := 31; incidental := 5;
             first_last := Float.of_decimal false 5550 (-2) |}]>
 (<[80 := {| breakfast := 20; lunch := 22; dinner := 33; incidental := 5;
             first_last := Float.of_decimal false 6000 (-2) |}]>
 (<[86 := {| breakfast := 22; lunch := 23; dinner := 36; incidental := 5;
             first_last := Float.of_decimal false 6450 (-2) |}]>
 (<[92 := {| breakfast := 23; lunch := 26; dinner := 38; incidental := 5;
             first_last := Float.of_decimal false 6900 (-2) |}]>
  ∅)))).

(** [meal_deductions[80]] *)
Definition meal_deductions_80 : deduction_row :=
  {| breakfast := 20; lunch := 22; dinner := 33; incidental := 5;
     first_last := Float.of_decimal false 6000 (-2) |}.

Section Totals.

Variables mileage_amounts airfare ground_transport parking lodging
          baggage misc misc2 : list float.
Variables per_diem_dates per_diem_amounts
          breakfast_checks lunch_checks dinner_checks : list value.

(** [round(sum([m * 0.70 for m in mileage_amounts if m]), 0)] *)
Definition total_mileage : num :=
  num_round
    (py_sum (map (fun m => Float.mul m Float.lit_0_70)
                 (List.filter float_truthy mileage_amounts)))
    0.

Definition total_airfare : num := py_sum airfare.
Definition total_ground_transport : num := py_sum ground_transport.
Definition total_parking : num := py_sum parking.
Definition total_lodging : num := py_sum lodging.
Definition total_baggage : num := py_sum baggage.
Definition total_misc : result num := num_add (py_sum misc) (py_sum misc2).

Definition days_with_dates : list nat :=
  map fst (List.filter (fun p => present (snd p)) (enumerate_from 0 per_diem_dates)).

Definition first_day_idx : nat :=
  match days_with_dates with
  | i :: _ => i
  | [] => 0%nat
  end.

Definition last_day_idx : nat := List.last days_with_dates 0%nat.

(** [int(per_diem_amounts[i]) if (i < len(per_diem_amounts) and
    per_diem_amounts[i]) else 80] *)
Definition base_per_diem (i : nat) : result Z :=
  match per_diem_amounts !! i with
  | Some v => if truthy v then py_int v else Ok 80
  | None => Ok 80
  end.

(** [deduction_total] once the three meal boxes of day [i] are read.
    Each amount of the table is an [int] added to a float, and becomes
    that float. *)
Definition deduction_total (deducts : deduction_row) (i : nat) : float :=
  let deduction_total := Float.zero in
  let deduction_total :=
    if flag_at breakfast_checks i
    then Float.add deduction_total (Float.of_Z (breakfast deducts))
    else deduction_total in
  let deduction_total :=
    if flag_at lunch_checks i
    then Float.add deduction_total (Float.of_Z (lunch deducts))
    else deduction_total in
  if flag_at dinner_checks i
  then Float.add deduction_total (Float.of_Z (dinner deducts))
  else deduction_total.

(** The body of the loop over the days, for a day that has a date,
    up to the value before the first and last day rule. *)
Definition pre75_total (i : nat) : result float :=
  let* base_per_diem := base_per_diem i in
  let deducts := default meal_deductions_80 (meal_deductions !! base_per_diem) in
  let deduction_total := deduction_total deducts i in
  let* base_float := float_of_int base_per_diem in
  Ok (float_max Float.zero (Float.sub base_float deduction_total)).

Definition final_per_diem (i : nat) : result float :=
  let* pre75_total := pre75_total i in
  if (i =? first_day_idx)%nat || (i =? last_day_idx)%nat
  then Ok (Float.round (Float.mul pre75_total Float.lit_0_75) 2)
  else Ok (Float.round pre75_total 2).

Definition adjusted_per_diem_daily : result (list float) :=
  for_each (seq 0 (length per_diem_dates)) []
    (fun adjusted_per_diem_daily i =>
       if present_at per_diem_dates i then
         let* final_per_diem := final_per_diem i in
         Ok (adjusted_per_diem_daily ++ [final_per_diem])
       else Ok (adjusted_per_diem_daily ++ [Float.zero])).

Definition total_per_diem : result num :=
  let* adjusted_per_diem_daily := adjusted_per_diem_daily in
  Ok (py_sum adjusted_per_diem_daily).

Definition total_amount_due : result num :=
  let* total_misc := total_misc in
  let* total_per_diem := total_per_diem in
  let* t := num_add total_mileage total_airfare in
  let* t := num_add t total_ground_transport in
  let* t := num_add t total_parking in
  let* t := num_add t total_lodging in
  let* t := num_add t total_baggage in
  let* t := num_add t total_misc in
  num_add t total_per_diem.

(** The dictionary stored for the review step. *)
Definition form_data : result FormData.t :=
  let* total_misc' := total_misc in
  let* total_per_diem' := total_per_diem in
  let* total_amount_due' := total_amount_due in
  Ok {| FormData.mileage_amounts := map VFloat mileage_amounts;
        FormData.per_diem_dates := per_diem_dates;
        FormData.per_diem_amounts := per_diem_amounts;
        FormData.breakfast_checks := breakfast_checks;
        FormData.lunch_checks := lunch_checks;
        FormData.dinner_checks := dinner_checks;
        FormData.total_mileage := total_mileage;
        FormData.total_airfare := total_airfare;
        FormData.total_ground_transport := total_ground_transport;
        FormData.total_parking := total_parking;
        FormData.total_lodging := total_lodging;
        FormData.total_baggage := total_baggage;
        FormData.total_misc := total_misc';
        FormData.total_per_diem := total_per_diem';
        FormData.total_amount_due := total_amount_due' |}.

End Totals.

End Main.

(** ** Document layout: the figures of [create_pdf] *)

Module CreatePdf.

Definition meal_deductions : gmap Z deduction_row :=
  <[68 := {| breakfast := 16; lunch := 19; dinner := 28; incidental := 5;
             first_last := Float.of_decimal false 5100 (-2) |}]>
 (<[74 := {| breakfast := 18; lunch := 20; dinner := 31; incidental := 5;
             first_last := Float.of_decimal false 5550 (-2) |}]>
 (<[80 := {| breakfast := 20; lunch := 22; dinner := 33; incidental := 5;
             first_last := Float.of_decimal false 6000 (-2) |}]>
 (<[86 := {| breakfast := 22; lunch := 23; dinner := 36; incidental := 5;
             first_last := Float.of_decimal false 6450 (-2) |}]>
 (<[92 := {| breakfast := 23; lunch := 26; dinner := 38; incidental := 5;
             first_last := Float.of_decimal false 6900 (-2) |}]>
  ∅)))).

(** [meal_deductions[80]] *)
Definition meal_deductions_80 : deduction_row :=
  {| breakfast := 20; lunch := 22; dinner := 33; incidental := 5;
     first_last := Float.of_decimal false 6000 (-2) |}.

(** What the function works out before it lays the tables out. *)
Record figures : Type := {
  grand_mileage_rate_total : float;
  adjusted_per_diem : list float;
  daily_totals : list float;
  total_per_diem_calculated : num;
  daily_meal_totals : list float;
  total_reductions : list float;
  subtotal : num;
  total_amount_due : num
}.

Section Figures.

Variable form_data : FormData.t.

Let all_mileage_amounts := FormData.mileage_amounts form_data.
Let per_diem_dates := FormData.per_diem_dates form_data.
Let per_diem_amounts := FormData.per_diem_amounts form_data.
Let breakfast_checks := FormData.breakfast_checks form_data.
Let lunch_checks := FormData.lunch_checks form_data.
Let dinner_checks := FormData.dinner_checks form_data.

(** The grand total shown in the last mileage table. *)
Definition mileage_rate_total : float :=
  let grand_mileage_rate_total :=
    fold_left
      (fun grand_mileage_rate_total amount =>
         if present amount then
           try_except
             (let* miles := py_float amount in
              Ok (Float.add grand_mileage_rate_total
                    (Float.round (Float.mul miles Float.lit_0_70) 0)))
             grand_mileage_rate_total
         else grand_mileage_rate_total)
      all_mileage_amounts Float.zero in
  Float.round grand_mileage_rate_total 0.

Definition days_with_dates : list nat :=
  map fst (List.filter (fun p => present (snd p)) (enumerate_from 0 per_diem_dates)).

Definition first_day_idx : nat :=
  match days_with_dates with
  | i :: _ => i
  | [] => 0%nat
  end.

Definition last_day_idx : nat := List.last days_with_dates 0%nat.

(** [deduction_total] once the three meal boxes of day [i] are read.
    Each amount of the table is an [int] added to a float, and becomes
    that float. *)
Definition deduction_total (deducts : deduction_row) (i : nat) : float :=
  let deduction_total := Float.zero in
  let deduction_total :=
    if flag_at breakfast_checks i
    then Float.add deduction_total (Float.of_Z (breakfast deducts))
    else deduction_total in
  let deduction_total :=
    if flag_at lunch_checks i
    then Float.add deduction_total (Float.of_Z (lunch deducts))
    else deduction_total in
  if flag_at dinner_checks i
  then Float.add deduction_total (Float.of_Z (dinner deducts))
  else deduction_total.

(** First loop over the days: the adjusted per diem. *)
Definition adjusted_loop : result (list float * list float) :=
  for_each (seq 0 (length per_diem_dates)) ([], [])
    (fun '(adjusted_per_diem, daily_totals) i =>
       if present_at per_diem_dates i then
         let* base_per_diem :=
           match per_diem_amounts !! i with
           | Some v => if truthy v then py_int v else Ok 80
           | None => Ok 80
           end in
         let deducts :=
           default meal_deductions_80 (meal_deductions !! base_per_diem) in
         let deduction_total := deduction_total deducts i in
         let* base_float := float_of_int base_per_diem in
         let pre75_total :=
           float_max Float.zero (Float.sub base_float deduction_total) in
         let final_per_diem :=
           if (i =? first_day_idx)%nat || (i =? last_day_idx)%nat
           then Float.round (Float.mul pre75_total Float.lit_0_75) 2
           else Float.round pre75_total 2 in
         Ok (adjusted_per_diem ++ [final_per_diem],
             daily_totals ++ [final_per_diem])
       else Ok (adjusted_per_diem ++ [Float.zero], daily_totals ++ [Float.zero])).

(** Second loop over the days: the daily meal totals before the first
    and last day rule, and the dollar reductions.  Here
    [per_diem_amounts[i]] is read without a length test. *)
Definition meal_totals_loop : result (list float * list float) :=
  for_each (seq 0 (length per_diem_dates)) ([], [])
    (fun '(daily_meal_totals, total_reductions) i =>
       if present_at per_diem_dates i then
         let* base_per_diem :=
           match per_diem_amounts !! i with
           | Some v => if truthy v then py_int v else Ok 80
           | None => Raise IndexError
           end in
         let deducts :=
           default meal_deductions_80 (meal_deductions !! base_per_diem) in
         let deduction_total := deduction_total deducts i in
         let total_reductions :=
           total_reductions ++ [Float.round deduction_total 2] in
         let* base_float := float_of_int base_per_diem in
         let pre75_total :=
           float_max Float.zero (Float.sub base_float deduction_total) in
         Ok (daily_meal_totals ++ [Float.round pre75_total 2], total_reductions)
       else Ok (daily_meal_totals ++ [Float.zero], total_reductions ++ [Float.zero])).

(** The sum of the eight sub-totals handed over by [main]. *)
Definition sub_totals : result num :=
  let* t := num_add (FormData.total_mileage form_data)
                    (FormData.total_airfare form_data) in
  let* t := num_add t (FormData.total_ground_transport form_data) in
  let* t := num_add t (FormData.total_parking form_data) in
  let* t := num_add t (FormData.total_lodging form_data) in
  let* t := num_add t (FormData.total_baggage form_data) in
  let* t := num_add t (FormData.total_misc form_data) in
  num_add t (FormData.total_per_diem form_data).

(** [total_amount_due = max(0, total_amount_due)] *)
Definition amount_due (subtotal : num) : num :=
  let total_amount_due := subtotal in
  num_max (NInt 0) total_amount_due.

(** The computations of [create_pdf], in the order of the source.  The
    tables the function lays out between them ([MileageTable],
    [ExpenseTable], [PerDiemTable] and [TotalsTable] below) and the calls
    of the PDF library are not part of this chain.  They can raise as
    well, so [create_pdf] returns at most when this chain does: the
    statements take [create_pdf fd = Ok figs] as a hypothesis, or show
    that it cannot hold. *)
Definition create_pdf : result figures :=
  let grand_mileage_rate_total := mileage_rate_total in
  let* (adjusted_per_diem, daily_totals) := adjusted_loop in
  let total_per_diem_calculated := py_sum daily_totals in
  let* (daily_meal_totals, total_reductions) := meal_totals_loop in
  let* subtotal := sub_totals in
  let total_amount_due := amount_due subtotal in
  Ok {| grand_mileage_rate_total := grand_mileage_rate_total;
        adjusted_per_diem := adjusted_per_diem;
        daily_totals := daily_totals;
        total_per_diem_calculated := total_per_diem_calculated;
        daily_meal_totals := daily_meal_totals;
        total_reductions := total_reductions;
        subtotal := subtotal;
        total_amount_due := total_amount_due |}.

End Figures.

End CreatePdf.

(** ** Vocabulary of the statements *)

(** The rates offered by the per diem select box of [main]. *)
Definition per_diem_options : list Z := [68; 74; 80; 86; 92].

(** [f] applied to every element in turn, stopping at the first
    exception. *)
Fixpoint map_result {A B : Type} (f : A -> result B) (xs : list A)
  : result (list B) :=
  match xs with
  | [] => Ok []
  | x :: xs' => let* y := f x in let* ys := map_result f xs' in Ok (y :: ys)
  end.

(** A per diem entry that [int()] and then [float()] accept (an entry
    that is false counts as 80). *)
Definition tier_ok (v : value) : bool :=
  match (if truthy v then py_int v else Ok 80) with
  | Ok z => match float_of_int z with Ok _ => true | Raise _ => false end
  | Raise _ => false
  end.

(** A float that is not below zero: a zero, a positive number, the
    positive infinity or NaN. *)
Definition not_negative (f : float) : bool := negb (Float.ltb f Float.zero).

Definition num_is_zero (n : num) : bool :=
  match n with
  | NInt z => z =? 0
  | NFloat f => Float.is_zero f
  end.

(** The same number: the same object, or two that compare equal (as the
    [int] 0 and the floats 0.0 and -0.0 do). *)
Definition num_same (a b : num) : Prop := a = b \/ num_eqb a b = true.

(** The sum of the deduction amounts of the meals that are flagged. *)
Definition flagged_meals (row : deduction_row) (b l d : bool) : Z :=
  (if b then breakfast row else 0) + (if l then lunch row else 0)
  + (if d then dinner row else 0).

(** The value the per diem loop of [main] appends for day [i]. *)
Definition main_day (per_diem_dates per_diem_amounts breakfast_checks lunch_checks
                     dinner_checks : list value) (i : nat) : result float :=
  if present_at per_diem_dates i
  then Main.final_per_diem per_diem_dates per_diem_amounts breakfast_checks
         lunch_checks dinner_checks i
  else Ok Float.zero.

(** A per diem entry as the form can hold it: [None], a [bool], or an
    [int] that a float represents exactly. *)
Definition plain_tier (v : value) : Prop :=
  match v with
  | VNone | VBool _ => True
  | VInt z => Z.abs z < 2 ^ 53
  | VFloat _ | VStr _ => False
  end.

(** [text_val.strip()] with ['$'], [','] and [' '] removed. *)
Definition cleaned_text (text_val : string) : string :=
  remove_char " " (remove_char "," (remove_char "$" (strip text_val))).

(** [acc + x] for a running total [acc] and a float [x]. *)
Definition add_float (acc : num) (x : float) : num :=
  match acc with
  | NInt z => NFloat (Float.add (Float.of_Z z) x)
  | NFloat f => NFloat (Float.add f x)
  end.

(** Running totals that differ at most in which zero they are. *)
Definition same_or_zeros (a b : num) : Prop :=
  a = b \/ (num_is_zero a = true /\ num_is_zero b = true).

(** What a sum of floats can be: the [int] 0 it starts from, or a float. *)
Definition running_total (a : num) : Prop := a = NInt 0 \/ exists f, a = NFloat f.

(** The sign carried by a float is [s], when it carries one. *)
Definition signed (s : bool) (x : float) : Prop :=
  match x with
  | S754_zero s' | S754_infinity s' | S754_finite s' _ _ => s' = s
  | S754_nan => True
  end.

(** The [int] 0 or a float that is not below zero. *)
Definition total_not_negative (n : num) : Prop :=
  n = NInt 0 \/ exists f, n = NFloat f /\ not_negative f = true.

(** The eight sub-totals [create_pdf] reads from [form_data]. *)
Definition sub_total_list (fd : FormData.t) : list num :=
  [FormData.total_mileage fd; FormData.total_airfare fd;
   FormData.total_ground_transport fd; FormData.total_parking fd;
   FormData.total_lodging fd; FormData.total_baggage fd;
   FormData.total_misc fd; FormData.total_per_diem fd].



(** Inputs used to exercise the statements: a three day trip. *)
Definition trip_dates : list value :=
  [VStr "03/01/25"; VStr "03/02/25"; VStr "03/03/25"].
Definition unchecked : list value := [VBool false; VBool false; VBool false].

(** [form_data] with nothing but its eight sub-totals filled in. *)
Definition form_data_of_totals (totals : num * num * num * num * num * num * num * num)
  : FormData.t :=
  let '(mileage, airfare, ground, parking, lodging, baggage, misc, per_diem) := totals in
  {| FormData.mileage_amounts := []; FormData.per_diem_dates := [];
     FormData.per_diem_amounts := []; FormData.breakfast_checks := [];
     FormData.lunch_checks := []; FormData.dinner_checks := [];
     FormData.total_mileage := mileage; FormData.total_airfare := airfare;
     FormData.total_ground_transport := ground; FormData.total_parking := parking;
     FormData.total_lodging := lodging; FormData.total_baggage := baggage;
     FormData.total_misc := misc; FormData.total_per_diem := per_diem;
     FormData.total_amount_due := NInt 0 |}.

(** ** Rows of seven days *)

(** [range(0, stop, step)] *)
Definition py_range (stop : nat) (step : Z) : result (list nat) :=
  if step =? 0 then Raise ValueError
  else if step <? 0 then Ok []
  else
    let k := Z.to_nat step in
    Ok (map (fun q => (q * k)%nat) (seq 0 ((stop + k - 1) / k))).

(** [xs[i:j]] for indices that are not negative. *)
Definition slice {A : Type} (xs : list A) (i j : nat) : list A :=
  take (j - i) (drop i xs).

(** [chunk_list(items, chunk_size)]; [items] is [None] or a list. *)
Definition chunk_list {A : Type} (items : option (list A)) (chunk_size : Z)
  : result (list (list A)) :=
  match items with
  | None => Ok []
  | Some items =>
      let* starts := py_range (length items) chunk_size in
      Ok (map (fun i => slice items i (i + Z.to_nat chunk_size)) starts)
  end.

(** [pad_to_length(items, length, pad_value)] *)
Definition pad_to_length {A : Type} (items : list A) (length : Z) (pad_value : A)
  : list A :=
  if Z.of_nat (List.length items) <? length
  then items ++ replicate (Z.to_nat (length - Z.of_nat (List.length items))) pad_value
  else items.

(** ** Text of numbers *)

(** [str(z)] for an [int]. *)
Definition str_of_int (z : Z) : string := NilZero.string_of_int (Z.to_int z).

(** The two decimals after the point. *)
Definition two_digits (k : Z) : string :=
  String (ascii_of_N (48 + Z.to_N (k / 10 mod 10)))
    (String (ascii_of_N (48 + Z.to_N (k mod 10))) EmptyString).

(** [f"{x:.2f}"] for a float: the exact binary value rounded to two
    decimals, ties to even. *)
Definition format_2f (x : float) : string :=
  match x with
  | S754_nan => "nan"
  | S754_infinity s => if s then "-inf" else "inf"
  | S754_zero s => if s then "-0.00" else "0.00"
  | S754_finite s m e =>
      let k := if 0 <=? e then Zpos m * 2 ^ e * 100
               else Float.div_half_even (Zpos m * 100) (2 ^ (- e)) in
      ((if s then "-" else "") ++ str_of_int (k / 100) ++ "." ++ two_digits k)%string
  end.

(** [f"{n:.2f}"] for a number; an [int] is turned into a float first. *)
Definition num_format_2f (n : num) : result string :=
  match n with
  | NInt z => let* f := float_of_int z in Ok (format_2f f)
  | NFloat f => Ok (format_2f f)
  end.

(** [int(n)] for a number. *)
Definition num_int (n : num) : result Z :=
  match n with
  | NInt z => Ok z
  | NFloat f => py_int (VFloat f)
  end.

(** ** Calendar dates *)

Module Date.

(** A [datetime.date], held as its proleptic Gregorian ordinal
    ([date.toordinal()]): day 1 is 0001-01-01 and [max_ordinal] is
    9999-12-31.  Dates compare as their ordinals do. *)
Definition t : Type := Z.

Definition max_ordinal : Z := 3652059.

Definition days_before_month (month : Z) : Z :=
  nth (Z.to_nat month) [0; 0; 31; 59; 90; 120; 151; 181; 212; 243; 273; 304; 334] 0.

Definition days_in_month (month : Z) : Z :=
  nth (Z.to_nat month) [0; 31; 28; 31; 30; 31; 30; 31; 31; 30; 31; 30; 31] 0.

(** Year, month and day of an ordinal ([datetime._ord2ymd]). *)
Definition ord2ymd (n : Z) : Z * Z * Z :=
  let n := n - 1 in
  let n400 := n / 146097 in
  let n := n mod 146097 in
  let year := n400 * 400 + 1 in
  let n100 := n / 36524 in
  let n := n mod 36524 in
  let n4 := n / 1461 in
  let n := n mod 1461 in
  let n1 := n / 365 in
  let n := n mod 365 in
  let year := year + n100 * 100 + n4 * 4 + n1 in
  if (n1 =? 4) || (n100 =? 4) then (year - 1, 12, 31)
  else
    let leapyear := (n1 =? 3) && (negb (n4 =? 24) || (n100 =? 3)) in
    let month := Z.shiftr (n + 50) 5 in
    let preceding :=
      days_before_month month + (if (2 <? month) && leapyear then 1 else 0) in
    let '(month, preceding) :=
      if n <? preceding
      then (month - 1,
            preceding - (days_in_month (month - 1)
                         + (if (month - 1 =? 2) && leapyear then 1 else 0)))
      else (month, preceding) in
    (year, month, n - preceding + 1).

(** [d.strftime('%m/%d/%y')] *)
Definition strftime_mdy (d : t) : string :=
  let '(year, month, day) := ord2ymd d in
  (two_digits month ++ "/" ++ two_digits day ++ "/" ++ two_digits (year mod 100))%string.

(** [d + timedelta(days=n)] *)
Definition add_days (d : t) (n : Z) : result t :=
  if (1 <=? d + n) && (d + n <=? max_ordinal) then Ok (d + n)
  else Raise OverflowError.

End Date.

(** [generate_date_range(start_date, end_date, max_days)]; a date is
    [None] or a [datetime.date], which is always true. *)
Fixpoint date_loop (remaining : nat) (current_date end_date : Date.t)
  (dates : list string) : result (list string) :=
  match remaining with
  | O => Ok dates
  | S remaining =>
      if current_date <=? end_date then
        let formatted_date := Date.strftime_mdy current_date in
        let dates := dates ++ [formatted_date] in
        let* current_date := Date.add_days current_date 1 in
        date_loop remaining current_date end_date dates
      else Ok dates
  end.

Definition generate_date_range (start_date end_date : option Date.t) (max_days : Z)
  : result (list string) :=
  match start_date, end_date with
  | Some start_date, Some end_date =>
      let* dates := date_loop (Z.to_nat max_days) start_date end_date [] in
      Ok (dates ++ replicate (Z.to_nat max_days - length dates) ""%string)
  | _, _ => Ok (replicate (Z.to_nat max_days) ""%string)
  end.

(** The dates of [main]: the number of day columns and the dates the
    date fields start from.  [main] stops before this when both dates are
    given and the return date is before the departure date. *)
Module Dates.

Definition range_rejected (departure_date return_date : option Date.t) : bool :=
  match departure_date, return_date with
  | Some departure_date, Some return_date => return_date <? departure_date
  | _, _ => false
  end.

Definition total_days (departure_date return_date : option Date.t) : Z :=
  match departure_date, return_date with
  | Some departure_date, Some return_date =>
      if departure_date <=? return_date then
        let total_days := return_date - departure_date + 1 in
        Z.min total_days 60
      else 7
  | _, _ => 7
  end.

Definition default_dates (departure_date return_date : option Date.t)
  : result (list string) :=
  generate_date_range departure_date return_date (total_days departure_date return_date).

End Dates.

(** The loop over the day widgets of [main], seven to a row:
    [for chunk_start in range(0, total_days, 7)], then
    [chunk_len = min(7, total_days - chunk_start)] and
    [for offset in range(chunk_len)] with [i = chunk_start + offset]. *)
Definition day_loop {S : Type} (total_days : Z) (st : S) (body : S -> nat -> result S)
  : result S :=
  let* starts := py_range (Z.to_nat total_days) 7 in
  for_each starts st
    (fun st chunk_start =>
       let chunk_len := Z.min 7 (total_days - Z.of_nat chunk_start) in
       for_each (seq 0 (Z.to_nat chunk_len)) st
         (fun st offset => let i := (chunk_start + offset)%nat in body st i)).

(** ** Document layout: the tables of [create_pdf] *)

(** [f"${int(n)}"] *)
Definition dollars_int (n : num) : result string :=
  let* whole := num_int n in Ok ("$" ++ str_of_int whole)%string.

(** [f"${n:.2f}"] *)
Definition dollars_2f (n : num) : result string :=
  let* text := num_format_2f n in Ok ("$" ++ text)%string.

(** [f"${x:.2f}"] for a float. *)
Definition float_dollars_2f (x : float) : string := ("$" ++ format_2f x)%string.

(** [f"${int(v)}"] for an object. *)
Definition dollars_int_of (v : value) : result string :=
  let* whole := py_int v in Ok ("$" ++ str_of_int whole)%string.

(** Truth value of a number. *)
Definition num_truthy (n : num) : bool := negb (num_is_zero n).

(** [xs[j]] *)
Definition index {A : Type} (xs : list A) (j : nat) : result A :=
  match xs !! j with
  | Some x => Ok x
  | None => Raise IndexError
  end.

(** The sub-totals table.  [total_amount_due] is the floored total. *)
Module TotalsTable.

Definition totals_data (form_data : FormData.t) (total_amount_due : num)
  : result (list (string * string)) :=
  let* mileage := dollars_int (FormData.total_mileage form_data) in
  let* airfare := dollars_2f (FormData.total_airfare form_data) in
  let* ground_transport := dollars_2f (FormData.total_ground_transport form_data) in
  let* parking := dollars_2f (FormData.total_parking form_data) in
  let* lodging := dollars_2f (FormData.total_lodging form_data) in
  let* baggage := dollars_2f (FormData.total_baggage form_data) in
  let* misc := dollars_2f (FormData.total_misc form_data) in
  let* per_diem := dollars_2f (FormData.total_per_diem form_data) in
  let* due := dollars_2f total_amount_due in
  Ok [("Mileage", mileage); ("Airfare", airfare);
      ("Ground Transportation", ground_transport); ("Parking", parking);
      ("Lodging", lodging); ("Baggage Fees", baggage);
      ("Miscellaneous/Other", misc); ("Per Diem", per_diem);
      ("<b>Total Amount Due</b>", "<b>" ++ due ++ "</b>")]%string.

End TotalsTable.

(** The amounts of the totals table in the review pane of [main], which
    shows the total of [main] as it is. *)
Module Review.

Definition totals_html (review : FormData.t) : result (list string) :=
  let* mileage := dollars_int (FormData.total_mileage review) in
  let* airfare := dollars_2f (FormData.total_airfare review) in
  let* ground_transport := dollars_2f (FormData.total_ground_transport review) in
  let* parking := dollars_2f (FormData.total_parking review) in
  let* lodging := dollars_2f (FormData.total_lodging review) in
  let* baggage := dollars_2f (FormData.total_baggage review) in
  let* misc := dollars_2f (FormData.total_misc review) in
  let* per_diem := dollars_2f (FormData.total_per_diem review) in
  let* due := dollars_2f (FormData.total_amount_due review) in
  Ok [mileage; airfare; ground_transport; parking; lodging; baggage; misc; per_diem; due].

End Review.

(** The expense tables.  The lists are the ones [main] stores: floats,
    one per day. *)
Module ExpenseTable.

(** [sum(x for x in xs if x)] *)
Definition grand_total (xs : list float) : num := py_sum (List.filter float_truthy xs).

(** [[f"${x:.2f}" if x else '' for x in xs]] *)
Definition amount_cells (xs : list num) : result (list value) :=
  map_result
    (fun x => if num_truthy x then let* text := dollars_2f x in Ok (VStr text)
              else Ok (VStr ""))
    xs.

Section Tables.

Variable expense_dates : list value.
Variables airfare ground_transport parking lodging baggage misc misc2 : list float.
Variables misc_desc1 misc_desc2 : string.

(** ['Miscellaneous/Other\n(Provide Description)'] *)
Definition misc_heading : string :=
  ("Miscellaneous/Other" ++ String (ascii_of_N 10) "(Provide Description)")%string.

(** [form_data.get(key, '').strip() if form_data.get(key, '') else ''],
    then [None] for an empty text. *)
Definition misc_label (misc_desc : string) : option string :=
  let misc_desc_val := if str_truthy misc_desc then strip misc_desc else ""%string in
  if str_truthy misc_desc_val then Some misc_desc_val else None.

(** One row of amounts: the label, seven day cells and the total cell,
    which is filled in the last table only. *)
Definition amount_row (label : string) (xs : list float) (grand : num)
  (i total_expense_chunks : nat) : result (list value) :=
  let padded := pad_to_length (slice (map NFloat xs) (i * 7) ((i + 1) * 7)) 7 (NInt 0) in
  let* cells := amount_cells padded in
  let* total_cell :=
    if (Z.of_nat i =? Z.of_nat total_expense_chunks - 1)
    then let* text := dollars_2f grand in Ok (VStr text)
    else Ok (VStr "") in
  Ok ([VStr label] ++ cells ++ [total_cell]).

Definition expenses_data (i total_expense_chunks : nat) (dates_chunk : list value)
  : result (list (list value)) :=
  let misc_label1 := misc_label misc_desc1 in
  let misc_label2 := misc_label misc_desc2 in
  let* airfare_row :=
    amount_row "Airfare" airfare (grand_total airfare) i total_expense_chunks in
  let* ground_row :=
    amount_row "Ground Transportation" ground_transport (grand_total ground_transport)
      i total_expense_chunks in
  let* parking_row :=
    amount_row "Parking" parking (grand_total parking) i total_expense_chunks in
  let* lodging_row :=
    amount_row "Lodging" lodging (grand_total lodging) i total_expense_chunks in
  let* baggage_row :=
    amount_row "Baggage Fees" baggage (grand_total baggage) i total_expense_chunks in
  let expenses_data :=
    [[VStr "Date (MM/DD/YY)"] ++ pad_to_length dates_chunk 7 (VStr "") ++ [VStr "Total"];
     airfare_row; ground_row; parking_row; lodging_row; baggage_row;
     [VStr misc_heading] ++ replicate 7 (VStr "") ++ [VStr ""]] in
  let* expenses_data :=
    match misc_label1 with
    | Some label =>
        let* row := amount_row label misc (grand_total misc) i total_expense_chunks in
        Ok (expenses_data ++ [row])
    | None => Ok expenses_data
    end in
  match misc_label2 with
  | Some label =>
      let* row := amount_row label misc2 (grand_total misc2) i total_expense_chunks in
      Ok (expenses_data ++ [row])
  | None => Ok expenses_data
  end.

Definition expense_tables : result (list (list (list value))) :=
  let* expense_chunks := chunk_list (Some expense_dates) 7 in
  let total_expense_chunks := length expense_chunks in
  for_each (enumerate_from 0 expense_chunks) []
    (fun expense_tables '(i, dates_chunk) =>
       let* expenses_data := expenses_data i total_expense_chunks dates_chunk in
       Ok (expense_tables ++ [expenses_data])).

End Tables.

End ExpenseTable.

(** The mileage tables: the [Mileage Rate] row of each.  (The row of
    the miles themselves prints [str(x)] of a float and is not modelled.) *)
Module MileageTable.

Section Tables.

Variables all_mileage_dates all_mileage_amounts : list value.
Variable grand_mileage_rate_total : float.

(** One entry of [mileage_rates]. *)
Definition mileage_rate (amount : value) : string :=
  if present amount then
    try_except
      (let* miles := py_float amount in
       let rate := Float.round (Float.mul miles Float.lit_0_70) 0 in
       dollars_int (NFloat rate))
      ""%string
  else ""%string.

Definition mileage_rate_rows : result (list (list string)) :=
  let* mileage_dates_chunks := chunk_list (Some all_mileage_dates) 7 in
  let* mileage_amount_chunks := chunk_list (Some all_mileage_amounts) 7 in
  let total_mileage_chunks := length mileage_dates_chunks in
  for_each (seq 0 total_mileage_chunks) []
    (fun mileage_tables idx =>
       let amounts_chunk := default [] (mileage_amount_chunks !! idx) in
       let amounts_chunk := pad_to_length amounts_chunk 7 (VStr "") in
       let mileage_rates := map mileage_rate amounts_chunk in
       let* mileage_total_cell :=
         if Z.of_nat idx =? Z.of_nat total_mileage_chunks - 1
         then dollars_int (NFloat grand_mileage_rate_total)
         else Ok ""%string in
       Ok (mileage_tables ++ [["Mileage Rate"%string] ++ mileage_rates ++ [mileage_total_cell]])).

End Tables.

End MileageTable.

(** The per diem tables. *)
Module PerDiemTable.

(** The first amount [int()] reads among the entries [js] that pass
    [test]; an entry that raises [ValueError] or [TypeError] is skipped. *)
Fixpoint first_amount (test : nat -> bool) (amount_at : nat -> result value)
  (js : list nat) : result (option Z) :=
  match js with
  | [] => Ok None
  | j :: js' =>
      if test j then
        match (let* v := amount_at j in py_int v) with
        | Ok common_amount => Ok (Some common_amount)
        | Raise e =>
            if exn_eqb e ValueError || exn_eqb e TypeError
            then first_amount test amount_at js'
            else Raise e
        end
      else first_amount test amount_at js'
  end.

(** The labels of the three meal rows. *)
Definition labels (common_amount : Z) : string * string * string :=
  match CreatePdf.meal_deductions !! common_amount with
  | Some deducts =>
      (("Breakfast -$" ++ str_of_int (breakfast deducts))%string,
       ("Lunch -$" ++ str_of_int (lunch deducts))%string,
       ("Dinner -$" ++ str_of_int (dinner deducts))%string)
  | None => ("Breakfast -$"%string, "Lunch -$"%string, "Dinner -$"%string)
  end.

(** ['If meals were provided by Georgetown University (Place "x" in box)'] *)
Definition meals_heading : string :=
  ("If meals were provided by Georgetown University (Place "
   ++ String (ascii_of_N 34) ("x" ++ String (ascii_of_N 34) " in box)"))%string.

(** [['X' if (chk[j] and pd[j]) else '' for j in range(7)]] *)
Definition meal_marks (chk pd : list value) : result (list value) :=
  map_result
    (fun j =>
       let* c := index chk j in
       if truthy c then
         let* d := index pd j in
         Ok (VStr (if truthy d then "X" else ""))
       else Ok (VStr ""))
    (seq 0 7).

Section Tables.

Variable form_data : FormData.t.
Variables adjusted_per_diem daily_meal_totals total_reductions : list float.
Variable total_per_diem_calculated : num.

Let per_diem_dates := FormData.per_diem_dates form_data.
Let per_diem_amounts := FormData.per_diem_amounts form_data.
Let breakfast_checks := FormData.breakfast_checks form_data.
Let lunch_checks := FormData.lunch_checks form_data.
Let dinner_checks := FormData.dinner_checks form_data.

Definition common_amount (idx_start : nat) (pd amounts : list value) : result Z :=
  let* common_amount :=
    first_amount (fun j => present_at pd j && flag_at amounts j) (index amounts)
      (seq 0 (length pd)) in
  let* common_amount :=
    match common_amount with
    | None =>
        if (idx_start <? length per_diem_amounts)%nat then
          first_amount (present_at per_diem_dates) (index per_diem_amounts)
            (seq idx_start (Nat.min (idx_start + 7) (length per_diem_amounts) - idx_start))
        else Ok None
    | Some _ => Ok common_amount
    end in
  Ok (default 80 common_amount).

Definition per_diem_data (i total_chunks : nat) (dates_chunk : list value)
  : result (list (list value)) :=
  let idx_start := (i * 7)%nat in
  let pd := pad_to_length dates_chunk 7 (VStr "") in
  let amounts := pad_to_length (slice per_diem_amounts idx_start (idx_start + 7)) 7 (VInt 80) in
  let bchk :=
    pad_to_length (slice breakfast_checks idx_start (idx_start + 7)) 7 (VBool false) in
  let lchk := pad_to_length (slice lunch_checks idx_start (idx_start + 7)) 7 (VBool false) in
  let dchk := pad_to_length (slice dinner_checks idx_start (idx_start + 7)) 7 (VBool false) in
  let red := pad_to_length (slice total_reductions idx_start (idx_start + 7)) 7 Float.zero in
  let meal_tot :=
    pad_to_length (slice daily_meal_totals idx_start (idx_start + 7)) 7 Float.zero in
  let adj := pad_to_length (slice adjusted_per_diem idx_start (idx_start + 7)) 7 Float.zero in
  let* common_amount := common_amount idx_start pd amounts in
  let '(b_lbl, l_lbl, d_lbl) := labels common_amount in
  let* allowance :=
    map_result
      (fun '(j, x) =>
         if truthy x then
           let* d := index pd j in
           if truthy d then let* text := dollars_int_of x in Ok (VStr text)
           else Ok (VStr "")
         else Ok (VStr ""))
      (enumerate_from 0 amounts) in
  let* breakfast_marks := meal_marks bchk pd in
  let* lunch_marks := meal_marks lchk pd in
  let* dinner_marks := meal_marks dchk pd in
  let* total_cell :=
    if Z.of_nat i =? Z.of_nat total_chunks - 1
    then let* text := dollars_2f total_per_diem_calculated in Ok (VStr text)
    else Ok (VStr "") in
  Ok [[VStr "Date (MM/DD/YY)"] ++ map (fun d => if present d then d else VStr "") pd
        ++ [VStr ""];
      [VStr "Per Diem Allowance"] ++ allowance ++ [VStr ""];
      [VStr "ADJUSTED PER DIEM"; VStr meals_heading; VStr ""; VStr ""; VStr ""; VStr "";
       VStr ""; VStr ""];
      [VStr b_lbl] ++ breakfast_marks ++ [VStr ""];
      [VStr l_lbl] ++ lunch_marks ++ [VStr ""];
      [VStr d_lbl] ++ dinner_marks ++ [VStr ""];
      [VStr "Total Reduction ($)"]
        ++ map (fun x => VStr (if negb (Float.eqb x Float.zero) then float_dollars_2f x
                               else "")) red
        ++ [VStr ""];
      [VStr "Daily Meal Total"]
        ++ map (fun x => VStr (if Float.ltb Float.zero x then float_dollars_2f x else ""))
             meal_tot
        ++ [VStr ""];
      [VStr "Total Per Diem"]
        ++ map (fun x => VStr (if Float.ltb Float.zero x then float_dollars_2f x else "")) adj
        ++ [total_cell]].

Definition per_diem_tables : result (list (list (list value))) :=
  let* chunks := chunk_list (Some per_diem_dates) 7 in
  for_each (enumerate_from 0 chunks) []
    (fun per_diem_tables '(i, dates_chunk) =>
       let* per_diem_data := per_diem_data i (length chunks) dates_chunk in
       Ok (per_diem_tables ++ [per_diem_data])).

End Tables.

End PerDiemTable.

(** ** The session state *)

(** [st.session_state], as far as the numeric fields use it. *)
Abbreviation session := (gmap string value).

(** [s.startswith(prefix)] *)
Definition startswith (s prefix : string) : bool := String.prefix prefix s.

(** [s.endswith(suffix)] *)
Definition endswith (s suffix : string) : bool :=
  (String.length suffix <=? String.length s)%nat
  && String.eqb
       (substring (String.length s - String.length suffix) (String.length suffix) s) suffix.

(** [s.replace(old, new)] for an [old] that is not empty: the text is
    read from the left; where [old] starts, [new] is written and [old] is
    skipped.  [skip] counts the characters of [old] still to be skipped. *)
Fixpoint replace_from (old new : string) (skip : nat) (s : string) : string :=
  match s with
  | EmptyString => EmptyString
  | String c s' =>
      match skip with
      | S skip' => replace_from old new skip' s'
      | O =>
          if String.prefix old s
          then (new ++ replace_from old new (String.length old - 1) s')%string
          else String c (replace_from old new 0 s')
      end
  end.

Definition replace (s old new : string) : string := replace_from old new 0 s.

(** [f"{prefix}{i}"] *)
Definition day_key (prefix : string) (i : nat) : string :=
  (prefix ++ str_of_int (Z.of_nat i))%string.

(** ** Form submission: from the widgets to the stored form data *)

(** The run of [main] in which the form is submitted.  The widgets are
    given by what they hold, the per-day ones for each day number;
    [session_state] is the session state the run starts with.  The result
    is [None] when the run is stopped by [st.stop()]. *)
Module Form.

(** [number_text_input(label, key=key, value=0.0, ...)]: the number
    returned, and the session state with the error flag of the field. *)
Definition number_input (st : session) (key text : string) : result (float * session) :=
  let* (num_val, has_error) := number_text_input text default_min_value in
  Ok (num_val, <[(key ++ "_has_error")%string := VBool has_error]> st).

Definition input_prefixes : list string :=
  ["mileage_"; "airfare_"; "ground_"; "parking_"; "lodging_"; "baggage_"; "misc_";
   "misc2_"]%string.

(** The scan of the session state for error flags of the numeric
    fields. *)
Definition has_validation_errors (st : session) : bool :=
  existsb
    (fun '(key, flag) =>
       endswith key "_has_error" && truthy flag
       && (let base_key := replace key "_has_error" "" in
           existsb (fun prefix => startswith base_key prefix) input_prefixes))
    (map_to_list st).

(** [not field or not field.strip()] *)
Definition blank (field : string) : bool :=
  negb (str_truthy field) || negb (str_truthy (strip field)).

Section Widgets.

Variable session_state : session.
Variables name address1 city state zip_code destination email : string.
Variable total_days : Z.
Variables mileage_date_text expense_date_text per_diem_date_text : nat -> string.
Variables mileage_text airfare_text ground_text parking_text lodging_text
          baggage_text misc_text misc2_text : nat -> string.
Variables breakfast lunch dinner : nat -> bool.
Variable selected_per_diem : Z.

Definition mileage_inputs : result (session * (list value * list float)) :=
  day_loop total_days (session_state, ([], []))
    (fun '(st, (mileage_dates, mileage_amounts)) i =>
       let mileage_dates := mileage_dates ++ [VStr (mileage_date_text i)] in
       let* (miles, st) := number_input st (day_key "mileage_" i) (mileage_text i) in
       Ok (st, (mileage_dates, mileage_amounts ++ [miles]))).

Definition expense_inputs (st : session)
  : result (session * (list value * list float * list float * list float * list float
                       * list float)) :=
  day_loop total_days (st, ([], [], [], [], [], []))
    (fun '(st, (expense_dates, airfare, ground_transport, parking, lodging, baggage)) i =>
       let expense_dates := expense_dates ++ [VStr (expense_date_text i)] in
       let* (a, st) := number_input st (day_key "airfare_" i) (airfare_text i) in
       let* (g, st) := number_input st (day_key "ground_" i) (ground_text i) in
       let* (p, st) := number_input st (day_key "parking_" i) (parking_text i) in
       let* (l, st) := number_input st (day_key "lodging_" i) (lodging_text i) in
       let* (b, st) := number_input st (day_key "baggage_" i) (baggage_text i) in
       Ok (st, (expense_dates, airfare ++ [a], ground_transport ++ [g], parking ++ [p],
                lodging ++ [l], baggage ++ [b]))).

Definition misc_inputs (st : session) : result (session * list float) :=
  day_loop total_days (st, [])
    (fun '(st, misc) i =>
       let* (m, st) := number_input st (day_key "misc_" i) (misc_text i) in
       Ok (st, misc ++ [m])).

Definition misc2_inputs (st : session) : result (session * list float) :=
  day_loop total_days (st, [])
    (fun '(st, misc2) i =>
       let* (m, st) := number_input st (day_key "misc2_" i) (misc2_text i) in
       Ok (st, misc2 ++ [m])).

Definition per_diem_inputs
  : result (list value * list value * list value * list value * list value) :=
  day_loop total_days ([], [], [], [], [])
    (fun '(per_diem_dates, per_diem_amounts, breakfast_checks, lunch_checks,
           dinner_checks) i =>
       Ok (per_diem_dates ++ [VStr (per_diem_date_text i)],
           per_diem_amounts ++ [VInt selected_per_diem],
           breakfast_checks ++ [VBool (breakfast i)],
           lunch_checks ++ [VBool (lunch i)],
           dinner_checks ++ [VBool (dinner i)])).

Definition missing_fields : list string :=
  (if blank name then ["Name"%string] else [])
  ++ (if blank address1 then ["Address Line 1"%string] else [])
  ++ (if blank city then ["City"%string] else [])
  ++ (if blank state then ["State"%string] else [])
  ++ (if blank zip_code then ["Zip"%string] else [])
  ++ (if blank destination then ["Destination"%string] else [])
  ++ (if blank email then ["Email Address"%string] else []).

(** The form data stored under ['review_data'], unless the run is
    stopped for a missing field or a flagged numeric field. *)
Definition submitted : result (option FormData.t) :=
  let* (st, (mileage_dates, mileage_amounts)) := mileage_inputs in
  let* (st, (expense_dates, airfare, ground_transport, parking, lodging, baggage)) :=
    expense_inputs st in
  let* (st, misc) := misc_inputs st in
  let* (st, misc2) := misc2_inputs st in
  let* (per_diem_dates, per_diem_amounts, breakfast_checks, lunch_checks,
        dinner_checks) := per_diem_inputs in
  match missing_fields with
  | _ :: _ => Ok None
  | [] =>
      if has_validation_errors st then Ok None
      else
        let* form_data :=
          Main.form_data mileage_amounts airfare ground_transport parking lodging baggage
            misc misc2 per_diem_dates per_diem_amounts breakfast_checks lunch_checks
            dinner_checks in
        Ok (Some form_data)
  end.

End Widgets.

End Form.

(** ** The date fields in the session state *)

(** The part of [main] that runs before the form when the dates of the
    trip are given: it keeps the dates of the last run in the session
    state and fills the date fields of the three sections from the
    proposed dates.  The two entries that hold dates are kept in a
    record of their own, beside the texts and flags of [session]; an
    entry that is not in the session state is [None]. *)
Module Defaults.

Record tracked : Type :=
  { last_departure : option (option Date.t);
    last_return : option (option Date.t) }.

(** [if 'last_departure' not in st.session_state: ...], and the same for
    the return date. *)
Definition track (t : tracked) (departure_date return_date : option Date.t) : tracked :=
  {| last_departure :=
       Some (match last_departure t with Some last => last | None => departure_date end);
     last_return :=
       Some (match last_return t with Some last => last | None => return_date end) |}.

(** [dates_changed], on the entries [track] has made sure of. *)
Definition dates_changed (t : tracked) (departure_date return_date : option Date.t) : bool :=
  negb (bool_decide (last_departure t = Some departure_date))
  || negb (bool_decide (last_return t = Some return_date)).

(** The three assignments of one day. *)
Definition set_dates (st : session) (i : nat) (text : string) : session :=
  <[day_key "per_diem_date_" i := VStr text]>
    (<[day_key "expense_date_" i := VStr text]>
       (<[day_key "mileage_date_" i := VStr text]> st)).

(** The body of the loop over [range(0, 100)]. *)
Definition reset_day (default_dates : list string) (st : session) (i : nat) : session :=
  match default_dates !! i with
  | Some d => if str_truthy d then set_dates st i d else set_dates st i ""
  | None => set_dates st i ""
  end.

(** [if key not in st.session_state: st.session_state[key] = ...] *)
Definition init_entry (default_dates : list string) (key : string) (i : nat)
  (st : session) : session :=
  match st !! key with
  | Some _ => st
  | None =>
      <[key := VStr (match default_dates !! i with Some d => d | None => "" end)]> st
  end.

(** The body of the loop over [range(total_days)]. *)
Definition init_day (default_dates : list string) (st : session) (i : nat) : session :=
  init_entry default_dates (day_key "per_diem_date_" i) i
    (init_entry default_dates (day_key "expense_date_" i) i
       (init_entry default_dates (day_key "mileage_date_" i) i st)).

(** The block: [None] when the run is stopped because the return date is
    before the departure date. *)
Definition run (t : tracked) (st : session) (departure_date return_date : option Date.t)
  : result (option (tracked * session)) :=
  if Dates.range_rejected departure_date return_date then Ok None
  else
    let t := track t departure_date return_date in
    let dates_changed := dates_changed t departure_date return_date in
    let total_days := Dates.total_days departure_date return_date in
    let* default_dates := Dates.default_dates departure_date return_date in
    if dates_changed then
      let t := {| last_departure := Some departure_date;
                  last_return := Some return_date |} in
      Ok (Some (t, fold_left (reset_day default_dates) (seq 0 100) st))
    else
      Ok (Some (t, fold_left (init_day default_dates) (seq 0 (Z.to_nat total_days)) st)).

End Defaults.

(** ** Further vocabulary *)

(** The pair the second per diem loop of [create_pdf] appends for day
    [i]: the daily meal total and the dollar reduction. *)
Definition meal_day (fd : FormData.t) (i : nat) : result (float * float) :=
  if present_at (FormData.per_diem_dates fd) i then
    let* base_per_diem :=
      match FormData.per_diem_amounts fd !! i with
      | Some v => if truthy v then py_int v else Ok 80
      | None => Raise IndexError
      end in
    let deducts :=
      default CreatePdf.meal_deductions_80 (CreatePdf.meal_deductions !! base_per_diem) in
    let deduction_total := CreatePdf.deduction_total fd deducts i in
    let* base_float := float_of_int base_per_diem in
    Ok (Float.round (float_max Float.zero (Float.sub base_float deduction_total)) 2,
        Float.round deduction_total 2)
  else Ok (Float.zero, Float.zero).

(** The three meal boxes of day [i]. *)
Definition meal_flags (fd : FormData.t) (i : nat) : bool * bool * bool :=
  (flag_at (FormData.breakfast_checks fd) i, flag_at (FormData.lunch_checks fd) i,
   flag_at (FormData.dinner_checks fd) i).

(** A form to exercise the statements: the three day trip at the rate of
    80, breakfast provided on the second day, nothing else claimed. *)
Definition trip_form : FormData.t :=
  {| FormData.mileage_amounts := [VFloat Float.zero; VFloat Float.zero; VFloat Float.zero];
     FormData.per_diem_dates := trip_dates;
     FormData.per_diem_amounts := [VInt 80; VInt 80; VInt 80];
     FormData.breakfast_checks := [VBool false; VBool true; VBool false];
     FormData.lunch_checks := unchecked; FormData.dinner_checks := unchecked;
     FormData.total_mileage := NInt 0; FormData.total_airfare := NFloat Float.zero;
     FormData.total_ground_transport := NFloat Float.zero;
     FormData.total_parking := NFloat Float.zero;
     FormData.total_lodging := NFloat Float.zero;
     FormData.total_baggage := NFloat Float.zero;
     FormData.total_misc := NFloat Float.zero;
     FormData.total_per_diem := NFloat (Float.of_Z 180);
     FormData.total_amount_due := NFloat (Float.of_Z 180) |}.

(** Every dated day has an entry in the per diem amounts. *)
Definition amounts_cover_dates (fd : FormData.t) : bool :=
  forallb
    (fun i => negb (present_at (FormData.per_diem_dates fd) i)
              || bool_decide (is_Some (FormData.per_diem_amounts fd !! i)))
    (seq 0 (length (FormData.per_diem_dates fd))).

(** The texts of [k] days in a row, from the day [start] on. *)
Definition dates_from (start : Date.t) (k : nat) : list string :=
  map (fun j => Date.strftime_mdy (start + Z.of_nat j)) (seq 0 k).

(** The number a numeric field yields for a text, with the default
    minimum. *)
Definition number_value (text : string) : float :=
  match number_text_input text default_min_value with
  | Ok (num_val, _) => num_val
  | Raise _ => Float.zero
  end.

(** The entries of a per-day widget for the days [0 .. n-1]. *)
Definition per_day {A B : Type} (wrap : A -> B) (widget : nat -> A) (n : nat) : list B :=
  map (fun i => wrap (widget i)) (seq 0 n).

(** The cell in column [c] of row [r] of table [k]. *)
Definition cell {A : Type} (tables : list (list (list A))) (k r c : nat) : option A :=
  match tables !! k with
  | Some table =>
      match table !! r with
      | Some row => row !! c
      | None => None
      end
  | None => None
  end.

(** The text of a money cell that is left empty unless [shown] holds. *)
Definition money_cell (shown : float -> bool) (x : float) : value :=
  VStr (if shown x then float_dollars_2f x else "").

(** [x != 0] and [x > 0] on floats. *)
Definition not_zero (x : float) : bool := negb (Float.eqb x Float.zero).
Definition above_zero (x : float) : bool := Float.ltb Float.zero x.

(** The date cell of a day: the date, or the empty text for a blank one. *)
Definition date_cell (d : value) : value := if present d then d else VStr "".

(** The cell in column [c] of row [k]. *)
Definition entry {A : Type} (rows : list (list A)) (k c : nat) : option A :=
  match rows !! k with
  | Some row => row !! c
  | None => None
  end.

(** A text made of digits only. *)
Fixpoint all_digits (s : string) : bool :=
  match s with
  | EmptyString => true
  | String c s' => is_digit c && all_digits s'
  end.

(** The error flag a numeric field leaves for a text, with the default
    minimum. *)
Definition number_flag (text : string) : bool :=
  match number_text_input text default_min_value with
  | Ok (_, has_error) => has_error
  | Raise _ => false
  end.

(** The session key of the error flag of the field of day [i] in the
    family [prefix]. *)
Definition flag_key (prefix : string) (i : nat) : string :=
  (day_key prefix i ++ "_has_error")%string.

(** What that field writes to the session state when it holds [text i]. *)
Definition flag_write (prefix : string) (text : nat -> string) (i : nat) : string * value :=
  (flag_key prefix i, VBool (number_flag (text i))).

(** Writes to the session state, carried out from left to right. *)
Definition write_all (writes : list (string * value)) (st : session) : session :=
  fold_left (fun st kv => <[fst kv := snd kv]> st) writes st.

(** An entry of the session state that the scan of [main] takes for the
    error flag of a numeric field. *)
Definition flags_error (key : string) (flag : value) : bool :=
  endswith key "_has_error" && truthy flag
  && existsb (fun prefix => startswith (replace key "_has_error" "") prefix)
       Form.input_prefixes.

(** The numeric fields of the form: the prefix of their keys and what
    they hold. *)
Definition numeric_fields
  (mileage_text airfare_text ground_text parking_text lodging_text baggage_text
     misc_text misc2_text : nat -> string) : list (string * (nat -> string)) :=
  [("mileage_"%string, mileage_text); ("airfare_"%string, airfare_text);
   ("ground_"%string, ground_text); ("parking_"%string, parking_text);
   ("lodging_"%string, lodging_text); ("baggage_"%string, baggage_text);
   ("misc_"%string, misc_text); ("misc2_"%string, misc2_text)].

(** The flags the widget loops of [main] write for [n] days, in the
    order in which they write them. *)
Definition form_writes (n : nat)
  (mileage_text airfare_text ground_text parking_text lodging_text baggage_text
     misc_text misc2_text : nat -> string) : list (string * value) :=
  map (flag_write "mileage_" mileage_text) (seq 0 n)
  ++ flat_map
       (fun i => [flag_write "airfare_" airfare_text i; flag_write "ground_" ground_text i;
                  flag_write "parking_" parking_text i; flag_write "lodging_" lodging_text i;
                  flag_write "baggage_" baggage_text i])
       (seq 0 n)
  ++ map (flag_write "misc_" misc_text) (seq 0 n)
  ++ map (flag_write "misc2_" misc2_text) (seq 0 n).

(** The prefixes of the keys of the date fields. *)
Definition date_prefixes : list string :=
  ["mileage_date_"; "expense_date_"; "per_diem_date_"]%string.

(** The text proposed for the date field of day [i]. *)
Definition proposed_text (default_dates : list string) (i : nat) : value :=
  VStr (match default_dates !! i with Some d => d | None => "" end).

(** The last character of a text. *)
Fixpoint last_char (s : string) : option ascii :=
  match s with
  | EmptyString => None
  | String c EmptyString => Some c
  | String _ s' => last_char s'
  end.

(** Case analysis on a numeric field of the form, and on a prefix of the
    date fields. *)
Ltac each_field H :=
  unfold numeric_fields in H; simpl in H;
  destruct H as [H|[H|[H|[H|[H|[H|[H|[H|[]]]]]]]]]; injection H as <- <-.

Ltac each_date_prefix H :=
  unfold date_prefixes in H; simpl in H; destruct H as [<-|[<-|[<-|[]]]].

(** ** Tactics *)

(** Case analysis on a membership in [per_diem_options]. *)
Ltac each_option H :=
  unfold per_diem_options in H; simpl in H;
  destruct H as [<-|[<-|[<-|[<-|[<-|[]]]]]].

(** Takes a [Forall] over a literal list apart. *)
Ltac split_Forall H :=
  repeat match type of H with
         | Forall _ (_ :: _) => apply Forall_cons_iff in H as [? H]
         end.

(** ** Results and loops *)

Lemma bind_ok {A B : Type} (r : result A) (k : A -> result B) (b : B) :
  bind r k = Ok b -> exists a, r = Ok a /\ k a = Ok b.
Proof. destruct r as [a|e]; simpl; [eauto | discriminate]. Qed.

Lemma for_each_ext {A S : Type} (xs : list A) (st : S) (f g : S -> A -> result S) :
  (forall s x, In x xs -> f s x = g s x) -> for_each xs st f = for_each xs st g.
Proof.
  revert st. induction xs as [|x xs IH]; intros st H; simpl; [reflexivity|].
  rewrite (H st x) by (left; reflexivity).
  destruct (g st x) as [st'|e]; simpl; [|reflexivity].
  apply IH. intros s y Hy. apply H. right. exact Hy.
Qed.

Lemma for_each_snoc {A B : Type} (f : A -> result B) (xs : list A) (acc : list B) :
  for_each xs acc (fun acc x => let* y := f x in Ok (acc ++ [y]))
  = let* ys := map_result f xs in Ok (acc ++ ys).
Proof.
  revert acc. induction xs as [|x xs IH]; intros acc; simpl.
  - now rewrite app_nil_r.
  - destruct (f x) as [y|e]; simpl; [|reflexivity].
    rewrite IH. destruct (map_result f xs) as [ys|e]; simpl; [|reflexivity].
    now rewrite <- app_assoc.
Qed.

Lemma for_each_snoc2 {A B : Type} (f : A -> result B) (xs : list A) (acc1 acc2 : list B) :
  for_each xs (acc1, acc2)
    (fun '(a1, a2) x => let* y := f x in Ok (a1 ++ [y], a2 ++ [y]))
  = let* ys := map_result f xs in Ok (acc1 ++ ys, acc2 ++ ys).
Proof.
  revert acc1 acc2. induction xs as [|x xs IH]; intros acc1 acc2; simpl.
  - now rewrite !app_nil_r.
  - destruct (f x) as [y|e]; simpl; [|reflexivity].
    rewrite IH. destruct (map_result f xs) as [ys|e]; simpl; [|reflexivity].
    now rewrite <- !app_assoc.
Qed.

Lemma map_result_length {A B : Type} (f : A -> result B) (xs : list A) (ys : list B) :
  map_result f xs = Ok ys -> length ys = length xs.
Proof.
  revert ys. induction xs as [|x xs IH]; intros ys; simpl.
  - intros [= <-]. reflexivity.
  - intros H. apply bind_ok in H as (y & _ & H).
    apply bind_ok in H as (ys' & Hys & [= <-]). simpl. f_equal. now apply IH.
Qed.

Lemma map_result_lookup {A B : Type} (f : A -> result B) (xs : list A) (ys : list B) :
  map_result f xs = Ok ys ->
  forall i x, xs !! i = Some x -> exists y, ys !! i = Some y /\ f x = Ok y.
Proof.
  revert ys. induction xs as [|x xs IH]; intros ys H i x' Hi.
  - destruct i; discriminate.
  - simpl in H. apply bind_ok in H as (y & Hy & H).
    apply bind_ok in H as (ys' & Hys & [= <-]).
    destruct i as [|i]; simpl in *.
    + injection Hi as <-. eauto.
    + eapply IH; eauto.
Qed.

Lemma map_result_total {A B : Type} (f : A -> result B) (xs : list A) :
  (forall x, In x xs -> exists y, f x = Ok y) -> exists ys, map_result f xs = Ok ys.
Proof.
  induction xs as [|x xs IH]; intros H; simpl; [eauto|].
  destruct (H x) as [y Hy]; [left; reflexivity|]. rewrite Hy. simpl.
  destruct IH as [ys Hys]; [intros z Hz; apply H; right; exact Hz|].
  rewrite Hys. simpl. eauto.
Qed.

(** ** The active day set *)

Lemma enumerate_from_In {A : Type} (xs : list A) (k i : nat) (x : A) :
  In (i, x) (enumerate_from k xs) <-> (k <= i)%nat /\ xs !! (i - k)%nat = Some x.
Proof.
  revert k. induction xs as [|y xs IH]; intros k; simpl.
  - split; [tauto | intros [_ H]; discriminate].
  - rewrite IH. split.
    + intros [[= <- <-] | [Hk Hx]].
      * split; [lia|]. now replace (k - k)%nat with 0%nat by lia.
      * split; [lia|]. replace (i - k)%nat with (S (i - S k)) by lia. exact Hx.
    + intros [Hk Hx]. destruct (i - k)%nat as [|n] eqn:E; simpl in Hx.
      * left. injection Hx as <-. f_equal. lia.
      * right. split; [lia|]. now replace (i - S k)%nat with n by lia.
Qed.

Lemma days_with_dates_In (per_diem_dates : list value) (i : nat) :
  In i (Main.days_with_dates per_diem_dates) <-> present_at per_diem_dates i = true.
Proof.
  unfold Main.days_with_dates, present_at. rewrite in_map_iff. split.
  - intros [[j v] [<- H]]. apply filter_In in H as [H Hp]. simpl in *.
    apply enumerate_from_In in H as [_ H].
    rewrite Nat.sub_0_r in H. now rewrite H.
  - destruct (per_diem_dates !! i) as [v|] eqn:E; [|discriminate].
    intros Hp. exists (i, v). split; [reflexivity|].
    apply filter_In. split; [|exact Hp].
    apply enumerate_from_In. rewrite Nat.sub_0_r. split; [lia | exact E].
Qed.

Lemma first_day_idx_head (per_diem_dates : list value) (i : nat) :
  In i (Main.days_with_dates per_diem_dates) ->
  ((i =? Main.first_day_idx per_diem_dates)%nat = true
   <-> head (Main.days_with_dates per_diem_dates) = Some i).
Proof.
  unfold Main.first_day_idx. destruct (Main.days_with_dates per_diem_dates) as [|j l].
  - intros [].
  - intros _. simpl. rewrite Nat.eqb_eq.
    split; [intros ->; reflexivity | intros [= ->]; reflexivity].
Qed.

Lemma list_last_Some {A : Type} (l : list A) (d : A) :
  l <> [] -> last l = Some (List.last l d).
Proof.
  induction l as [|x l IH]; [congruence|]. intros _.
  destruct l as [|y l]; [reflexivity|].
  change (last (y :: l) = Some (List.last (y :: l) d)). apply IH. discriminate.
Qed.

Lemma last_day_idx_last (per_diem_dates : list value) (i : nat) :
  In i (Main.days_with_dates per_diem_dates) ->
  ((i =? Main.last_day_idx per_diem_dates)%nat = true
   <-> last (Main.days_with_dates per_diem_dates) = Some i).
Proof.
  unfold Main.last_day_idx. intros Hin.
  rewrite (list_last_Some _ 0%nat) by (intros E; rewrite E in Hin; destruct Hin).
  rewrite Nat.eqb_eq. split; [intros ->; reflexivity | intros [= ->]; reflexivity].
Qed.

(** A date typed in the form counts when it is not blank. *)
Lemma present_str (s : string) : present (VStr s) = str_truthy (strip s).
Proof. unfold present. simpl. destruct s; reflexivity. Qed.

(** ** Order of the floats *)

Lemma SFcompare_antisym (x y : float) :
  SFcompare y x = option_map CompOpp (SFcompare x y).
Proof.
  destruct x as [sx|sx| |sx mx ex], y as [sy|sy| |sy my ey]; simpl;
    try reflexivity;
    try (destruct sx; reflexivity); try (destruct sy; reflexivity);
    try (destruct sx, sy; reflexivity).
  destruct sx, sy; simpl; try reflexivity; f_equal;
    rewrite (Z.compare_antisym ex ey);
    destruct (ex ?= ey); simpl; try reflexivity;
    rewrite (Pos.compare_cont_antisym mx my Eq); reflexivity.
Qed.

Lemma ltb_false_leb (x y : float) :
  Float.is_nan x = false -> Float.is_nan y = false ->
  Float.ltb x y = false -> Float.leb y x = true.
Proof.
  unfold Float.ltb, Float.leb, SFltb, SFleb. intros Hx Hy.
  rewrite (SFcompare_antisym x y).
  destruct (SFcompare x y) as [[]|] eqn:E; simpl; try reflexivity; try discriminate.
  destruct x, y; simpl in *; try discriminate;
    repeat match goal with s : bool |- _ => destruct s end; discriminate.
Qed.

Lemma leb_refl (x : float) : Float.is_nan x = false -> Float.leb x x = true.
Proof.
  unfold Float.leb, SFleb. destruct x as [s|s| |s m e]; simpl; try discriminate; intros _.
  - reflexivity.
  - now destruct s.
  - destruct s; rewrite Z.compare_refl, Pos.compare_cont_refl; reflexivity.
Qed.

Lemma float_max_zero_not_negative (x : float) :
  not_negative (float_max Float.zero x) = true.
Proof.
  unfold not_negative, float_max, Float.ltb, SFltb, Float.zero.
  destruct x as [s|s| |s m e]; simpl; try reflexivity; destruct s; reflexivity.
Qed.

(** ** Integers that convert to a float without rounding *)

Lemma digits2_pos_iter_xO (m k : positive) :
  digits2_pos (Pos.iter xO m k) = (digits2_pos m + k)%positive.
Proof.
  induction k as [|k IH] using Pos.peano_ind.
  - simpl. lia.
  - rewrite Pos.iter_succ. simpl. rewrite IH. lia.
Qed.

Lemma digits2_pos_bound (m : positive) (n : Z) :
  0 <= n -> Zpos m < 2 ^ n -> Zpos (digits2_pos m) <= n.
Proof.
  revert n. induction m as [m IH|m IH|]; intros n Hn H; simpl.
  - assert (0 < n) by (destruct (Z.eq_dec n 0) as [->|]; [simpl in H|]; lia).
    replace n with (Z.succ (n - 1)) in H by lia. rewrite Z.pow_succ_r in H by lia.
    specialize (IH (n - 1)). lia.
  - assert (0 < n) by (destruct (Z.eq_dec n 0) as [->|]; [simpl in H|]; lia).
    replace n with (Z.succ (n - 1)) in H by lia. rewrite Z.pow_succ_r in H by lia.
    specialize (IH (n - 1)). lia.
  - assert (0 < n) by (destruct (Z.eq_dec n 0) as [->|]; [simpl in H|]; lia). lia.
Qed.

Lemma binary_round_aux_canonical (s : bool) (m : positive) (e : Z) :
  Zpos (digits2_pos m) = 53 -> -1074 <= e <= 971 ->
  binary_round_aux Float.prec Float.emax s (Zpos m) e loc_Exact = S754_finite s m e.
Proof.
  intros Hd He. unfold binary_round_aux, shr_fexp, Zdigits2.
  assert (E : fexp Float.prec Float.emax (Z.pos (digits2_pos m) + e) - e = 0).
  { unfold fexp, emin, Float.prec, Float.emax. rewrite Hd. lia. }
  rewrite E. simpl. rewrite E. simpl.
  unfold Float.emax, Float.prec.
  destruct (e <=? 1024 - 53) eqn:L; [reflexivity|]. apply Z.leb_gt in L. lia.
Qed.

Lemma binary_round_small (s : bool) (m : positive) :
  Zpos m < 2 ^ 53 ->
  exists m' e', binary_round Float.prec Float.emax s m 0 = S754_finite s m' e'.
Proof.
  intros H. pose proof (digits2_pos_bound m 53 ltac:(lia) H) as Hd.
  unfold binary_round, shl_align.
  assert (E : fexp Float.prec Float.emax (Z.pos (digits2_pos m) + 0)
              = Z.pos (digits2_pos m) - 53).
  { unfold fexp, emin, Float.prec, Float.emax. lia. }
  rewrite E.
  destruct (Z.pos (digits2_pos m) - 53 - 0) as [|p|p] eqn:D; try lia.
  - rewrite binary_round_aux_canonical; [eauto | lia | lia].
  - rewrite binary_round_aux_canonical; [eauto | | lia].
    rewrite digits2_pos_iter_xO. lia.
Qed.

Lemma float_of_int_small (z : Z) :
  Z.abs z < 2 ^ 53 -> exists f, float_of_int z = Ok f.
Proof.
  intros H. unfold float_of_int, Float.of_Z, binary_normalize.
  destruct z as [|m|m].
  - eauto.
  - destruct (binary_round_small false m) as (m' & e' & ->); [lia | eauto].
  - destruct (binary_round_small true m) as (m' & e' & ->); [lia | eauto].
Qed.

Lemma plain_tier_ok (v : value) : plain_tier v -> tier_ok v = true.
Proof.
  unfold tier_ok. destruct v as [|b|z|f|s]; simpl; try tauto.
  - intros _. destruct b; reflexivity.
  - intros H. destruct (z =? 0); simpl; [reflexivity|].
    destruct (float_of_int_small z H) as [f ->]. reflexivity.
Qed.

(** ** Signs *)

Lemma binary_round_aux_signed (s : bool) (m e : Z) (l : location) :
  signed s (binary_round_aux Float.prec Float.emax s m e l).
Proof.
  unfold binary_round_aux.
  destruct (shr_fexp _ _ m e l) as [mrs e'].
  destruct (shr_fexp _ _ _ e' loc_Exact) as [mrs' e''].
  destruct (shr_m mrs'); simpl; [reflexivity | | exact I].
  destruct (_ <=? _); reflexivity.
Qed.

Lemma binary_round_signed (s : bool) (m : positive) (e : Z) :
  signed s (binary_round Float.prec Float.emax s m e).
Proof.
  unfold binary_round. destruct (shl_align _ _ _) as [mz ez].
  apply binary_round_aux_signed.
Qed.

Lemma signed_not_negative (x : float) : signed false x -> not_negative x = true.
Proof. destruct x as [s|s| |s m e]; simpl; try intros ->; reflexivity. Qed.

Lemma add_not_negative (x y : float) :
  not_negative x = true -> not_negative y = true -> not_negative (Float.add x y) = true.
Proof.
  destruct x as [sx|sx| |sx mx ex], y as [sy|sy| |sy my ey];
    try (destruct sx; try discriminate); try (destruct sy; try discriminate);
    try reflexivity.
  intros _ _. apply signed_not_negative.
  unfold Float.add, SFadd, cond_Zopp.
  destruct (shl_align mx ex _) as [a ea], (shl_align my ey _) as [b eb]. simpl fst.
  change (Z.pos a + Z.pos b) with (Z.pos (a + b)).
  apply binary_round_signed.
Qed.

Lemma mul_not_negative (x : float) (m : positive) (e : Z) :
  not_negative x = true -> not_negative (Float.mul x (S754_finite false m e)) = true.
Proof.
  destruct x as [sx|sx| |sx mx ex]; try (destruct sx; try discriminate); try reflexivity.
  intros _. apply signed_not_negative. apply (binary_round_aux_signed false).
Qed.

Lemma of_decimal_signed (s : bool) (k e10 : Z) : signed s (Float.of_decimal s k e10).
Proof.
  unfold Float.of_decimal. destruct k as [|p|p]; try reflexivity.
  destruct (0 <=? e10).
  - destruct (10 ^ e10); try reflexivity. apply binary_round_signed.
  - destruct (10 ^ (- e10)) as [|q|q]; try reflexivity.
    unfold Float.of_ratio, Float.div, SFdiv.
    destruct (SFdiv_core_binary _ _ _ _ _ _) as [[mz ez] lz].
    rewrite xorb_false_r. apply binary_round_aux_signed.
Qed.

Lemma round_not_negative (x : float) (n : Z) :
  not_negative x = true -> not_negative (Float.round x n) = true.
Proof.
  destruct x as [sx|sx| |sx mx ex]; try (intros H; exact H).
  destruct sx; [discriminate|]. intros _. apply signed_not_negative.
  apply of_decimal_signed.
Qed.

(** ** Sums of floats *)

Lemma py_sum_fold (xs : list float) : py_sum xs = fold_left add_float xs (NInt 0).
Proof.
  destruct xs as [|x xs]; [reflexivity|].
  unfold py_sum. change (fold_left add_float (x :: xs) (NInt 0))
    with (fold_left add_float xs (NFloat (Float.add (Float.of_Z 0) x))).
  generalize (Float.add (Float.of_Z 0) x). induction xs as [|y xs IH]; intros f.
  - reflexivity.
  - apply (IH (Float.add f y)).
Qed.

Lemma add_zero_l (z x : float) :
  Float.is_zero z = true -> Float.is_zero x = false -> Float.add z x = x.
Proof. destruct z, x; try discriminate; reflexivity. Qed.

Lemma add_zero_r (x z : float) :
  Float.is_zero z = true -> Float.is_zero x = false -> Float.add x z = x.
Proof. destruct z, x; try discriminate; reflexivity. Qed.

Lemma add_zero_zero (x z : float) :
  Float.is_zero x = true -> Float.is_zero z = true -> Float.is_zero (Float.add x z) = true.
Proof. destruct x as [[]| | |], z as [[]| | |]; try discriminate; reflexivity. Qed.

Lemma mul_zero_l (z x : float) (s : bool) (m : positive) (e : Z) :
  Float.is_zero z = true -> Float.is_zero (Float.mul z (S754_finite s m e)) = true.
Proof. destruct z; try discriminate; reflexivity. Qed.

Lemma running_total_add (a : num) (x : float) : running_total (add_float a x).
Proof. right. destruct a; simpl; eauto. Qed.

Lemma add_float_same_or_zeros (a b : num) (x : float) :
  running_total a -> running_total b -> same_or_zeros a b ->
  same_or_zeros (add_float a x) (add_float b x).
Proof.
  intros Ha Hb [->|[Za Zb]]; [left; reflexivity|].
  assert (Ea : exists z, Float.is_zero z = true /\ add_float a x = NFloat (Float.add z x)).
  { destruct Ha as [->|[f ->]];
      [exists (Float.of_Z 0); split; reflexivity | exists f; split; [exact Za | reflexivity]]. }
  assert (Eb : exists z, Float.is_zero z = true /\ add_float b x = NFloat (Float.add z x)).
  { destruct Hb as [->|[f ->]];
      [exists (Float.of_Z 0); split; reflexivity | exists f; split; [exact Zb | reflexivity]]. }
  destruct Ea as (za & Hza & ->), Eb as (zb & Hzb & ->).
  destruct (Float.is_zero x) eqn:Zx.
  - right. simpl. split; now apply add_zero_zero.
  - left. now rewrite !add_zero_l.
Qed.

Lemma add_float_zero_r (a b : num) (z : float) :
  running_total b -> same_or_zeros a b -> Float.is_zero z = true ->
  same_or_zeros a (add_float b z).
Proof.
  intros Hb Hab Hz.
  destruct (num_is_zero b) eqn:Zb.
  - right. split.
    + destruct Hab as [->|[Za _]]; assumption.
    + destruct Hb as [->|[f ->]].
      * now apply (add_zero_zero (Float.of_Z 0) z).
      * now apply (add_zero_zero f z).
  - destruct Hab as [->|[_ Zb']]; [|congruence].
    left. destruct Hb as [->|[f ->]]; [discriminate|].
    unfold add_float. now rewrite add_zero_r.
Qed.

Lemma sum_skipping_zeros (xs : list float) (a b : num) :
  running_total a -> running_total b -> same_or_zeros a b ->
  same_or_zeros
    (fold_left add_float
       (map (fun m => Float.mul m Float.lit_0_70) (List.filter float_truthy xs)) a)
    (fold_left add_float (map (fun m => Float.mul m Float.lit_0_70) xs) b).
Proof.
  revert a b. induction xs as [|x xs IH]; intros a b Ha Hb Hab; simpl; [exact Hab|].
  unfold float_truthy at 1. destruct (Float.is_zero x) eqn:Zx; simpl.
  - apply IH; [exact Ha | apply running_total_add |].
    apply add_float_zero_r; [exact Hb | exact Hab |].
    now apply mul_zero_l.
  - apply IH; [apply running_total_add | apply running_total_add |].
    now apply add_float_same_or_zeros.
Qed.

Lemma num_is_zero_eqb (a b : num) :
  num_is_zero a = true -> num_is_zero b = true -> num_eqb a b = true.
Proof.
  destruct a as [x|f], b as [y|g]; simpl; intros Ha Hb.
  - apply Z.eqb_eq in Ha, Hb. now subst.
  - apply Z.eqb_eq in Ha. subst. now destruct g.
  - apply Z.eqb_eq in Hb. subst. now destruct f.
  - now destruct f, g.
Qed.

Lemma num_round_zero (a : num) (n : Z) :
  num_is_zero a = true -> num_is_zero (num_round a n) = true.
Proof. destruct a as [z|f]; simpl; [auto|]. now destruct f. Qed.

Lemma running_total_py_sum (xs : list float) : running_total (py_sum xs).
Proof. destruct xs; [now left | right; eexists; reflexivity]. Qed.

Lemma running_total_round (n : num) (k : Z) : running_total n -> running_total (num_round n k).
Proof. intros [->|[f ->]]; [now left | right; eexists; reflexivity]. Qed.

Lemma num_add_running (a b : num) :
  running_total a -> running_total b -> exists c, num_add a b = Ok c /\ running_total c.
Proof.
  intros [->|[f ->]] [->|[g ->]].
  - exists (NInt 0). split; [reflexivity | now left].
  - exists (NFloat (Float.add (Float.of_Z 0) g)). split; [reflexivity | right; eauto].
  - exists (NFloat (Float.add f (Float.of_Z 0))). split; [reflexivity | right; eauto].
  - exists (NFloat (Float.add f g)). split; [reflexivity | right; eauto].
Qed.

(** ** Totals that are not negative *)


Lemma py_sum_not_negative (xs : list float) :
  Forall (fun x => not_negative x = true) xs -> total_not_negative (py_sum xs).
Proof.
  destruct xs as [|x xs]; [now left|]. intros H.
  apply Forall_cons_iff in H as [Hx H]. right. eexists. split; [reflexivity|].
  assert (H0 : not_negative (Float.add (Float.of_Z 0) x) = true)
    by (apply add_not_negative; [reflexivity | exact Hx]).
  revert H0. generalize (Float.add (Float.of_Z 0) x).
  induction H as [|y ys Hy _ IH]; intros f Hf; simpl; [exact Hf|].
  apply IH. now apply add_not_negative.
Qed.

Lemma num_round_not_negative (n : num) (k : Z) :
  total_not_negative n -> total_not_negative (num_round n k).
Proof.
  intros [->|(f & -> & H)]; [now left|].
  right. eexists. split; [reflexivity|]. now apply round_not_negative.
Qed.

Lemma num_add_not_negative (a b : num) :
  total_not_negative a -> total_not_negative b ->
  exists c, num_add a b = Ok c /\ total_not_negative c.
Proof.
  intros [->|(f & -> & Hf)] [->|(g & -> & Hg)].
  - exists (NInt 0). split; [reflexivity|]. now left.
  - exists (NFloat (Float.add (Float.of_Z 0) g)). split; [reflexivity|].
    right. eexists. split; [reflexivity|]. now apply add_not_negative.
  - exists (NFloat (Float.add f (Float.of_Z 0))). split; [reflexivity|].
    right. eexists. split; [reflexivity|]. now apply add_not_negative.
  - exists (NFloat (Float.add f g)). split; [reflexivity|].
    right. eexists. split; [reflexivity|]. now apply add_not_negative.
Qed.


(** ** The deduction table *)

(** The table is written out twice in the source, with the same entries. *)
Lemma meal_deductions_agree : CreatePdf.meal_deductions = Main.meal_deductions.
Proof. reflexivity. Qed.

Lemma meal_deductions_unrecognised (t : Z) :
  ~ In t per_diem_options -> Main.meal_deductions !! t = None.
Proof.
  unfold per_diem_options, Main.meal_deductions. simpl. intros H.
  rewrite !lookup_insert_ne by (intros E; subst t; tauto). apply lookup_empty.
Qed.

(** The [first_last] entry of a tier is what a first or last day is worth
    when no meal is deducted. *)
Lemma first_last_is_three_quarters (t : Z) (row : deduction_row) :
  Main.meal_deductions !! t = Some row ->
  first_last row = Float.round (Float.mul (Float.of_Z t) Float.lit_0_75) 2.
Proof.
  intros H.
  destruct (decide (In t per_diem_options)) as [Hin|Hout].
  - each_option Hin; vm_compute in H; injection H as <-; vm_compute; reflexivity.
  - rewrite (meal_deductions_unrecognised t Hout) in H. discriminate.
Qed.

(** ** The per diem loops *)

Section MainLoop.

Variables dates amounts bs ls ds : list value.

Lemma main_adjusted_map_result :
  Main.adjusted_per_diem_daily dates amounts bs ls ds
  = map_result (main_day dates amounts bs ls ds) (seq 0 (length dates)).
Proof.
  unfold Main.adjusted_per_diem_daily.
  rewrite (for_each_ext _ _ _
             (fun acc i => let* y := main_day dates amounts bs ls ds i in Ok (acc ++ [y]))).
  - rewrite for_each_snoc. now destruct (map_result _ _).
  - intros acc i _. unfold main_day. now destruct (present_at dates i).
Qed.

Lemma base_per_diem_ok (i : nat) :
  (forall v, amounts !! i = Some v -> tier_ok v = true) ->
  exists base base_float,
    Main.base_per_diem amounts i = Ok base /\ float_of_int base = Ok base_float.
Proof.
  unfold Main.base_per_diem. intros H.
  destruct (amounts !! i) as [v|].
  - specialize (H v eq_refl). unfold tier_ok in H.
    destruct (if truthy v then py_int v else Ok 80) as [z|]; [|discriminate].
    destruct (float_of_int z) as [f|] eqn:E; [|discriminate]. eauto.
  - exists 80. eexists. split; [reflexivity|]. vm_compute. reflexivity.
Qed.

Lemma pre75_total_ok (i : nat) (base : Z) (base_float : float) :
  Main.base_per_diem amounts i = Ok base ->
  float_of_int base = Ok base_float ->
  Main.pre75_total amounts bs ls ds i
  = Ok (float_max Float.zero
          (Float.sub base_float
             (Main.deduction_total bs ls ds
                (default Main.meal_deductions_80 (Main.meal_deductions !! base)) i))).
Proof.
  intros Hb Hf. unfold Main.pre75_total. rewrite Hb. simpl. rewrite Hf. reflexivity.
Qed.

Lemma adjusted_total :
  (forall i v, present_at dates i = true -> amounts !! i = Some v -> tier_ok v = true) ->
  exists adj, Main.adjusted_per_diem_daily dates amounts bs ls ds = Ok adj.
Proof.
  intros H. rewrite main_adjusted_map_result. apply map_result_total.
  intros i _. unfold main_day. destruct (present_at dates i) eqn:Hp; [|eauto].
  destruct (base_per_diem_ok i) as (base & bf & Hb & Hf); [intros v; apply H, Hp|].
  unfold Main.final_per_diem. rewrite (pre75_total_ok i base bf Hb Hf). simpl.
  destruct (_ || _); eauto.
Qed.

Lemma adjusted_lookup (adj : list float) (i : nat) :
  Main.adjusted_per_diem_daily dates amounts bs ls ds = Ok adj ->
  (i < length dates)%nat ->
  exists y, adj !! i = Some y /\ main_day dates amounts bs ls ds i = Ok y.
Proof.
  rewrite main_adjusted_map_result. intros H Hi.
  apply (map_result_lookup _ _ _ H i i). now apply lookup_seq_lt.
Qed.

Lemma adjusted_length (adj : list float) :
  Main.adjusted_per_diem_daily dates amounts bs ls ds = Ok adj ->
  length adj = length dates.
Proof.
  rewrite main_adjusted_map_result. intros H.
  apply map_result_length in H. now rewrite length_seq in H.
Qed.

End MainLoop.

Lemma create_pdf_adjusted_loop (fd : FormData.t) :
  CreatePdf.adjusted_loop fd
  = let* ys := map_result
                 (main_day (FormData.per_diem_dates fd) (FormData.per_diem_amounts fd)
                    (FormData.breakfast_checks fd) (FormData.lunch_checks fd)
                    (FormData.dinner_checks fd))
                 (seq 0 (length (FormData.per_diem_dates fd))) in
    Ok (ys, ys).
Proof.
  unfold CreatePdf.adjusted_loop.
  rewrite (for_each_ext _ _ _
             (fun '(a1, a2) i =>
                let* y := main_day (FormData.per_diem_dates fd) (FormData.per_diem_amounts fd)
                            (FormData.breakfast_checks fd) (FormData.lunch_checks fd)
                            (FormData.dinner_checks fd) i in
                Ok (a1 ++ [y], a2 ++ [y]))).
  - apply (for_each_snoc2 _ _ [] []).
  - intros [a1 a2] i _. unfold main_day.
    destruct (present_at (FormData.per_diem_dates fd) i); [|reflexivity].
    unfold Main.final_per_diem, Main.pre75_total, Main.base_per_diem.
    destruct (FormData.per_diem_amounts fd !! i) as [v|]; simpl.
    + destruct (if truthy v then py_int v else Ok 80) as [base|e]; simpl; [|reflexivity].
      destruct (float_of_int base) as [bf|e]; simpl; [|reflexivity].
      change (CreatePdf.first_day_idx fd) with (Main.first_day_idx (FormData.per_diem_dates fd)).
      change (CreatePdf.last_day_idx fd) with (Main.last_day_idx (FormData.per_diem_dates fd)).
      destruct (_ || _); reflexivity.
    + change (CreatePdf.first_day_idx fd) with (Main.first_day_idx (FormData.per_diem_dates fd)).
      change (CreatePdf.last_day_idx fd) with (Main.last_day_idx (FormData.per_diem_dates fd)).
      destruct (_ || _); reflexivity.
Qed.

Lemma main_day_not_negative (dates amounts bs ls ds : list value) (i : nat) (y : float) :
  main_day dates amounts bs ls ds i = Ok y -> not_negative y = true.
Proof.
  unfold main_day. destruct (present_at dates i); [|intros [= <-]; reflexivity].
  unfold Main.final_per_diem, Main.pre75_total.
  destruct (Main.base_per_diem amounts i) as [base|]; [|discriminate]. simpl.
  destruct (float_of_int base) as [bf|]; [|discriminate]. simpl.
  destruct (_ || _); intros [= <-]; apply round_not_negative.
  - apply mul_not_negative, float_max_zero_not_negative.
  - apply float_max_zero_not_negative.
Qed.

Lemma adjusted_not_negative (dates amounts bs ls ds : list value) (adj : list float) :
  Main.adjusted_per_diem_daily dates amounts bs ls ds = Ok adj ->
  Forall (fun x => not_negative x = true) adj.
Proof.
  intros Hadj. apply Forall_lookup. intros i y Hy.
  assert (Hi : (i < length dates)%nat).
  { rewrite <- (adjusted_length _ _ _ _ _ _ Hadj). now apply lookup_lt_Some in Hy. }
  destruct (adjusted_lookup _ _ _ _ _ adj i Hadj Hi) as (y' & Hy' & Hday).
  rewrite Hy in Hy'. injection Hy' as <-. now apply main_day_not_negative in Hday.
Qed.

(** ** The totals of [main] *)

Section MainTotals.

Variables mileage_amounts airfare ground_transport parking lodging
          baggage misc misc2 : list float.
Variables dates amounts bs ls ds : list value.

(** Sums that stay in a class closed under [+] can be chained as
    [main] chains them. *)
Lemma main_total_amount_due_in (P : num -> Prop) (adj : list float) :
  (forall a b, P a -> P b -> exists c, num_add a b = Ok c /\ P c) ->
  P (Main.total_mileage mileage_amounts) ->
  P (py_sum airfare) -> P (py_sum ground_transport) -> P (py_sum parking) ->
  P (py_sum lodging) -> P (py_sum baggage) -> P (py_sum misc) -> P (py_sum misc2) ->
  Main.adjusted_per_diem_daily dates amounts bs ls ds = Ok adj ->
  P (py_sum adj) ->
  exists t,
    Main.total_amount_due mileage_amounts airfare ground_transport parking lodging
      baggage misc misc2 dates amounts bs ls ds = Ok t /\ P t.
Proof.
  intros Hadd Hm Ha Hg Hp Hl Hb Hm1 Hm2 Hadj Hpd.
  unfold Main.total_amount_due, Main.total_misc, Main.total_per_diem,
    Main.total_airfare, Main.total_ground_transport, Main.total_parking,
    Main.total_lodging, Main.total_baggage.
  rewrite Hadj.
  destruct (Hadd _ _ Hm1 Hm2) as (tm & -> & Htm). simpl.
  destruct (Hadd _ _ Hm Ha) as (t1 & -> & H1). simpl.
  destruct (Hadd _ _ H1 Hg) as (t2 & -> & H2). simpl.
  destruct (Hadd _ _ H2 Hp) as (t3 & -> & H3). simpl.
  destruct (Hadd _ _ H3 Hl) as (t4 & -> & H4). simpl.
  destruct (Hadd _ _ H4 Hb) as (t5 & -> & H5). simpl.
  destruct (Hadd _ _ H5 Htm) as (t6 & -> & H6). simpl.
  apply (Hadd _ _ H6 Hpd).
Qed.

Lemma main_form_data_ok (t : num) :
  Main.total_amount_due mileage_amounts airfare ground_transport parking lodging
    baggage misc misc2 dates amounts bs ls ds = Ok t ->
  exists fd,
    Main.form_data mileage_amounts airfare ground_transport parking lodging
      baggage misc misc2 dates amounts bs ls ds = Ok fd /\
    FormData.per_diem_dates fd = dates /\ FormData.per_diem_amounts fd = amounts /\
    FormData.breakfast_checks fd = bs /\ FormData.lunch_checks fd = ls /\
    FormData.dinner_checks fd = ds /\ FormData.total_amount_due fd = t.
Proof.
  intros Ht. unfold Main.form_data. rewrite Ht.
  unfold Main.total_amount_due in Ht.
  destruct (Main.total_misc misc misc2) as [tm|]; [|discriminate].
  destruct (Main.total_per_diem dates amounts bs ls ds) as [tp|]; [|discriminate].
  simpl. eexists. split; [reflexivity|]. repeat split.
Qed.

End MainTotals.

(** The grand total of [main] carries no floor of its own, and needs
    none: amounts that are not negative add up to a total that is not
    negative. *)
Lemma main_total_not_negative
  (mileage_amounts airfare ground_transport parking lodging baggage misc misc2 : list float)
  (dates amounts bs ls ds : list value) :
  Forall (Forall (fun x => not_negative x = true))
    [mileage_amounts; airfare; ground_transport; parking; lodging; baggage; misc; misc2] ->
  (forall i v, present_at dates i = true -> amounts !! i = Some v -> tier_ok v = true) ->
  exists t,
    Main.total_amount_due mileage_amounts airfare ground_transport parking lodging
      baggage misc misc2 dates amounts bs ls ds = Ok t /\
    total_not_negative t.
Proof.
  intros H Hok.
  split_Forall H.
  destruct (adjusted_total dates amounts bs ls ds Hok) as [adj Hadj].
  destruct (main_total_amount_due_in mileage_amounts airfare ground_transport parking
              lodging baggage misc misc2 dates amounts bs ls ds total_not_negative adj)
    as (t & Ht & Hnn); try (apply py_sum_not_negative; assumption); try assumption.
  - apply num_add_not_negative.
  - unfold Main.total_mileage. apply num_round_not_negative, py_sum_not_negative.
    apply List.Forall_forall. intros y Hy.
    apply in_map_iff in Hy as (x & <- & Hx). apply filter_In in Hx as [Hx _].
    apply mul_not_negative.
    match goal with
    | Hm : Forall _ mileage_amounts |- _ => rewrite List.Forall_forall in Hm; now apply Hm
    end.
  - apply py_sum_not_negative. eapply adjusted_not_negative; eauto.
  - exists t. split; [exact Ht | exact Hnn].
Qed.

(** ** The amount due of [create_pdf] *)




(** ** The numeric text field, case by case *)

Lemma decimal_of_chars_raises (s : bool) (cs : list ascii) (e : exn) :
  decimal_of_chars s cs = Raise e -> e = ValueError.
Proof.
  unfold decimal_of_chars.
  repeat match goal with
         | |- context [match ?x with _ => _ end] => destruct x
         | |- context [if ?x then _ else _] => destruct x
         end; congruence.
Qed.

Lemma float_of_string_raises (s : string) (e : exn) :
  float_of_string s = Raise e -> e = ValueError.
Proof.
  unfold float_of_string.
  destruct (drop_underscores _ _) as [cs|]; [|congruence].
  destruct (split_sign cs) as [neg body].
  destruct (_ || _); [congruence|].
  destruct (_ =? _)%string; [congruence|].
  apply decimal_of_chars_raises.
Qed.

Lemma number_text_input_blank (text_val : string) (min_value : float) :
  str_truthy (strip text_val) = false ->
  number_text_input text_val min_value = Ok (Float.zero, false).
Proof.
  intros H. unfold number_text_input. rewrite H. now rewrite orb_true_r.
Qed.

Lemma number_text_input_not_blank (text_val : string) (min_value : float) :
  str_truthy (strip text_val) = true ->
  number_text_input text_val min_value
  = match float_of_string (cleaned_text text_val) with
    | Ok num_val =>
        Ok (if Float.ltb num_val min_value then min_value else num_val, false)
    | Raise _ =>
        Ok (Float.zero, negb (matches_plain_number (cleaned_text text_val)))
    end.
Proof.
  intros H. unfold number_text_input. rewrite H.
  assert (Ht : str_truthy text_val = true) by (destruct text_val; [discriminate | reflexivity]).
  rewrite Ht. simpl. fold (cleaned_text text_val).
  destruct (float_of_string (cleaned_text text_val)) as [v|e] eqn:E; [reflexivity|].
  apply float_of_string_raises in E. subst e. reflexivity.
Qed.

(** With the default minimum, as [main] calls it, the field never yields
    an amount below zero. *)
Lemma number_text_input_default_not_negative (text_val : string) :
  exists num_val has_error,
    number_text_input text_val default_min_value = Ok (num_val, has_error) /\
    not_negative num_val = true.
Proof.
  destruct (str_truthy (strip text_val)) eqn:Hs.
  - rewrite (number_text_input_not_blank _ _ Hs).
    destruct (float_of_string (cleaned_text text_val)) as [parsed|e].
    + eexists _, _. split; [reflexivity|].
      destruct (Float.ltb parsed default_min_value) eqn:L; [reflexivity|].
      unfold not_negative. unfold default_min_value in L. now rewrite L.
    + eexists _, _. split; reflexivity.
  - rewrite (number_text_input_blank _ _ Hs). eexists _, _. split; reflexivity.
Qed.

(** ** Worked examples *)

Example spec_example_interior_day :
  Main.adjusted_per_diem_daily
    [VStr "03/01/25"; VStr "03/02/25"; VStr "03/03/25"]
    [VInt 80; VInt 80; VInt 80]
    [VBool false; VBool true; VBool true] [VBool false; VBool true; VBool true]
    [VBool false; VBool false; VBool false]
  = Ok [Float.of_Z 60; Float.of_Z 38; Float.of_decimal false 2850 (-2)].
Proof. vm_compute. reflexivity. Qed.

Example spec_example_three_days :
  Main.total_per_diem
    [VStr "03/01/25"; VStr "03/02/25"; VStr "03/03/25"]
    [VInt 68; VInt 68; VInt 68] [] [] []
  = Ok (NFloat (Float.of_Z 170)).
Proof. vm_compute. reflexivity. Qed.

Example number_text_input_accepts_nan :
  number_text_input "nan" default_min_value = Ok (S754_nan, false).
Proof. vm_compute. reflexivity. Qed.

Example create_pdf_missing_amounts :
  let fd := {| FormData.mileage_amounts := []; FormData.per_diem_dates := [VStr "03/01/25"];
               FormData.per_diem_amounts := []; FormData.breakfast_checks := [];
               FormData.lunch_checks := []; FormData.dinner_checks := [];
               FormData.total_mileage := NInt 0; FormData.total_airfare := NInt 0;
               FormData.total_ground_transport := NInt 0; FormData.total_parking := NInt 0;
               FormData.total_lodging := NInt 0; FormData.total_baggage := NInt 0;
               FormData.total_misc := NInt 0; FormData.total_per_diem := NInt 0;
               FormData.total_amount_due := NInt 0 |} in
  CreatePdf.adjusted_loop fd = Ok ([Float.of_Z 60], [Float.of_Z 60]) /\
  CreatePdf.meal_totals_loop fd = Raise IndexError /\
  forall figs, CreatePdf.create_pdf fd <> Ok figs.
Proof.
  cbv zeta. repeat split; try (vm_compute; reflexivity).
  intros figs H. vm_compute in H. discriminate H.
Qed.

(** ** The per diem of a day (C1, C2, C5, C6) *)

(** C1.  Day by day, the adjusted per diem list of [main] is as follows.
    A day whose date entry is empty gets 0 and is not in the active day
    set.  A day with a date is in the set; its value before adjustment is
    [max(0, base rate - deduction)], which is never below zero; its
    final value is that value times 0.75, rounded to 2 decimals, when
    the day is the first or the last of the active day set, and that
    value rounded to 2 decimals otherwise.  The list exists whenever the
    per diem entries of the dated days are ones [int()] and [float()]
    accept. *)
Theorem adjusted_per_diem_day_by_day (dates amounts bs ls ds : list value) :
  (forall i v, present_at dates i = true -> amounts !! i = Some v -> tier_ok v = true) ->
  exists adj,
    Main.adjusted_per_diem_daily dates amounts bs ls ds = Ok adj /\
    length adj = length dates /\
    forall i, (i < length dates)%nat ->
      if present_at dates i then
        In i (Main.days_with_dates dates) /\
        exists base base_float,
          Main.base_per_diem amounts i = Ok base /\
          float_of_int base = Ok base_float /\
          let deducts := default Main.meal_deductions_80 (Main.meal_deductions !! base) in
          let pre := float_max Float.zero
                       (Float.sub base_float (Main.deduction_total bs ls ds deducts i)) in
          not_negative pre = true /\
          (head (Main.days_with_dates dates) = Some i \/
           last (Main.days_with_dates dates) = Some i ->
           adj !! i = Some (Float.round (Float.mul pre Float.lit_0_75) 2)) /\
          (head (Main.days_with_dates dates) <> Some i ->
           last (Main.days_with_dates dates) <> Some i ->
           adj !! i = Some (Float.round pre 2))
      else
        ~ In i (Main.days_with_dates dates) /\ adj !! i = Some Float.zero.
Proof.
  intros Hok. destruct (adjusted_total dates amounts bs ls ds Hok) as [adj Hadj].
  exists adj. split; [exact Hadj|]. split; [eapply adjusted_length; eauto|].
  intros i Hi. destruct (adjusted_lookup _ _ _ _ _ adj i Hadj Hi) as (y & Hy & Hday).
  unfold main_day in Hday. destruct (present_at dates i) eqn:Hp.
  - assert (Hin : In i (Main.days_with_dates dates)) by now apply days_with_dates_In.
    split; [exact Hin|].
    destruct (base_per_diem_ok amounts i) as (base & bf & Hb & Hf); [intros v; apply Hok, Hp|].
    exists base, bf. split; [exact Hb|]. split; [exact Hf|]. cbv zeta.
    split; [apply float_max_zero_not_negative|].
    unfold Main.final_per_diem in Hday.
    rewrite (pre75_total_ok amounts bs ls ds i base bf Hb Hf) in Hday. simpl in Hday.
    pose proof (first_day_idx_head dates i Hin) as Hfirst.
    pose proof (last_day_idx_last dates i Hin) as Hlast.
    split.
    + intros Hfl.
      assert (E : (i =? Main.first_day_idx dates)%nat
                  || (i =? Main.last_day_idx dates)%nat = true).
      { apply orb_true_iff. destruct Hfl; [left; now apply Hfirst | right; now apply Hlast]. }
      rewrite E in Hday. injection Hday as <-. exact Hy.
    + intros Hnf Hnl.
      assert (E : (i =? Main.first_day_idx dates)%nat
                  || (i =? Main.last_day_idx dates)%nat = false).
      { apply orb_false_iff. split; apply not_true_is_false; intros E.
        - now apply Hnf, Hfirst.
        - now apply Hnl, Hlast. }
      rewrite E in Hday. injection Hday as <-. exact Hy.
  - split; [|injection Hday as <-; exact Hy].
    intros Hin. apply days_with_dates_In in Hin. congruence.
Qed.

Lemma adjusted_per_diem_day_by_day_witness :
  (forall i v, present_at trip_dates i = true ->
               [VInt 68; VInt 68; VInt 68] !! i = Some v -> tier_ok v = true) /\
  exists adj,
    Main.adjusted_per_diem_daily trip_dates [VInt 68; VInt 68; VInt 68]
      unchecked unchecked unchecked = Ok adj /\
    length adj = 3%nat.
Proof.
  assert (H : forall i v, present_at trip_dates i = true ->
                [VInt 68; VInt 68; VInt 68] !! i = Some v -> tier_ok v = true).
  { intros i v _ Hv. destruct i as [|[|[|i]]]; simpl in Hv; try discriminate;
      injection Hv as <-; reflexivity. }
  split; [exact H|].
  destruct (adjusted_per_diem_day_by_day trip_dates [VInt 68; VInt 68; VInt 68]
              unchecked unchecked unchecked H) as (adj & Hadj & Hlen & _).
  exists adj. split; [exact Hadj | exact Hlen].
Defined.




(** C5.  When the active day set holds exactly one day, that day is the
    first and the last at once, and its value is the value before
    adjustment times 0.75, rounded to 2 decimals: the factor is applied
    once.  For the five tiers this differs from what applying it twice
    would give. *)
Theorem single_active_day_reduced_once (dates amounts bs ls ds : list value) (i : nat) :
  Main.days_with_dates dates = [i] ->
  (forall v, amounts !! i = Some v -> tier_ok v = true) ->
  exists adj pre,
    Main.adjusted_per_diem_daily dates amounts bs ls ds = Ok adj /\
    Main.pre75_total amounts bs ls ds i = Ok pre /\
    Main.first_day_idx dates = i /\ Main.last_day_idx dates = i /\
    adj !! i = Some (Float.round (Float.mul pre Float.lit_0_75) 2) /\
    (forall t, amounts !! i = Some (VInt t) -> In t per_diem_options ->
       Float.round (Float.mul pre Float.lit_0_75) 2
       <> Float.round (Float.mul (Float.mul pre Float.lit_0_75) Float.lit_0_75) 2).
Proof.
  intros Hone Hok.
  assert (Hin : forall j, present_at dates j = true <-> j = i).
  { intros j. rewrite <- days_with_dates_In, Hone. simpl. split; [intros [->|[]]|intros ->]; auto. }
  destruct (adjusted_total dates amounts bs ls ds) as [adj Hadj].
  { intros j v Hj. apply Hin in Hj as ->. apply Hok. }
  destruct (base_per_diem_ok amounts i Hok) as (base & bf & Hb & Hf).
  pose proof (pre75_total_ok amounts bs ls ds i base bf Hb Hf) as Hpre.
  eexists adj, _. split; [exact Hadj|]. split; [exact Hpre|].
  assert (Hfirst : Main.first_day_idx dates = i) by (unfold Main.first_day_idx; now rewrite Hone).
  assert (Hlast : Main.last_day_idx dates = i) by (unfold Main.last_day_idx; now rewrite Hone).
  split; [exact Hfirst|]. split; [exact Hlast|]. split.
  - assert (Hlen : (i < length dates)%nat).
    { assert (Hp : present_at dates i = true) by now apply Hin.
      unfold present_at in Hp. destruct (dates !! i) eqn:E; [|discriminate].
      apply lookup_lt_Some in E. exact E. }
    destruct (adjusted_lookup dates amounts bs ls ds adj i Hadj Hlen) as (y & Hy & Hday).
    unfold main_day in Hday. rewrite (proj2 (Hin i) eq_refl) in Hday.
    unfold Main.final_per_diem in Hday. rewrite Hpre, Hfirst in Hday. simpl in Hday.
    rewrite Nat.eqb_refl in Hday. simpl in Hday. injection Hday as <-. exact Hy.
  - intros t Ht Hopt. unfold Main.base_per_diem in Hb. rewrite Ht in Hb.
    unfold Main.deduction_total.
    each_option Hopt; simpl in Hb; injection Hb as <-;
      vm_compute in Hf; injection Hf as <-;
      destruct (flag_at bs i), (flag_at ls i), (flag_at ds i); vm_compute; discriminate.
Qed.

Lemma single_active_day_reduced_once_witness :
  Main.days_with_dates [VStr ""; VStr "03/02/25"; VStr ""] = [1%nat] /\
  (forall v, [VInt 68; VInt 68; VInt 68] !! 1%nat = Some v -> tier_ok v = true) /\
  exists adj,
    Main.adjusted_per_diem_daily [VStr ""; VStr "03/02/25"; VStr ""]
      [VInt 68; VInt 68; VInt 68] unchecked unchecked unchecked = Ok adj /\
    adj !! 1%nat = Some (Float.of_Z 51).
Proof.
  assert (H1 : Main.days_with_dates [VStr ""; VStr "03/02/25"; VStr ""] = [1%nat])
    by reflexivity.
  assert (H2 : forall v, [VInt 68; VInt 68; VInt 68] !! 1%nat = Some v -> tier_ok v = true)
    by (intros v [= <-]; reflexivity).
  split; [exact H1|]. split; [exact H2|].
  destruct (single_active_day_reduced_once [VStr ""; VStr "03/02/25"; VStr ""]
              [VInt 68; VInt 68; VInt 68] unchecked unchecked unchecked 1 H1 H2)
    as (adj & pre & Hadj & Hpre & _ & _ & Hval & _).
  exists adj. split; [exact Hadj|]. rewrite Hval.
  vm_compute in Hpre. injection Hpre as <-. vm_compute. reflexivity.
Defined.

(** C6.  For each of the five tiers and whatever the three meal boxes
    of a day hold, the deduction of the day is the sum of the breakfast,
    lunch and dinner amounts of the tier for the boxes that are ticked;
    the incidental amount is never added, and the position of the day
    does not enter. *)
Theorem deduction_is_sum_of_flagged_meals
  (t : Z) (bs ls ds : list value) (fd : FormData.t) (i : nat) :
  In t per_diem_options ->
  exists row,
    Main.meal_deductions !! t = Some row /\
    CreatePdf.meal_deductions !! t = Some row /\
    Main.deduction_total bs ls ds row i
    = Float.of_Z (flagged_meals row (flag_at bs i) (flag_at ls i) (flag_at ds i)) /\
    CreatePdf.deduction_total fd row i
    = Float.of_Z (flagged_meals row (flag_at (FormData.breakfast_checks fd) i)
                    (flag_at (FormData.lunch_checks fd) i)
                    (flag_at (FormData.dinner_checks fd) i)) /\
    Float.round (CreatePdf.deduction_total fd row i) 2 = CreatePdf.deduction_total fd row i.
Proof.
  intros Hin. each_option Hin;
    (eexists; split; [vm_compute; reflexivity|]; split; [vm_compute; reflexivity|];
     unfold Main.deduction_total, CreatePdf.deduction_total;
     split; [|split];
     [destruct (flag_at bs i), (flag_at ls i), (flag_at ds i)
     |destruct (flag_at (FormData.breakfast_checks fd) i),
               (flag_at (FormData.lunch_checks fd) i),
               (flag_at (FormData.dinner_checks fd) i)
     |destruct (flag_at (FormData.breakfast_checks fd) i),
               (flag_at (FormData.lunch_checks fd) i),
               (flag_at (FormData.dinner_checks fd) i)];
     vm_compute; reflexivity).
Qed.

Lemma deduction_is_sum_of_flagged_meals_witness :
  In 80 per_diem_options /\
  exists row,
    Main.meal_deductions !! 80 = Some row /\
    Main.deduction_total [VBool true] [VBool true] [VBool false] row 0
    = Float.of_Z 42.
Proof.
  assert (H : In 80 per_diem_options) by (simpl; tauto).
  split; [exact H|].
  destruct (deduction_is_sum_of_flagged_meals 80 [VBool true] [VBool true] [VBool false]
              (form_data_of_totals (NInt 0, NInt 0, NInt 0, NInt 0, NInt 0, NInt 0,
                                    NInt 0, NInt 0)) 0 H)
    as (row & Hrow & _ & Hded & _).
  exists row. split; [exact Hrow|]. rewrite Hded.
  vm_compute in Hrow. injection Hrow as <-. vm_compute. reflexivity.
Defined.

(** ** Totality (C3) *)

(** C3 as stated fails.  A per diem entry that [int()] cannot read is not
    replaced by 80: the loop raises [ValueError]. *)
Lemma malformed_tier_raises :
  Main.adjusted_per_diem_daily [VStr "03/01/25"] [VStr "abc"] [] [] [] = Raise ValueError.
Proof. vm_compute. reflexivity. Qed.

(** A list that came out of the loop was read from entries [int()] and
    [float()] accept on every dated day. *)
Lemma adjusted_needs_readable_tiers (dates amounts bs ls ds : list value) (adj : list float) :
  Main.adjusted_per_diem_daily dates amounts bs ls ds = Ok adj ->
  forall i v, present_at dates i = true -> amounts !! i = Some v -> tier_ok v = true.
Proof.
  intros Hadj i v Hp Hv.
  assert (Hi : (i < length dates)%nat).
  { unfold present_at in Hp. destruct (dates !! i) eqn:E; [|discriminate].
    now apply lookup_lt_Some in E. }
  destruct (adjusted_lookup _ _ _ _ _ adj i Hadj Hi) as (y & _ & Hday).
  revert Hday. unfold main_day. rewrite Hp.
  unfold Main.final_per_diem, Main.pre75_total, Main.base_per_diem, tier_ok. rewrite Hv.
  destruct (if truthy v then py_int v else Ok 80) as [base|]; simpl; [|discriminate].
  destruct (float_of_int base); simpl; [reflexivity | discriminate].
Qed.

(** C3 (amended).  The calculation of [main] raises for no dates, meal
    boxes, amounts or list lengths, exactly when the per diem entry of
    every dated day is one that [int()] and then [float()] accept: then,
    and only then, the adjusted per diem list, the grand total and the
    [form_data] dictionary are all produced, and the first per diem loop
    of [create_pdf] returns the same list.  What the entry of a day
    without a date holds does not matter.  A per diem entry that is
    absent or false counts as 80, a meal box that is absent as not
    ticked.  Accepted are [None], a [bool] and an [int] a float holds
    exactly, and also a text such as 80, a float such as 80.9 and an
    [int] such as 2^53 + 1; the text abc is not. *)
Theorem calculation_total_on_readable_tiers
  (mileage_amounts airfare ground_transport parking lodging baggage misc misc2 : list float)
  (dates amounts bs ls ds : list value) :
  ((forall i v, present_at dates i = true -> amounts !! i = Some v -> tier_ok v = true) <->
   (exists adj total fd,
      Main.adjusted_per_diem_daily dates amounts bs ls ds = Ok adj /\
      Main.total_amount_due mileage_amounts airfare ground_transport parking lodging
        baggage misc misc2 dates amounts bs ls ds = Ok total /\
      Main.form_data mileage_amounts airfare ground_transport parking lodging
        baggage misc misc2 dates amounts bs ls ds = Ok fd /\
      CreatePdf.adjusted_loop fd = Ok (adj, adj))) /\
  (forall i, amounts !! i = None \/ (exists v, amounts !! i = Some v /\ truthy v = false) ->
     Main.base_per_diem amounts i = Ok 80) /\
  (forall (checks : list value) i, checks !! i = None -> flag_at checks i = false) /\
  (forall v, plain_tier v -> tier_ok v = true) /\
  tier_ok (VStr "80") = true /\
  tier_ok (VFloat (Float.of_decimal false 809 (-1))) = true /\
  tier_ok (VInt (2 ^ 53 + 1)) = true /\
  tier_ok (VStr "abc") = false.
Proof.
  split; [split|].
  - intros Hok.
    destruct (adjusted_total dates amounts bs ls ds Hok) as [adj Hadj].
    destruct (main_total_amount_due_in mileage_amounts airfare ground_transport parking
                lodging baggage misc misc2 dates amounts bs ls ds running_total adj)
      as (t & Ht & _); try apply running_total_py_sum; try assumption.
    + apply num_add_running.
    + apply running_total_round, running_total_py_sum.
    + destruct (main_form_data_ok _ _ _ _ _ _ _ _ _ _ _ _ _ t Ht)
        as (fd & Hfd & Hd & Ha & Hb & Hl & Hds & _).
      exists adj, t, fd. split; [exact Hadj|]. split; [exact Ht|]. split; [exact Hfd|].
      rewrite create_pdf_adjusted_loop, Hd, Ha, Hb, Hl, Hds.
      rewrite <- main_adjusted_map_result, Hadj. reflexivity.
  - intros (adj & _ & _ & Hadj & _).
    exact (adjusted_needs_readable_tiers dates amounts bs ls ds adj Hadj).
  - split; [|split; [|split; [|repeat split; vm_compute; reflexivity]]].
    + intros i [H|(v & Hv & Hf)]; unfold Main.base_per_diem.
      * now rewrite H.
      * now rewrite Hv, Hf.
    + intros checks i H. unfold flag_at. now rewrite H.
    + exact plain_tier_ok.
Qed.

Lemma calculation_total_on_readable_tiers_witness :
  exists adj total,
    Main.adjusted_per_diem_daily [VStr "03/01/25"; VStr ""; VStr "03/03/25"]
      [VStr "80"; VStr "abc"] [] [] [] = Ok adj /\
    Main.total_amount_due [Float.of_Z 10] [] [] [] [] [] [] []
      [VStr "03/01/25"; VStr ""; VStr "03/03/25"] [VStr "80"; VStr "abc"] [] [] []
    = Ok total.
Proof.
  destruct (proj1 (proj1 (calculation_total_on_readable_tiers
                            [Float.of_Z 10] [] [] [] [] [] [] []
                            [VStr "03/01/25"; VStr ""; VStr "03/03/25"]
                            [VStr "80"; VStr "abc"] [] [] [])))
    as (adj & total & fd & Hadj & Htotal & _).
  - intros i v Hp Hv. destruct i as [|[|[|i]]]; simpl in Hv; try discriminate.
    injection Hv as <-. vm_compute. reflexivity.
  - exists adj, total. split; [exact Hadj | exact Htotal].
Defined.

(** ** The totals (C4, C7, C8) *)








(** C7.  The mileage total of [main] is the sum over all the days of
    [miles * 0.70], rounded once, to whole dollars.  (The code leaves the
    days with no miles out of the sum; that changes nothing but which zero
    an all-zero total is.)  Every other total is the sum of its per-day
    values with no rounding. *)
Theorem mileage_total_rounded_once
  (mileage_amounts airfare ground_transport parking lodging baggage misc misc2 : list float)
  (dates amounts bs ls ds : list value) :
  num_same (Main.total_mileage mileage_amounts)
    (num_round (py_sum (map (fun m => Float.mul m Float.lit_0_70) mileage_amounts)) 0) /\
  Main.total_airfare airfare = py_sum airfare /\
  Main.total_ground_transport ground_transport = py_sum ground_transport /\
  Main.total_parking parking = py_sum parking /\
  Main.total_lodging lodging = py_sum lodging /\
  Main.total_baggage baggage = py_sum baggage /\
  Main.total_misc misc misc2 = num_add (py_sum misc) (py_sum misc2) /\
  Main.total_per_diem dates amounts bs ls ds
  = (let* adjusted := Main.adjusted_per_diem_daily dates amounts bs ls ds in
     Ok (py_sum adjusted)).
Proof.
  split; [|repeat split].
  unfold Main.total_mileage. rewrite !py_sum_fold.
  assert (H0 : running_total (NInt 0)) by now left.
  destruct (sum_skipping_zeros mileage_amounts (NInt 0) (NInt 0) H0 H0) as [->|[Za Zb]].
  - now left.
  - now left.
  - right. apply num_is_zero_eqb; now apply num_round_zero.
Qed.

(** C8.  The two mileage totals are meant to be one figure, and are not.
    For a trip of two days with one mile each, [main] hands over a
    mileage total of 1 (0.7 + 0.7 rounded once), while [create_pdf]
    prints 2 under the mileage table (0.7 rounded twice, then added). *)
Theorem mileage_totals_disagree :
  let miles := [Float.of_Z 1; Float.of_Z 1] in
  let no_expense := [Float.zero; Float.zero] in
  let dates := [VStr "03/01/25"; VStr "03/02/25"] in
  let tiers := [VInt 80; VInt 80] in
  let no_meals := [VBool false; VBool false] in
  number_text_input "1" default_min_value = Ok (Float.of_Z 1, false) /\
  exists fd,
    Main.form_data miles no_expense no_expense no_expense no_expense no_expense
      no_expense no_expense dates tiers no_meals no_meals no_meals = Ok fd /\
    FormData.total_mileage fd = NFloat (Float.of_Z 1) /\
    CreatePdf.mileage_rate_total fd = Float.of_Z 2 /\
    num_eqb (NFloat (CreatePdf.mileage_rate_total fd)) (FormData.total_mileage fd) = false.
Proof.
  cbv zeta. split; [vm_compute; reflexivity|].
  eexists. split; [vm_compute; reflexivity|].
  repeat split; vm_compute; reflexivity.
Qed.

(** ** The two per diem computations (C9) *)

(** C9.  On the same dates, tiers and meal flags, the adjusted per diem
    list and its total worked out by [create_pdf] are the ones worked out
    by [main] when the form is submitted, an exception included. *)
Theorem per_diem_paths_agree (fd : FormData.t) :
  let submitted :=
    Main.adjusted_per_diem_daily (FormData.per_diem_dates fd) (FormData.per_diem_amounts fd)
      (FormData.breakfast_checks fd) (FormData.lunch_checks fd) (FormData.dinner_checks fd) in
  let submitted_total :=
    Main.total_per_diem (FormData.per_diem_dates fd) (FormData.per_diem_amounts fd)
      (FormData.breakfast_checks fd) (FormData.lunch_checks fd) (FormData.dinner_checks fd) in
  CreatePdf.adjusted_loop fd = (let* adj := submitted in Ok (adj, adj)) /\
  (let* (adjusted_per_diem, daily_totals) := CreatePdf.adjusted_loop fd in
   Ok (py_sum daily_totals)) = submitted_total /\
  (forall figs, CreatePdf.create_pdf fd = Ok figs ->
     submitted = Ok (CreatePdf.adjusted_per_diem figs) /\
     submitted_total = Ok (CreatePdf.total_per_diem_calculated figs)).
Proof.
  cbv zeta. rewrite create_pdf_adjusted_loop. unfold Main.total_per_diem.
  rewrite main_adjusted_map_result.
  split; [reflexivity|]. split; [now destruct (map_result _ _)|].
  intros figs. unfold CreatePdf.create_pdf. rewrite create_pdf_adjusted_loop.
  destruct (map_result _ _) as [ys|]; simpl; [|discriminate].
  destruct (CreatePdf.meal_totals_loop fd) as [[m r]|]; simpl; [|discriminate].
  destruct (CreatePdf.sub_totals fd) as [t|]; simpl; [|discriminate].
  intros [= <-]. split; reflexivity.
Qed.

(** ** The numeric text field (C10) *)

(** C10 as stated fails.  With a minimum of 5 an empty field still
    yields 0.0, which is below the minimum. *)
Lemma empty_text_is_below_a_positive_minimum :
  number_text_input "" (Float.of_Z 5) = Ok (Float.zero, false) /\
  Float.leb (Float.of_Z 5) Float.zero = false.
Proof. split; vm_compute; reflexivity. Qed.

(** C10 (amended).  With a minimum that is at most 0, as the default 0.0
    is, [number_text_input] returns for every text a number that is at
    least the minimum whenever it is a number at all: a blank text and a
    text [float()] rejects give 0.0; a text [float()] reads, once
    stripped and cleared of ['$'], [','] and [' '], gives the minimum
    when the value read is below it and the value read otherwise.  With
    the default minimum the result is never below zero. *)
Theorem number_text_input_lower_bound (text_val : string) (min_value : float) :
  Float.leb min_value Float.zero = true ->
  exists num_val has_error,
    number_text_input text_val min_value = Ok (num_val, has_error) /\
    (Float.is_nan num_val = true \/ Float.leb min_value num_val = true) /\
    (str_truthy (strip text_val) = false -> num_val = Float.zero) /\
    (str_truthy (strip text_val) = true ->
     match float_of_string (cleaned_text text_val) with
     | Raise _ => num_val = Float.zero
     | Ok parsed =>
         num_val = (if Float.ltb parsed min_value then min_value else parsed) /\
         (Float.is_nan num_val = true -> Float.is_nan parsed = true)
     end) /\
    (min_value = default_min_value -> not_negative num_val = true).
Proof.
  intros Hmin.
  assert (Hnan : Float.is_nan min_value = false) by (now destruct min_value).
  destruct (str_truthy (strip text_val)) eqn:Hs.
  - rewrite (number_text_input_not_blank _ _ Hs).
    destruct (float_of_string (cleaned_text text_val)) as [parsed|e].
    + eexists _, _. split; [reflexivity|].
      destruct (Float.ltb parsed min_value) eqn:L.
      * split; [right; now apply leb_refl|]. split; [discriminate|].
        split; [intros _; split; [reflexivity | congruence]|].
        intros ->. reflexivity.
      * split.
        { destruct (Float.is_nan parsed) eqn:N; [now left | right].
          now apply ltb_false_leb. }
        split; [discriminate|]. split; [intros _; split; [reflexivity | tauto]|].
        intros ->. unfold not_negative. unfold default_min_value in L. now rewrite L.
    + eexists _, _. split; [reflexivity|]. split; [right; exact Hmin|].
      split; [reflexivity|]. split; [reflexivity|]. reflexivity.
  - rewrite (number_text_input_blank _ _ Hs).
    eexists _, _. split; [reflexivity|]. split; [right; exact Hmin|].
    split; [reflexivity|]. split; [discriminate|]. reflexivity.
Qed.

Lemma number_text_input_lower_bound_witness :
  Float.leb default_min_value Float.zero = true /\
  exists num_val has_error,
    number_text_input "$1,234.50" default_min_value = Ok (num_val, has_error) /\
    num_val = Float.of_decimal false 123450 (-2) /\
    (Float.is_nan num_val = true \/ Float.leb default_min_value num_val = true).
Proof.
  assert (H : Float.leb default_min_value Float.zero = true) by reflexivity.
  split; [exact H|].
  destruct (number_text_input_lower_bound "$1,234.50" default_min_value H)
    as (num_val & has_error & Hrun & Hbound & _).
  exists num_val, has_error. split; [exact Hrun|]. split; [|exact Hbound].
  vm_compute in Hrun. injection Hrun as <- _. vm_compute. reflexivity.
Defined.

(** * Further properties of the code *)

(** ** Rows of seven days *)

Lemma div_ceil_bounds (n k : nat) :
  (0 < k)%nat -> (n <= (n + k - 1) / k * k /\ (n + k - 1) / k * k < n + k)%nat.
Proof.
  intros Hk.
  pose proof (Nat.div_mod_eq (n + k - 1) k) as E.
  pose proof (Nat.mod_upper_bound (n + k - 1) k) as U.
  nia.
Qed.

Lemma for_each_app {A S : Type} (xs ys : list A) (st : S) (body : S -> A -> result S) :
  for_each (xs ++ ys) st body = let* st' := for_each xs st body in for_each ys st' body.
Proof.
  revert st. induction xs as [|x xs IH]; intros st; simpl; [reflexivity|].
  destruct (body st x) as [st'|e]; simpl; [apply IH | reflexivity].
Qed.

Lemma for_each_concat {A B S : Type} (xs : list A) (inner : A -> list B) (st : S)
  (body : S -> B -> result S) :
  for_each xs st (fun st x => for_each (inner x) st body)
  = for_each (concat (map inner xs)) st body.
Proof.
  revert st. induction xs as [|x xs IH]; intros st; simpl; [reflexivity|].
  rewrite for_each_app.
  destruct (for_each (inner x) st body) as [st'|e]; simpl; [apply IH | reflexivity].
Qed.

Lemma for_each_map {A B S : Type} (f : A -> B) (xs : list A) (st : S)
  (body : S -> B -> result S) :
  for_each (map f xs) st body = for_each xs st (fun st x => body st (f x)).
Proof.
  revert st. induction xs as [|x xs IH]; intros st; simpl; [reflexivity|].
  destruct (body st (f x)); simpl; [apply IH | reflexivity].
Qed.

(** Rows of [k] cover a list of at most [m * k] entries. *)
Lemma concat_rows {A : Type} (k : nat) (m : nat) (xs : list A) :
  (length xs <= m * k)%nat ->
  concat (map (fun q => take k (drop (q * k) xs)) (seq 0 m)) = xs.
Proof.
  revert xs. induction m as [|m IH]; intros xs H.
  - destruct xs; [reflexivity | simpl in H; lia].
  - rewrite <- cons_seq, <- fmap_S_seq. simpl. rewrite drop_0.
    change (fmap S (seq 0 m)) with (map S (seq 0 m)). rewrite map_map.
    transitivity (take k xs ++ drop k xs); [|apply take_drop]. f_equal.
    rewrite <- (IH (drop k xs)) by (rewrite length_drop; lia).
    f_equal. apply map_ext. intros q. rewrite drop_drop. f_equal; f_equal; lia.
Qed.

Lemma py_range_positive (stop : nat) (step : Z) :
  0 < step ->
  py_range stop step
  = Ok (map (fun q => (q * Z.to_nat step)%nat)
          (seq 0 ((stop + Z.to_nat step - 1) / Z.to_nat step))).
Proof.
  intros H. unfold py_range.
  destruct (step =? 0) eqn:E0; [apply Z.eqb_eq in E0; lia|].
  destruct (step <? 0) eqn:E1; [apply Z.ltb_lt in E1; lia|]. reflexivity.
Qed.

Lemma slice_row {A : Type} (xs : list A) (i k : nat) :
  slice xs i (i + k) = take k (drop i xs).
Proof. unfold slice. f_equal. lia. Qed.

Lemma chunk_list_rows {A : Type} (items : list A) (chunk_size : Z) :
  0 < chunk_size ->
  chunk_list (Some items) chunk_size
  = Ok (map (fun q => take (Z.to_nat chunk_size) (drop (q * Z.to_nat chunk_size) items))
          (seq 0 ((length items + Z.to_nat chunk_size - 1) / Z.to_nat chunk_size))).
Proof.
  intros H. unfold chunk_list. rewrite py_range_positive by exact H. simpl.
  rewrite map_map. f_equal. apply map_ext. intros q. apply slice_row.
Qed.

(** X1.  For a positive chunk size, [chunk_list] cuts the list without
    losing, repeating or reordering anything: the chunks joined together
    are the list again.  No chunk is empty or longer than the chunk size,
    and every chunk but the last is full. *)
Theorem chunk_list_partitions {A : Type} (items : list A) (chunk_size : Z) :
  0 < chunk_size ->
  exists chunks,
    chunk_list (Some items) chunk_size = Ok chunks /\
    concat chunks = items /\
    (forall i chunk, chunks !! i = Some chunk ->
       (0 < length chunk <= Z.to_nat chunk_size)%nat /\
       (S i < length chunks -> length chunk = Z.to_nat chunk_size)%nat).
Proof.
  intros H. rewrite chunk_list_rows by exact H.
  set (k := Z.to_nat chunk_size). assert (Hk : (0 < k)%nat) by (unfold k; lia).
  set (m := ((length items + k - 1) / k)%nat).
  destruct (div_ceil_bounds (length items) k Hk) as [Hlo Hhi]. fold m in Hlo, Hhi.
  eexists. split; [reflexivity|]. split.
  - apply concat_rows. exact Hlo.
  - intros i chunk Hi. rewrite list_lookup_fmap in Hi.
    destruct (seq 0 m !! i) as [q|] eqn:Hq; [|discriminate].
    apply lookup_seq in Hq as [-> Hq]. simpl in Hi. injection Hi as <-.
    rewrite length_map, length_seq, length_take, length_drop. nia.
Qed.

Lemma chunk_list_partitions_witness :
  exists chunks,
    chunk_list (Some [1; 2; 3; 4; 5; 6; 7; 8; 9]) 7 = Ok chunks /\
    concat chunks = [1; 2; 3; 4; 5; 6; 7; 8; 9] /\
    (forall i chunk, chunks !! i = Some chunk ->
       (0 < length chunk <= Z.to_nat 7)%nat /\
       (S i < length chunks -> length chunk = Z.to_nat 7)%nat).
Proof. apply (chunk_list_partitions [1; 2; 3; 4; 5; 6; 7; 8; 9] 7). lia. Defined.

Lemma pad_to_length_lookup {A : Type} (items : list A) (n : Z) (pad_value : A) (i : nat) :
  pad_to_length items n pad_value !! i
  = match items !! i with
    | Some x => Some x
    | None => if Z.of_nat i <? n then Some pad_value else None
    end.
Proof.
  unfold pad_to_length.
  destruct (items !! i) as [x|] eqn:E.
  - destruct (_ <? n); [|exact E]. now apply lookup_app_l_Some.
  - apply lookup_ge_None in E.
    destruct (Z.of_nat (length items) <? n) eqn:L.
    + rewrite lookup_app_r by exact E.
      destruct (Z.of_nat i <? n) eqn:Li.
      * apply lookup_replicate. split; [reflexivity|]. apply Z.ltb_lt in Li. lia.
      * apply lookup_ge_None. rewrite length_replicate. apply Z.ltb_ge in Li. lia.
    + apply Z.ltb_ge in L. destruct (Z.of_nat i <? n) eqn:Li.
      * apply Z.ltb_lt in Li. lia.
      * now apply lookup_ge_None.
Qed.

Lemma pad_to_length_length {A : Type} (items : list A) (n : Z) (pad_value : A) :
  length (pad_to_length items n pad_value) = Nat.max (length items) (Z.to_nat n).
Proof.
  unfold pad_to_length. destruct (_ <? n) eqn:L.
  - apply Z.ltb_lt in L. rewrite length_app, length_replicate. lia.
  - apply Z.ltb_ge in L. lia.
Qed.

(** X3.  [pad_to_length] only ever adds at the end: the result has
    [max(len(items), length)] entries, it starts with the items as they
    were (a list that is already long enough, or a negative length,
    leaves them untouched: nothing is cut off), every entry after them is
    the pad value, and padding a second time changes nothing. *)
Theorem pad_to_length_extends {A : Type} (items : list A) (n : Z) (pad_value : A) :
  length (pad_to_length items n pad_value) = Nat.max (length items) (Z.to_nat n) /\
  take (length items) (pad_to_length items n pad_value) = items /\
  drop (length items) (pad_to_length items n pad_value)
  = replicate (Z.to_nat n - length items) pad_value /\
  pad_to_length (pad_to_length items n pad_value) n pad_value
  = pad_to_length items n pad_value.
Proof.
  split; [apply pad_to_length_length|].
  unfold pad_to_length. destruct (Z.of_nat (length items) <? n) eqn:L.
  - apply Z.ltb_lt in L. repeat split.
    + now rewrite take_app_length.
    + rewrite drop_app_length. f_equal. lia.
    + rewrite length_app, length_replicate.
      destruct (Z.of_nat _ <? n) eqn:L'; [apply Z.ltb_lt in L'; lia | reflexivity].
  - pose proof L as L'. apply Z.ltb_ge in L'. repeat split.
    + apply firstn_all.
    + rewrite drop_all. replace (Z.to_nat n - length items)%nat with 0%nat by lia. reflexivity.
    + rewrite L. reflexivity.
Qed.

(** The cell of column [j] in row [q] of a seven-column layout is entry
    [7 * q + j] of the list, or the pad value past its end. *)
Lemma padded_row_lookup {A : Type} (xs : list A) (q j : nat) (pad_value : A) :
  (j < 7)%nat ->
  pad_to_length (slice xs (q * 7) (q * 7 + 7)) 7 pad_value !! j
  = Some (default pad_value (xs !! (q * 7 + j)%nat)).
Proof.
  intros Hj. rewrite pad_to_length_lookup, slice_row.
  rewrite lookup_take_lt by exact Hj. rewrite lookup_drop.
  destruct (xs !! (q * 7 + j)%nat); [reflexivity|].
  destruct (Z.of_nat j <? 7) eqn:L; [reflexivity | apply Z.ltb_ge in L; lia].
Qed.

Lemma chunk_list_lookup {A : Type} (items : list A) (chunks : list (list A)) (q : nat) :
  chunk_list (Some items) 7 = Ok chunks ->
  length chunks = ((length items + 6) / 7)%nat /\
  ((q < length chunks)%nat -> chunks !! q = Some (slice items (q * 7) (q * 7 + 7))).
Proof.
  rewrite chunk_list_rows by lia. change (Z.to_nat 7) with 7%nat.
  replace (length items + 7 - 1)%nat with (length items + 6)%nat by lia.
  intros [= <-]. rewrite length_map, length_seq.
  split; [reflexivity|]. intros Hq.
  rewrite list_lookup_fmap, lookup_seq_lt by exact Hq.
  simpl. now rewrite slice_row.
Qed.

(** ** The widget loops of [main] *)

Lemma map_add_seq (a i c : nat) :
  map (fun offset => (a + offset)%nat) (seq i c) = seq (a + i) c.
Proof.
  revert i. induction c as [|c IH]; intros i; simpl; [reflexivity|].
  f_equal. rewrite IH. f_equal. lia.
Qed.

Lemma seq_rows (k m n : nat) :
  (n <= m * k)%nat ->
  concat (map (fun q => map (fun offset => (q * k + offset)%nat)
                          (seq 0 (Nat.min k (n - q * k))))
              (seq 0 m))
  = seq 0 n.
Proof.
  intros Hn.
  rewrite <- (concat_rows k m (seq 0 n)) by (rewrite length_seq; exact Hn).
  f_equal. apply map_ext. intros q.
  rewrite drop_seq, take_seq, map_add_seq. f_equal; lia.
Qed.

Lemma day_loop_flat {S : Type} (total_days : Z) (st : S) (body : S -> nat -> result S) :
  day_loop total_days st body = for_each (seq 0 (Z.to_nat total_days)) st body.
Proof.
  unfold day_loop. rewrite py_range_positive by lia. simpl.
  change (Z.to_nat 7) with 7%nat. rewrite for_each_map.
  set (n := Z.to_nat total_days).
  rewrite (for_each_ext _ _ _
             (fun st q => for_each (map (fun offset => (q * 7 + offset)%nat)
                                      (seq 0 (Nat.min 7 (n - q * 7)))) st body)).
  - rewrite (for_each_concat _ (fun q => map (fun offset => (q * 7 + offset)%nat)
                                           (seq 0 (Nat.min 7 (n - q * 7))))).
    destruct (div_ceil_bounds n 7) as [Hlo Hhi]; [lia|].
    rewrite seq_rows; [reflexivity | exact Hlo].
  - intros s q Hq. apply in_seq in Hq. rewrite for_each_map.
    replace (Z.to_nat (Z.min 7 (total_days - Z.of_nat (q * 7))))
      with (Nat.min 7 (n - q * 7)) by (unfold n; lia).
    reflexivity.
Qed.

Lemma for_each_pure {A S : Type} (xs : list A) (st : S) (step : S -> A -> S) :
  for_each xs st (fun st x => Ok (step st x)) = Ok (fold_left step xs st).
Proof. revert st. induction xs as [|x xs IH]; intros st; simpl; [reflexivity | apply IH]. Qed.

Lemma fold_left_snoc {A B : Type} (f : A -> B) (xs : list A) (acc : list B) :
  fold_left (fun acc x => acc ++ [f x]) xs acc = acc ++ map f xs.
Proof.
  revert acc. induction xs as [|x xs IH]; intros acc; simpl; [now rewrite app_nil_r|].
  now rewrite IH, <- app_assoc.
Qed.

(** X4.  The widget loops of [main] walk through the days in rows of
    seven, and yet visit every day number from 0 to [total_days - 1]
    exactly once and in order: the nested loop is the plain loop over
    [range(total_days)].  So a list that is appended to once per visit
    ends up with one entry per day, the entry of day [i] at index [i]
    (and with none when the number of days is zero or negative). *)
Theorem day_loop_visits_each_day {S A : Type} (total_days : Z) (st : S)
  (body : S -> nat -> result S) (widget : nat -> A) :
  day_loop total_days st body = for_each (seq 0 (Z.to_nat total_days)) st body /\
  day_loop total_days [] (fun collected i => Ok (collected ++ [widget i]))
  = Ok (map widget (seq 0 (Z.to_nat total_days))).
Proof.
  split; [apply day_loop_flat|].
  rewrite day_loop_flat, (for_each_pure _ _ (fun collected i => collected ++ [widget i])).
  now rewrite fold_left_snoc.
Qed.

(** ** The numeric text field: what the error flag says *)

Lemma span_spec {A : Type} (p : A -> bool) (l a b : list A) :
  span p l = (a, b) ->
  l = a ++ b /\ forallb p a = true /\ match b with [] => True | c :: _ => p c = false end.
Proof.
  revert a b. induction l as [|x l IH]; intros a b; simpl.
  - intros [= <- <-]. repeat split.
  - destruct (p x) eqn:Px.
    + destruct (span p l) as [a' b']. intros [= <- <-].
      destruct (IH a' b' eq_refl) as (-> & Ha & Hb). simpl. rewrite Px. repeat split; assumption.
    + intros [= <- <-]. repeat split. exact Px.
Qed.

Lemma span_app {A : Type} (p : A -> bool) (a b : list A) :
  forallb p a = true -> match b with [] => True | c :: _ => p c = false end ->
  span p (a ++ b) = (a, b).
Proof.
  intros Ha Hb. induction a as [|x a IH]; simpl in *.
  - destruct b as [|c b]; [reflexivity|]. simpl. now rewrite Hb.
  - apply andb_prop in Ha as [Hx Ha]. rewrite Hx, (IH Ha). reflexivity.
Qed.

Lemma drop_while_all {A : Type} (p : A -> bool) (a b : list A) :
  forallb p a = true -> drop_while p (a ++ b) = drop_while p b.
Proof.
  induction a as [|x a IH]; simpl; [reflexivity|].
  intros H. apply andb_prop in H as [-> H]. now apply IH.
Qed.

Lemma drop_while_head {A : Type} (p : A -> bool) (l : list A) :
  match l with c :: _ => p c = false | [] => True end -> drop_while p l = l.
Proof. destruct l as [|c l]; simpl; [reflexivity | now intros ->]. Qed.

Lemma forallb_rev_true {A : Type} (p : A -> bool) (l : list A) :
  forallb p l = true -> forallb p (rev l) = true.
Proof.
  rewrite !forallb_forall. intros H x Hx. apply H. now apply in_rev.
Qed.

(** Stripping takes off a tail of strippable characters and leaves a
    core alone that neither starts nor ends with one. *)
Lemma strip_chars_core (p : ascii -> bool) (core tail : list ascii) :
  match core with c :: _ => p c = false | [] => True end ->
  match rev core with c :: _ => p c = false | [] => True end ->
  forallb p tail = true ->
  strip_chars p (core ++ tail) = core.
Proof.
  intros Hf Hl Ht. unfold strip_chars.
  assert (E : drop_while p (core ++ tail) = core ++ tail \/ core = []).
  { destruct core as [|c core]; [now right|]. left. simpl. now rewrite Hf. }
  destruct E as [->| ->].
  - rewrite rev_app_distr, drop_while_all by (now apply forallb_rev_true).
    rewrite (drop_while_head p (rev core) Hl). apply rev_involutive.
  - simpl. rewrite <- (app_nil_r tail), drop_while_all by exact Ht. reflexivity.
Qed.

Lemma drop_underscores_none (prev : option ascii) (cs : list ascii) :
  forallb (fun c => negb (Ascii.eqb c "_")) cs = true ->
  drop_underscores prev cs = Some cs.
Proof.
  revert prev. induction cs as [|c cs IH]; intros prev H; simpl; [reflexivity|].
  simpl in H. apply andb_prop in H as [Hc H].
  destruct (Ascii.eqb c "_"); [discriminate|].
  now rewrite (IH (Some c) H).
Qed.

Lemma digit_facts (c : ascii) :
  is_digit c = true ->
  is_numeral_space c = false /\ Ascii.eqb c "_" = false /\ Ascii.eqb c "-" = false /\
  Ascii.eqb c "+" = false /\ Ascii.eqb (lower c) "i" = false /\
  Ascii.eqb (lower c) "n" = false.
Proof.
  destruct c as [[] [] [] [] [] [] [] []]; intros H; try discriminate H; repeat split.
Qed.

Lemma newline_is_space (c : ascii) : (code c =? 10)%N = true -> is_numeral_space c = true.
Proof. destruct c as [[] [] [] [] [] [] [] []]; intros H; try discriminate H; reflexivity. Qed.

Lemma digits_plain (ds : list ascii) :
  forallb is_digit ds = true ->
  forallb (fun c => negb (Ascii.eqb c "_")) ds = true.
Proof.
  induction ds as [|d ds IH]; simpl; [reflexivity|].
  intros H. apply andb_prop in H as [Hd H].
  destruct (digit_facts d Hd) as (_ & -> & _). simpl. now apply IH.
Qed.

Lemma nonempty_last {A : Type} (l : list A) :
  l <> [] -> exists m x, l = m ++ [x].
Proof.
  intros H. destruct (exists_last H) as (m & x & ->). eauto.
Qed.

Lemma forallb_last {A : Type} (p : A -> bool) (m : list A) (x : A) :
  forallb p (m ++ [x]) = true -> p x = true.
Proof.
  rewrite forallb_app. simpl. intros H. apply andb_prop in H as [_ H].
  now apply andb_prop in H as [H _].
Qed.

(** An unsigned numeral [digits] or [digits.digits], once the sign is
    off, is read by [float()]. *)
Lemma decimal_of_chars_plain (s : bool) (ip fp : list ascii) (dot : bool) :
  ip <> [] -> forallb is_digit ip = true -> forallb is_digit fp = true ->
  (dot = true -> fp <> []) ->
  exists f,
    decimal_of_chars s (ip ++ if dot then "."%char :: fp else []) = Ok f.
Proof.
  intros Hne Hip Hfp Hdot. unfold decimal_of_chars.
  assert (Hrest : match (if dot then "."%char :: fp else []) with
                  | [] => True
                  | c :: _ => is_digit c = false
                  end) by (destruct dot; [reflexivity | exact I]).
  rewrite (span_app is_digit ip _ Hip Hrest).
  destruct dot.
  - pose proof (span_app is_digit fp [] Hfp I) as E2. rewrite app_nil_r in E2. rewrite E2.
    destruct (ip ++ fp) eqn:E; [destruct ip; [congruence | discriminate]|]. eauto.
  - rewrite app_nil_r. destruct ip; [congruence|]. eauto.
Qed.

(** What the pattern [^-?\d+(\.\d+)?$] matches: an optional minus, a
    core of digits with at most one point inside, and at most a final
    newline. *)
Lemma plain_number_shape (s : string) :
  matches_plain_number s = true ->
  exists (neg dot : bool) (ip fp tail : list ascii),
    list_ascii_of_string s
    = ((if neg then ["-"%char] else []) ++ ip ++ (if dot then "."%char :: fp else [])) ++ tail /\
    ip <> [] /\ forallb is_digit ip = true /\ forallb is_digit fp = true /\
    (dot = true -> fp <> []) /\ forallb is_numeral_space tail = true /\
    (neg = false -> match ip with c :: _ => Ascii.eqb c "-" = false | [] => True end).
Proof.
  unfold matches_plain_number.
  set (at_end := fun r : list ascii =>
                   match r with [] => true | [c] => (code c =? 10)%N | _ => false end).
  assert (Hend : forall r, at_end r = true -> forallb is_numeral_space r = true).
  { intros [|c [|c' r]]; simpl; try discriminate; [reflexivity|].
    intros H. now rewrite (newline_is_space c H). }
  set (cs := list_ascii_of_string s).
  assert (Hcases : exists (neg : bool) (body : list ascii),
             cs = (if neg then ["-"%char] else []) ++ body /\
             match cs with "-"%char :: r => r | _ => cs end = body /\
             (neg = false -> match body with c :: _ => Ascii.eqb c "-" = false | [] => True end)).
  { destruct cs as [|c r]; [exists false, []; repeat split|].
    destruct (Ascii.eqb c "-") eqn:E.
    - apply Ascii.eqb_eq in E. subst c. exists true, r. repeat split. discriminate.
    - exists false, (c :: r). split; [reflexivity|]. split; [|intros _; exact E].
      destruct c as [[] [] [] [] [] [] [] []]; try reflexivity. discriminate E. }
  destruct Hcases as (neg & body & Hcs & -> & Hneg).
  destruct (span is_digit body) as [ip r1] eqn:E1.
  apply span_spec in E1 as (Hbody & Hip & Hr1).
  destruct ip as [|d ip]; [discriminate|].
  intros H. apply orb_prop in H as [H|H].
  - exists neg, false, (d :: ip), [], r1. rewrite Hcs, Hbody, app_nil_r.
    repeat split; try assumption; try discriminate.
    + now rewrite app_assoc.
    + now apply Hend.
    + intros Hn. specialize (Hneg Hn). now rewrite Hbody in Hneg.
  - destruct r1 as [|c r]; [discriminate|].
    destruct (Ascii.eqb c ".") eqn:Ec.
    2:{ destruct c as [[] [] [] [] [] [] [] []]; try discriminate H; discriminate Ec. }
    apply Ascii.eqb_eq in Ec. subst c.
    destruct (span is_digit r) as [fp r2] eqn:E2.
    apply span_spec in E2 as (Hr & Hfp & _).
    destruct fp as [|f fp]; [discriminate|].
    exists neg, true, (d :: ip), (f :: fp), r2. rewrite Hcs, Hbody, Hr.
    repeat split; try assumption; try discriminate.
    + rewrite <- !app_assoc. reflexivity.
    + now apply Hend.
    + intros Hn. specialize (Hneg Hn). now rewrite Hbody in Hneg.
Qed.

(** Whatever the pattern of the [except] branch matches, [float()] reads. *)
Lemma plain_number_parses (s : string) :
  matches_plain_number s = true -> exists f, float_of_string s = Ok f.
Proof.
  intros H.
  destruct (plain_number_shape s H)
    as (neg & dot & ip & fp & tail & Hs & Hne & Hip & Hfp & Hdot & Htail & Hneg).
  unfold float_of_string. rewrite Hs.
  set (rest := if dot then "."%char :: fp else []).
  set (sign := if neg then ["-"%char] else []).
  destruct ip as [|d ip]; [congruence|].
  pose proof Hip as Hd. simpl in Hd. apply andb_prop in Hd as [Hd _].
  destruct (digit_facts d Hd) as (Hd1 & Hd2 & Hd3 & Hd4 & Hd5 & Hd6).
  assert (Hl : exists m x, (d :: ip) ++ rest = m ++ [x] /\ is_digit x = true).
  { unfold rest. destruct dot.
    - destruct (nonempty_last fp (Hdot eq_refl)) as (m & x & ->).
      exists ((d :: ip) ++ "."%char :: m), x. split; [now rewrite <- app_assoc|].
      now apply forallb_last in Hfp.
    - rewrite app_nil_r. destruct (nonempty_last (d :: ip) Hne) as (m & x & E).
      exists m, x. split; [exact E|]. rewrite E in Hip. now apply forallb_last in Hip. }
  destruct Hl as (m & x & Hl & Hx).
  rewrite strip_chars_core; [| | |exact Htail].
  2:{ unfold sign. destruct neg; [reflexivity | exact Hd1]. }
  2:{ rewrite Hl, app_assoc, rev_app_distr. simpl. now destruct (digit_facts x Hx). }
  assert (Hplain : forallb (fun c => negb (Ascii.eqb c "_")) (sign ++ (d :: ip) ++ rest) = true).
  { rewrite !forallb_app. rewrite (digits_plain _ Hip).
    replace (forallb _ sign) with true by (unfold sign; now destruct neg).
    unfold rest. destruct dot; [|reflexivity]. simpl. now apply digits_plain. }
  rewrite (drop_underscores_none None _ Hplain).
  assert (Hsplit : split_sign (sign ++ (d :: ip) ++ rest) = (neg, (d :: ip) ++ rest)).
  { unfold sign. destruct neg; [reflexivity|]. simpl.
    destruct d as [[] [] [] [] [] [] [] []]; try reflexivity; discriminate. }
  rewrite Hsplit. simpl map. simpl string_of_list_ascii.
  replace ((String (lower d) _ =? "inf")%string) with false by (simpl; now rewrite Hd5).
  replace ((String (lower d) _ =? "infinity")%string) with false by (simpl; now rewrite Hd5).
  replace ((String (lower d) _ =? "nan")%string) with false by (simpl; now rewrite Hd6).
  simpl orb. cbv iota.
  apply (decimal_of_chars_plain neg (d :: ip) fp dot); assumption.
Qed.

(** X5.  [number_text_input] never raises, and its error flag says
    exactly that the text is not blank and [float()] does not read what
    is left once [$], commas and spaces are taken out.  The pattern test
    of the [except] branch never clears the flag, since [float()] reads
    everything the pattern matches; so a text that is replaced by 0.0 is
    always flagged, and a text that is read, or blank, never is. *)
Theorem number_text_input_flags_unread_text (text_val : string) (min_value : float) :
  exists num_val,
    number_text_input text_val min_value
    = Ok (num_val,
          str_truthy (strip text_val) &&
          match float_of_string (cleaned_text text_val) with
          | Ok _ => false
          | Raise _ => true
          end) /\
    (float_of_string (cleaned_text text_val) = Raise ValueError -> num_val = Float.zero).
Proof.
  destruct (str_truthy (strip text_val)) eqn:Hs.
  - rewrite (number_text_input_not_blank _ _ Hs).
    destruct (float_of_string (cleaned_text text_val)) as [parsed|e] eqn:E.
    + eexists. split; [reflexivity | discriminate].
    + destruct (matches_plain_number (cleaned_text text_val)) eqn:M.
      * apply plain_number_parses in M as [f Hf]. congruence.
      * eexists. split; reflexivity.
  - rewrite (number_text_input_blank _ _ Hs). eexists. split; reflexivity.
Qed.

(** ** The deduction table and the floor *)

Lemma recognised_tier (t : Z) (row : deduction_row) :
  Main.meal_deductions !! t = Some row -> In t per_diem_options.
Proof.
  intros H. destruct (decide (In t per_diem_options)) as [Hin|Hout]; [exact Hin|].
  rewrite (meal_deductions_unrecognised t Hout) in H. discriminate.
Qed.

(** X6.  In every row of the deduction table the three meal amounts and
    the incidental amount add up to the rate itself.  So at one of the
    five rates the floor [max(0.0, ...)] never has anything to do: the
    value of a day before the first and last day rule is exactly the rate
    less the flagged meals, and it is at least the incidental amount,
    which is what is left when all three meals are provided. *)
Theorem recognised_tier_never_floored
  (amounts bs ls ds : list value) (i : nat) (t : Z) (row : deduction_row) :
  amounts !! i = Some (VInt t) ->
  Main.meal_deductions !! t = Some row ->
  let meals := flagged_meals row (flag_at bs i) (flag_at ls i) (flag_at ds i) in
  breakfast row + lunch row + dinner row + incidental row = t /\
  0 < incidental row <= t - meals /\
  Main.pre75_total amounts bs ls ds i = Ok (Float.of_Z (t - meals)).
Proof.
  intros Hi Hrow. cbv zeta.
  unfold Main.pre75_total, Main.base_per_diem, Main.deduction_total, flagged_meals.
  rewrite Hi.
  pose proof (recognised_tier t row Hrow) as Hin.
  each_option Hin; vm_compute in Hrow; injection Hrow as <-;
    destruct (flag_at bs i), (flag_at ls i), (flag_at ds i);
    (split; [reflexivity|]); (split; [simpl; lia|]); vm_compute; reflexivity.
Qed.

Lemma recognised_tier_never_floored_witness :
  [VInt 92] !! 0%nat = Some (VInt 92) /\
  Main.pre75_total [VInt 92] [VBool true] [VBool true] [VBool true] 0 = Ok (Float.of_Z 5).
Proof.
  split; [reflexivity|].
  apply (recognised_tier_never_floored [VInt 92] [VBool true] [VBool true] [VBool true] 0 92
           {| breakfast := 23; lunch := 26; dinner := 38; incidental := 5;
              first_last := Float.of_decimal false 6900 (-2) |}); reflexivity.
Defined.

(** ** The second per diem loop of [create_pdf] *)

Lemma for_each_snoc_pair {A B C : Type} (f : A -> result (B * C)) (xs : list A)
  (acc1 : list B) (acc2 : list C) :
  for_each xs (acc1, acc2)
    (fun '(a1, a2) x => let* y := f x in Ok (a1 ++ [fst y], a2 ++ [snd y]))
  = let* ys := map_result f xs in Ok (acc1 ++ map fst ys, acc2 ++ map snd ys).
Proof.
  revert acc1 acc2. induction xs as [|x xs IH]; intros acc1 acc2; simpl.
  - now rewrite !app_nil_r.
  - destruct (f x) as [y|e]; simpl; [|reflexivity].
    rewrite IH. destruct (map_result f xs) as [ys|e]; simpl; [|reflexivity].
    now rewrite <- !app_assoc.
Qed.

Lemma meal_totals_loop_map_result (fd : FormData.t) :
  CreatePdf.meal_totals_loop fd
  = let* ys := map_result (meal_day fd) (seq 0 (length (FormData.per_diem_dates fd))) in
    Ok (map fst ys, map snd ys).
Proof.
  unfold CreatePdf.meal_totals_loop.
  rewrite (for_each_ext _ _ _
             (fun '(a1, a2) i => let* y := meal_day fd i in Ok (a1 ++ [fst y], a2 ++ [snd y]))).
  - apply (for_each_snoc_pair _ _ [] []).
  - intros [a1 a2] i _. unfold meal_day.
    destruct (present_at (FormData.per_diem_dates fd) i); [|reflexivity].
    destruct (FormData.per_diem_amounts fd !! i) as [v|]; simpl; [|reflexivity].
    destruct (if truthy v then py_int v else Ok 80) as [base|e]; simpl; [|reflexivity].
    destruct (float_of_int base) as [bf|e]; reflexivity.
Qed.

(** The value of a dated day in the first loop, from the one in the
    second: both start from the same value before the rule. *)
Lemma meal_day_main_day (fd : FormData.t) (i : nat) (m r : float) :
  meal_day fd i = Ok (m, r) ->
  exists y,
    main_day (FormData.per_diem_dates fd) (FormData.per_diem_amounts fd)
      (FormData.breakfast_checks fd) (FormData.lunch_checks fd)
      (FormData.dinner_checks fd) i = Ok y /\
    (present_at (FormData.per_diem_dates fd) i = false ->
       y = Float.zero /\ m = Float.zero /\ r = Float.zero) /\
    ((i =? Main.first_day_idx (FormData.per_diem_dates fd))%nat
     || (i =? Main.last_day_idx (FormData.per_diem_dates fd))%nat = false -> y = m).
Proof.
  unfold meal_day, main_day.
  destruct (present_at (FormData.per_diem_dates fd) i).
  - unfold Main.final_per_diem, Main.pre75_total, Main.base_per_diem.
    destruct (FormData.per_diem_amounts fd !! i) as [v|]; simpl; [|discriminate].
    destruct (if truthy v then py_int v else Ok 80) as [base|e]; simpl; [|discriminate].
    destruct (float_of_int base) as [bf|e]; simpl; [|discriminate].
    intros [= <- <-].
    destruct (_ || _); eexists; (split; [reflexivity|]); split; try discriminate.
    intros _. reflexivity.
  - intros [= <- <-]. exists Float.zero. repeat split.
Qed.

Lemma map_result_cond {A B : Type} (f : A -> result B) (c : A -> bool) (e : exn)
  (xs : list A) :
  (forall x, In x xs -> c x = true -> exists y, f x = Ok y) ->
  (forall x, In x xs -> c x = false -> f x = Raise e) ->
  if forallb c xs then exists ys, map_result f xs = Ok ys else map_result f xs = Raise e.
Proof.
  induction xs as [|x xs IH]; intros Hok Hno; simpl; [eauto|].
  destruct (c x) eqn:Cx; simpl.
  - destruct (Hok x (or_introl eq_refl) Cx) as [y ->]. simpl.
    specialize (IH (fun z Hz => Hok z (or_intror Hz)) (fun z Hz => Hno z (or_intror Hz))).
    destruct (forallb c xs).
    + destruct IH as [ys ->]. simpl. eauto.
    + now rewrite IH.
  - now rewrite (Hno x (or_introl eq_refl) Cx).
Qed.

(** X7.  The four per-day lists of [create_pdf] line up with the dates:
    each has one entry per date entry; a day without a date is 0.0 in all
    of them; and on a dated day that is neither the first nor the last
    one, the adjusted per diem is the daily meal total itself.  The day
    totals are a copy of the adjusted per diem. *)
Theorem create_pdf_day_lists_line_up (fd : FormData.t) (figs : CreatePdf.figures) :
  CreatePdf.create_pdf fd = Ok figs ->
  let n := length (FormData.per_diem_dates fd) in
  CreatePdf.daily_totals figs = CreatePdf.adjusted_per_diem figs /\
  length (CreatePdf.adjusted_per_diem figs) = n /\
  length (CreatePdf.daily_meal_totals figs) = n /\
  length (CreatePdf.total_reductions figs) = n /\
  forall i, (i < n)%nat ->
    exists y m r,
      CreatePdf.adjusted_per_diem figs !! i = Some y /\
      CreatePdf.daily_meal_totals figs !! i = Some m /\
      CreatePdf.total_reductions figs !! i = Some r /\
      (present_at (FormData.per_diem_dates fd) i = false ->
         y = Float.zero /\ m = Float.zero /\ r = Float.zero) /\
      ((i =? CreatePdf.first_day_idx fd)%nat || (i =? CreatePdf.last_day_idx fd)%nat = false ->
         y = m).
Proof.
  unfold CreatePdf.create_pdf.
  rewrite create_pdf_adjusted_loop, meal_totals_loop_map_result.
  destruct (map_result (main_day _ _ _ _ _) _) as [ys|] eqn:Ey; simpl; [|discriminate].
  destruct (map_result (meal_day fd) _) as [ms|] eqn:Em; simpl; [|discriminate].
  destruct (CreatePdf.sub_totals fd) as [t|]; simpl; [|discriminate].
  intros [= <-]. simpl.
  pose proof (map_result_length _ _ _ Ey) as Ly.
  pose proof (map_result_length _ _ _ Em) as Lm. rewrite length_seq in Ly, Lm.
  split; [reflexivity|]. split; [exact Ly|].
  split; [now rewrite length_map|]. split; [now rewrite length_map|].
  intros i Hi.
  destruct (map_result_lookup _ _ _ Ey i i (lookup_seq_lt 0 _ i Hi)) as (y & Hy & Hday).
  destruct (map_result_lookup _ _ _ Em i i (lookup_seq_lt 0 _ i Hi)) as ([m r] & Hm & Hmeal).
  exists y, m, r. rewrite !list_lookup_fmap, Hm. simpl.
  destruct (meal_day_main_day fd i m r Hmeal) as (y' & Hday' & Hz & Hint).
  simpl in Hday. rewrite Hday in Hday'. injection Hday' as <-.
  repeat split; try assumption; now apply Hz.
Qed.

Lemma create_pdf_day_lists_line_up_witness :
  exists figs,
    CreatePdf.create_pdf trip_form = Ok figs /\
    length (CreatePdf.daily_meal_totals figs) = 3%nat /\
    CreatePdf.adjusted_per_diem figs !! 1%nat = CreatePdf.daily_meal_totals figs !! 1%nat.
Proof.
  destruct (CreatePdf.create_pdf trip_form) as [figs|] eqn:E; [|vm_compute in E; discriminate].
  exists figs. split; [reflexivity|].
  destruct (create_pdf_day_lists_line_up trip_form figs E) as (_ & _ & Hl & _ & H).
  split; [exact Hl|].
  destruct (H 1%nat) as (y & m & r & -> & -> & _ & _ & Hym); [simpl; lia|].
  f_equal. apply Hym. reflexivity.
Defined.

(** X8.  At one of the five rates the two middle rows of the per diem
    table add up to the rate: for a dated day the reduction is the sum of
    the flagged meal amounts, the daily meal total is the rate less that
    sum, and neither is changed by the rounding to two decimals. *)
Theorem meal_total_and_reduction_add_up
  (fd : FormData.t) (figs : CreatePdf.figures) (i : nat) (t : Z) (row : deduction_row) :
  CreatePdf.create_pdf fd = Ok figs ->
  present_at (FormData.per_diem_dates fd) i = true ->
  FormData.per_diem_amounts fd !! i = Some (VInt t) ->
  CreatePdf.meal_deductions !! t = Some row ->
  let '(b, l, d) := meal_flags fd i in
  CreatePdf.total_reductions figs !! i = Some (Float.of_Z (flagged_meals row b l d)) /\
  CreatePdf.daily_meal_totals figs !! i = Some (Float.of_Z (t - flagged_meals row b l d)).
Proof.
  intros Hpdf Hp Ha Hrow.
  assert (Hi : (i < length (FormData.per_diem_dates fd))%nat).
  { unfold present_at in Hp. destruct (_ !! i) eqn:E; [|discriminate].
    now apply lookup_lt_Some in E. }
  revert Hpdf. unfold CreatePdf.create_pdf.
  destruct (CreatePdf.adjusted_loop fd) as [[a dt]|]; simpl; [|discriminate].
  rewrite meal_totals_loop_map_result.
  destruct (map_result (meal_day fd) _) as [ms|] eqn:Em; simpl; [|discriminate].
  destruct (CreatePdf.sub_totals fd) as [st|]; simpl; [|discriminate].
  intros [= <-]. simpl.
  destruct (map_result_lookup _ _ _ Em i i (lookup_seq_lt 0 _ i Hi)) as ([m r] & Hm & Hmeal).
  rewrite !list_lookup_fmap, Hm. simpl.
  revert Hmeal. unfold meal_day, meal_flags, CreatePdf.deduction_total, flagged_meals.
  rewrite Hp, Ha.
  pose proof (recognised_tier t row Hrow) as Hin.
  each_option Hin; vm_compute in Hrow; injection Hrow as <-;
    destruct (flag_at (FormData.breakfast_checks fd) i),
             (flag_at (FormData.lunch_checks fd) i),
             (flag_at (FormData.dinner_checks fd) i);
    vm_compute; intros [= <- <-]; split; reflexivity.
Qed.

Lemma meal_total_and_reduction_add_up_witness :
  exists figs,
    CreatePdf.create_pdf trip_form = Ok figs /\
    CreatePdf.total_reductions figs !! 1%nat = Some (Float.of_Z 20) /\
    CreatePdf.daily_meal_totals figs !! 1%nat = Some (Float.of_Z 60).
Proof.
  destruct (CreatePdf.create_pdf trip_form) as [figs|] eqn:E; [|vm_compute in E; discriminate].
  exists figs. split; [reflexivity|].
  apply (meal_total_and_reduction_add_up trip_form figs 1 80
           {| breakfast := 20; lunch := 22; dinner := 33; incidental := 5;
              first_last := Float.of_decimal false 6000 (-2) |} E); reflexivity.
Defined.

(** X9.  The second per diem loop reads [per_diem_amounts[i]] without
    the length test of the first one.  Once the first loop has returned,
    the second returns as well exactly when every dated day has an entry
    in the amounts; when a dated day has none, the first loop has counted
    the day at the rate of 80 and the second raises [IndexError], so
    that [create_pdf] does not return a document. *)
Theorem second_loop_needs_an_amount_per_dated_day (fd : FormData.t) (adj tot : list float) :
  CreatePdf.adjusted_loop fd = Ok (adj, tot) ->
  if amounts_cover_dates fd
  then exists meal_totals reductions, CreatePdf.meal_totals_loop fd = Ok (meal_totals, reductions)
  else CreatePdf.meal_totals_loop fd = Raise IndexError /\
       forall figs, CreatePdf.create_pdf fd <> Ok figs.
Proof.
  intros Hadj.
  assert (Hdays : forall i, In i (seq 0 (length (FormData.per_diem_dates fd))) ->
            exists y, main_day (FormData.per_diem_dates fd) (FormData.per_diem_amounts fd)
                        (FormData.breakfast_checks fd) (FormData.lunch_checks fd)
                        (FormData.dinner_checks fd) i = Ok y).
  { rewrite create_pdf_adjusted_loop in Hadj.
    destruct (map_result _ _) as [ys|] eqn:Ey; [|discriminate].
    intros i Hi. apply in_seq in Hi.
    destruct (map_result_lookup _ _ _ Ey i i) as (y & _ & Hy); [apply lookup_seq_lt; lia|].
    eauto. }
  pose proof (map_result_cond (meal_day fd)
                (fun i => negb (present_at (FormData.per_diem_dates fd) i)
                          || bool_decide (is_Some (FormData.per_diem_amounts fd !! i)))
                IndexError (seq 0 (length (FormData.per_diem_dates fd)))) as H.
  fold (amounts_cover_dates fd) in H.
  unfold CreatePdf.create_pdf. rewrite Hadj, meal_totals_loop_map_result. simpl.
  destruct (amounts_cover_dates fd).
  - destruct H as [ys ->]; [| |simpl; eauto].
    + intros i Hi Hc. destruct (Hdays i Hi) as [y Hy]. revert Hy.
      unfold main_day, meal_day.
      destruct (present_at (FormData.per_diem_dates fd) i); simpl in Hc; [|eauto].
      apply bool_decide_eq_true in Hc as [v Hv].
      unfold Main.final_per_diem, Main.pre75_total, Main.base_per_diem. rewrite Hv.
      destruct (if truthy v then py_int v else Ok 80) as [base|]; simpl; [|discriminate].
      destruct (float_of_int base) as [bf|]; simpl; [eauto | discriminate].
    + intros i _ Hc. unfold meal_day.
      destruct (present_at (FormData.per_diem_dates fd) i); [|discriminate].
      simpl in Hc. apply bool_decide_eq_false in Hc.
      destruct (FormData.per_diem_amounts fd !! i) as [v|]; [|reflexivity].
      exfalso. apply Hc. eauto.
  - rewrite H; [split; [reflexivity | intros figs; discriminate] | |].
    + intros i Hi Hc. destruct (Hdays i Hi) as [y Hy]. revert Hy.
      unfold main_day, meal_day.
      destruct (present_at (FormData.per_diem_dates fd) i); simpl in Hc; [|eauto].
      apply bool_decide_eq_true in Hc as [v Hv].
      unfold Main.final_per_diem, Main.pre75_total, Main.base_per_diem. rewrite Hv.
      destruct (if truthy v then py_int v else Ok 80) as [base|]; simpl; [|discriminate].
      destruct (float_of_int base) as [bf|]; simpl; [eauto | discriminate].
    + intros i _ Hc. unfold meal_day.
      destruct (present_at (FormData.per_diem_dates fd) i); [|discriminate].
      simpl in Hc. apply bool_decide_eq_false in Hc.
      destruct (FormData.per_diem_amounts fd !! i) as [v|]; [|reflexivity].
      exfalso. apply Hc. eauto.
Qed.

Lemma second_loop_needs_an_amount_per_dated_day_witness :
  CreatePdf.adjusted_loop trip_form
  = Ok ([Float.of_Z 60; Float.of_Z 60; Float.of_Z 60],
        [Float.of_Z 60; Float.of_Z 60; Float.of_Z 60]) /\
  exists meal_totals reductions,
    CreatePdf.meal_totals_loop trip_form = Ok (meal_totals, reductions).
Proof.
  assert (H : CreatePdf.adjusted_loop trip_form
              = Ok ([Float.of_Z 60; Float.of_Z 60; Float.of_Z 60],
                    [Float.of_Z 60; Float.of_Z 60; Float.of_Z 60]))
    by (vm_compute; reflexivity).
  split; [exact H|].
  exact (second_loop_needs_an_amount_per_dated_day trip_form _ _ H).
Defined.

(** ** The text of numbers *)

Lemma string_of_uint_head (u : Decimal.uint) :
  exists c rest, NilZero.string_of_uint u = String c rest /\ is_digit c = true.
Proof. destruct u; simpl; eexists _, _; split; reflexivity. Qed.

Lemma str_of_int_head (z : Z) :
  0 <= z -> exists c rest, str_of_int z = String c rest /\ is_digit c = true.
Proof.
  intros H. unfold str_of_int. destruct z as [|p|p]; [| |lia]; apply string_of_uint_head.
Qed.

Lemma div_half_even_nonneg (n d : Z) : 0 <= n -> 0 < d -> 0 <= Float.div_half_even n d.
Proof.
  intros Hn Hd. unfold Float.div_half_even.
  assert (0 <= n / d) by (apply Z.div_pos; lia).
  destruct (2 * (n mod d) ?= d); [destruct (Z.even (n / d))| |]; lia.
Qed.

(** A float that carries no minus sign is printed without one. *)
Lemma format_2f_unsigned (x : float) :
  signed false x -> String.prefix "-" (format_2f x) = false.
Proof.
  destruct x as [s|s| |s m e]; simpl; try (intros ->; reflexivity); [reflexivity|].
  intros ->.
  set (k := if 0 <=? e then _ else _).
  assert (Hk : 0 <= k).
  { unfold k. destruct (0 <=? e) eqn:L.
    - apply Z.leb_le in L. assert (0 < 2 ^ e) by (apply Z.pow_pos_nonneg; lia). nia.
    - apply div_half_even_nonneg; [lia|]. apply Z.pow_pos_nonneg; [lia|].
      apply Z.leb_gt in L. lia. }
  destruct (str_of_int_head (k / 100)) as (c & rest & -> & Hc); [apply Z.div_pos; lia|].
  simpl. destruct c as [[] [] [] [] [] [] [] []]; try discriminate Hc; reflexivity.
Qed.

(** X10.  The total amount due is never printed with a minus sign:
    whatever the sum of the sub-totals is (negative, NaN or an infinity
    included), the floored total is formatted without a leading minus,
    and formatting fails only for an [int] too large for a float. *)
Theorem amount_due_printed_without_minus (subtotal : num) :
  match num_format_2f (CreatePdf.amount_due subtotal) with
  | Ok text => String.prefix "-" text = false
  | Raise e => e = OverflowError
  end.
Proof.
  unfold CreatePdf.amount_due, num_max.
  destruct (num_ltb (NInt 0) subtotal) eqn:L; [|reflexivity].
  unfold num_ltb in L. destruct subtotal as [z|f]; simpl in *.
  - unfold float_of_int, Float.of_Z.
    destruct z as [|p|p]; try discriminate L.
    pose proof (binary_round_signed false p 0) as Hs.
    change (binary_normalize Float.prec Float.emax (Z.pos p) 0 false)
      with (binary_round Float.prec Float.emax false p 0).
    destruct (binary_round Float.prec Float.emax false p 0) as [s|s| |s m e] eqn:E;
      cbn [bind]; try reflexivity; apply format_2f_unsigned; exact Hs.
  - apply format_2f_unsigned.
    destruct f as [s|[]| |[] m e]; simpl in *; try discriminate L; try reflexivity.
    destruct (0 <=? e) eqn:Le; [|discriminate L].
    apply Z.leb_le in Le.
    assert (0 < 2 ^ e) by (apply Z.pow_pos_nonneg; lia).
    destruct (Z.neg m * 2 ^ e) eqn:Eprod; try discriminate L; nia.
Qed.

(** ** The sub-totals table *)

Lemma dollars_2f_running (n : num) : running_total n -> exists text, dollars_2f n = Ok text.
Proof. intros [->|[f ->]]; eexists; reflexivity. Qed.

(** X11.  On sub-totals as [main] stores them (each the [int] 0 of an
    empty sum or a float) the sub-totals table can fail in one place
    only, [int(total_mileage)]: a mileage total that is NaN raises
    [ValueError], an infinite one [OverflowError]; otherwise the table
    has its nine rows.  The [.2f] formatting of the other amounts never
    raises, NaN and infinities included. *)
Theorem totals_table_needs_a_finite_mileage_total (fd : FormData.t) (due : num) :
  Forall running_total (sub_total_list fd) -> running_total due ->
  match FormData.total_mileage fd with
  | NFloat S754_nan => TotalsTable.totals_data fd due = Raise ValueError
  | NFloat (S754_infinity _) => TotalsTable.totals_data fd due = Raise OverflowError
  | _ => exists rows, TotalsTable.totals_data fd due = Ok rows /\ length rows = 9%nat
  end.
Proof.
  intros H Hdue. unfold sub_total_list in H. split_Forall H.
  unfold TotalsTable.totals_data.
  repeat match goal with
         | Hr : running_total (?field fd) |- _ =>
             lazymatch field with
             | FormData.total_mileage => fail
             | _ => destruct (dollars_2f_running _ Hr) as [? ->]; clear Hr
             end
         end.
  destruct (dollars_2f_running _ Hdue) as [d ->].
  destruct (FormData.total_mileage fd) as [z|[s|s| |s m e]]; simpl; try reflexivity;
    eexists; split; reflexivity.
Qed.

Lemma totals_table_needs_a_finite_mileage_total_witness :
  Forall running_total (sub_total_list trip_form) /\
  exists rows,
    TotalsTable.totals_data trip_form (NFloat (Float.of_Z 180)) = Ok rows /\
    length rows = 9%nat.
Proof.
  assert (H : Forall running_total (sub_total_list trip_form)).
  { unfold sub_total_list.
    repeat (apply List.Forall_cons; [first [now left | right; eexists; reflexivity]|]).
    apply List.Forall_nil. }
  split; [exact H|].
  apply (totals_table_needs_a_finite_mileage_total trip_form (NFloat (Float.of_Z 180)) H).
  right. eexists. reflexivity.
Defined.

(** ** NaN among the miles *)

Lemma fold_add_nan (xs : list float) : fold_left Float.add xs S754_nan = S754_nan.
Proof. induction xs as [|x xs IH]; simpl; [reflexivity | exact IH]. Qed.

Lemma add_nan_r (x : float) : Float.add x S754_nan = S754_nan.
Proof. now destruct x. Qed.

Lemma fold_add_meets_nan (xs : list float) (acc : float) :
  In S754_nan xs -> fold_left Float.add xs acc = S754_nan.
Proof.
  revert acc. induction xs as [|x xs IH]; intros acc; [intros []|].
  intros [->|H]; simpl.
  - rewrite add_nan_r. apply fold_add_nan.
  - now apply IH.
Qed.

Lemma py_sum_meets_nan (xs : list float) : In S754_nan xs -> py_sum xs = NFloat S754_nan.
Proof.
  destruct xs as [|x xs]; [intros []|]. intros [->|H]; unfold py_sum; f_equal.
  - apply fold_add_nan.
  - now apply fold_add_meets_nan.
Qed.

Lemma total_mileage_meets_nan (mileage_amounts : list float) :
  In S754_nan mileage_amounts -> Main.total_mileage mileage_amounts = NFloat S754_nan.
Proof.
  intros H. unfold Main.total_mileage. rewrite py_sum_meets_nan; [reflexivity|].
  apply in_map_iff. exists S754_nan. split; [reflexivity|].
  apply filter_In. split; [exact H | reflexivity].
Qed.

(** ** The expense tables *)

Lemma sum_skipping_zeros_plain (xs : list float) (a b : num) :
  running_total a -> running_total b -> same_or_zeros a b ->
  same_or_zeros (fold_left add_float (List.filter float_truthy xs) a)
                (fold_left add_float xs b).
Proof.
  revert a b. induction xs as [|x xs IH]; intros a b Ha Hb Hab; simpl; [exact Hab|].
  unfold float_truthy at 1. destruct (Float.is_zero x) eqn:Zx; simpl.
  - apply IH; [exact Ha | apply running_total_add |].
    now apply add_float_zero_r.
  - apply IH; [apply running_total_add | apply running_total_add |].
    now apply add_float_same_or_zeros.
Qed.

Lemma same_or_zeros_same (a b : num) : same_or_zeros a b -> num_same a b.
Proof.
  intros [->|[Za Zb]]; [now left | right; now apply num_is_zero_eqb].
Qed.

Lemma grand_total_same (xs : list float) : num_same (ExpenseTable.grand_total xs) (py_sum xs).
Proof.
  apply same_or_zeros_same. unfold ExpenseTable.grand_total. rewrite !py_sum_fold.
  apply sum_skipping_zeros_plain; [now left | now left | now left].
Qed.

(** X12.  The grand totals in the last column of the expense tables are
    the sub-totals of [main]: summing only the entries that are not zero,
    as [create_pdf] does, gives the same number as summing them all (the
    same float, or the [int] 0 of an empty sum against a float zero).
    Unlike the two mileage totals, these two computations cannot
    disagree. *)
Theorem expense_grand_totals_agree
  (airfare ground_transport parking lodging baggage : list float) :
  num_same (ExpenseTable.grand_total airfare) (Main.total_airfare airfare) /\
  num_same (ExpenseTable.grand_total ground_transport)
           (Main.total_ground_transport ground_transport) /\
  num_same (ExpenseTable.grand_total parking) (Main.total_parking parking) /\
  num_same (ExpenseTable.grand_total lodging) (Main.total_lodging lodging) /\
  num_same (ExpenseTable.grand_total baggage) (Main.total_baggage baggage).
Proof. repeat split; apply grand_total_same. Qed.

Lemma slice_length {A : Type} (xs : list A) (i k : nat) : (length (slice xs i (i + k)) <= k)%nat.
Proof. rewrite slice_row, length_take. lia. Qed.

Lemma chunk_list_lengths {A : Type} (items : list A) (chunks : list (list A)) :
  chunk_list (Some items) 7 = Ok chunks -> Forall (fun c => (length c <= 7)%nat) chunks.
Proof.
  intros H. apply Forall_lookup. intros q c Hc.
  destruct (chunk_list_lookup items chunks q H) as [_ Hq].
  rewrite Hq in Hc by (now apply lookup_lt_Some in Hc). injection Hc as <-.
  apply slice_length.
Qed.

Lemma chunk_list_seven {A : Type} (items : list A) :
  exists chunks, chunk_list (Some items) 7 = Ok chunks.
Proof. rewrite chunk_list_rows by lia. eauto. Qed.

Lemma padded_row_length {A : Type} (xs : list A) (i : nat) (pad_value : A) :
  length (pad_to_length (slice xs (i * 7) ((i + 1) * 7)) 7 pad_value) = 7%nat.
Proof.
  replace ((i + 1) * 7)%nat with (i * 7 + 7)%nat by lia.
  rewrite pad_to_length_length. pose proof (slice_length xs (i * 7) 7). lia.
Qed.

Lemma pad_to_length_In {A : Type} (items : list A) (n : Z) (pad_value x : A) :
  In x (pad_to_length items n pad_value) -> In x items \/ x = pad_value.
Proof.
  unfold pad_to_length. destruct (_ <? n); [|now left].
  intros H. apply in_app_or in H as [H|H]; [now left|]. right.
  apply list_elem_of_In, elem_of_replicate in H. tauto.
Qed.

Lemma slice_In {A : Type} (xs : list A) (i j : nat) (x : A) : In x (slice xs i j) -> In x xs.
Proof.
  unfold slice. intros H. apply list_elem_of_In, elem_of_take in H as (k & Hk & _).
  rewrite lookup_drop in Hk. eapply list_elem_of_In, list_elem_of_lookup_2, Hk.
Qed.

Lemma length_enumerate_from {A : Type} (xs : list A) (k : nat) :
  length (enumerate_from k xs) = length xs.
Proof. revert k. induction xs as [|x xs IH]; intros k; simpl; [reflexivity | now rewrite IH]. Qed.

Lemma amount_row_ok (label : string) (xs : list float) (grand : num) (i total : nat) :
  running_total grand ->
  exists row, ExpenseTable.amount_row label xs grand i total = Ok row /\ length row = 9%nat.
Proof.
  intros Hg. unfold ExpenseTable.amount_row, ExpenseTable.amount_cells.
  destruct (map_result_total
              (fun x => if num_truthy x then let* text := dollars_2f x in Ok (VStr text)
                        else Ok (VStr ""))
              (pad_to_length (slice (map NFloat xs) (i * 7) ((i + 1) * 7)) 7 (NInt 0)))
    as [cells Hcells].
  { intros x Hx. apply pad_to_length_In in Hx as [Hx| ->]; [|eexists; reflexivity].
    apply slice_In, in_map_iff in Hx as (f & <- & _).
    destruct (num_truthy (NFloat f)); eexists; reflexivity. }
  rewrite Hcells. cbn [bind].
  apply map_result_length in Hcells. rewrite padded_row_length in Hcells.
  destruct (dollars_2f_running grand Hg) as [text Ht].
  destruct (_ =? _); [rewrite Ht|]; cbn [bind]; eexists; (split; [reflexivity|]);
    rewrite !length_app, Hcells; reflexivity.
Qed.

Lemma grand_total_running (xs : list float) : running_total (ExpenseTable.grand_total xs).
Proof. apply running_total_py_sum. Qed.

(** X13.  The expense tables always come out (nothing in them can
    raise on the floats [main] stores), one table per row of seven
    expense dates, every row of a table nine cells wide.  A table has
    seven rows plus one for each miscellaneous description that is not
    blank: the amounts of a miscellaneous row whose description is empty
    or blank are printed nowhere, although [main] has added them to
    [total_misc]. *)
Theorem misc_rows_need_a_description
  (expense_dates : list value)
  (airfare ground_transport parking lodging baggage misc misc2 : list float)
  (misc_desc1 misc_desc2 : string) :
  let described (d : string) : nat := if str_truthy (strip d) then 1%nat else 0%nat in
  exists tables,
    ExpenseTable.expense_tables expense_dates airfare ground_transport parking lodging
      baggage misc misc2 misc_desc1 misc_desc2 = Ok tables /\
    length tables = ((length expense_dates + 6) / 7)%nat /\
    Forall (fun table =>
              length table = (7 + described misc_desc1 + described misc_desc2)%nat /\
              Forall (fun row => length row = 9%nat) table)
           tables.
Proof.
  cbv zeta. unfold ExpenseTable.expense_tables.
  destruct (chunk_list_seven expense_dates) as [chunks Hchunks]. rewrite Hchunks. simpl.
  pose proof (chunk_list_lengths _ _ Hchunks) as Hlen.
  destruct (chunk_list_lookup expense_dates chunks 0 Hchunks) as [Hcount _].
  rewrite (for_each_ext _ _ _
             (fun acc p =>
                let* y := ExpenseTable.expenses_data airfare ground_transport parking lodging
                            baggage misc misc2 misc_desc1 misc_desc2
                            (fst p) (length chunks) (snd p) in
                Ok (acc ++ [y])))
    by (intros acc [i c] _; reflexivity).
  rewrite for_each_snoc.
  assert (Hrow : forall p, In p (enumerate_from 0 chunks) ->
            exists table,
              ExpenseTable.expenses_data airfare ground_transport parking lodging
                baggage misc misc2 misc_desc1 misc_desc2 (fst p) (length chunks) (snd p)
              = Ok table /\
              length table
              = (7 + (if str_truthy (strip misc_desc1) then 1 else 0)
                 + (if str_truthy (strip misc_desc2) then 1 else 0))%nat /\
              Forall (fun row => length row = 9%nat) table).
  { intros [i c] Hp. apply enumerate_from_In in Hp as [_ Hc]. simpl.
    assert (Lc : (length c <= 7)%nat).
    { rewrite Forall_lookup in Hlen. exact (Hlen _ _ Hc). }
    unfold ExpenseTable.expenses_data.
    destruct (amount_row_ok "Airfare" airfare _ i (length chunks)
                (grand_total_running airfare)) as (r1 & -> & L1).
    destruct (amount_row_ok "Ground Transportation" ground_transport _ i (length chunks)
                (grand_total_running ground_transport)) as (r2 & -> & L2).
    destruct (amount_row_ok "Parking" parking _ i (length chunks)
                (grand_total_running parking)) as (r3 & -> & L3).
    destruct (amount_row_ok "Lodging" lodging _ i (length chunks)
                (grand_total_running lodging)) as (r4 & -> & L4).
    destruct (amount_row_ok "Baggage Fees" baggage _ i (length chunks)
                (grand_total_running baggage)) as (r5 & -> & L5).
    cbn [bind].
    assert (Ld : length ([VStr "Date (MM/DD/YY)"] ++ pad_to_length c 7 (VStr "")
                         ++ [VStr "Total"]) = 9%nat).
    { rewrite !length_app, pad_to_length_length. simpl. lia. }
    assert (Llabel : forall d, ExpenseTable.misc_label d
                               = if str_truthy (strip d) then Some (strip d) else None).
    { intros d. unfold ExpenseTable.misc_label. destruct d; reflexivity. }
    rewrite !Llabel.
    destruct (str_truthy (strip misc_desc1)), (str_truthy (strip misc_desc2)).
    - destruct (amount_row_ok (strip misc_desc1) misc _ i (length chunks)
                  (grand_total_running misc)) as (r6 & -> & L6).
      destruct (amount_row_ok (strip misc_desc2) misc2 _ i (length chunks)
                  (grand_total_running misc2)) as (r7 & -> & L7).
      eexists. split; [reflexivity|]. split; [reflexivity|].
      repeat (apply List.Forall_cons; [assumption || reflexivity|]). apply List.Forall_nil.
    - destruct (amount_row_ok (strip misc_desc1) misc _ i (length chunks)
                  (grand_total_running misc)) as (r6 & -> & L6).
      eexists. split; [reflexivity|]. split; [reflexivity|].
      repeat (apply List.Forall_cons; [assumption || reflexivity|]). apply List.Forall_nil.
    - destruct (amount_row_ok (strip misc_desc2) misc2 _ i (length chunks)
                  (grand_total_running misc2)) as (r7 & -> & L7).
      eexists. split; [reflexivity|]. split; [reflexivity|].
      repeat (apply List.Forall_cons; [assumption || reflexivity|]). apply List.Forall_nil.
    - eexists. split; [reflexivity|]. split; [reflexivity|].
      repeat (apply List.Forall_cons; [assumption || reflexivity|]). apply List.Forall_nil. }
  destruct (map_result_total
              (fun p => ExpenseTable.expenses_data airfare ground_transport parking lodging
                          baggage misc misc2 misc_desc1 misc_desc2
                          (fst p) (length chunks) (snd p))
              (enumerate_from 0 chunks)) as [tables Ht].
  { intros p Hp. destruct (Hrow p Hp) as (table & H & _). eauto. }
  rewrite Ht. simpl. exists tables. split; [reflexivity|].
  pose proof (map_result_length _ _ _ Ht) as Lt.
  rewrite length_enumerate_from in Lt.
  split; [rewrite Lt; exact Hcount|].
  apply Forall_lookup. intros k table Hk.
  assert (Hp : exists p, enumerate_from 0 chunks !! k = Some p).
  { apply lookup_lt_is_Some. rewrite length_enumerate_from, <- Lt.
    now apply lookup_lt_Some in Hk. }
  destruct Hp as [p Hp].
  destruct (map_result_lookup _ _ _ Ht k p Hp) as (table' & Hk' & Htable).
  rewrite Hk in Hk'. injection Hk' as <-.
  destruct (Hrow p) as (table' & Htable' & Hshape).
  { eapply list_elem_of_In, list_elem_of_lookup_2, Hp. }
  rewrite Htable in Htable'. injection Htable' as <-. exact Hshape.
Qed.

(** ** The date range *)

Lemma dates_from_S (start : Date.t) (k : nat) :
  dates_from start (S k) = Date.strftime_mdy start :: dates_from (start + 1) k.
Proof.
  unfold dates_from. rewrite <- cons_seq. simpl. rewrite Z.add_0_r. f_equal.
  rewrite <- fmap_S_seq. change (fmap S (seq 0 k)) with (map S (seq 0 k)).
  rewrite map_map. apply map_ext. intros j. f_equal. lia.
Qed.

Lemma date_loop_dates (remaining : nat) (current end_date : Date.t) (dates : list string) :
  1 <= current ->
  let k := Nat.min remaining (Z.to_nat (end_date - current + 1)) in
  current + Z.of_nat k <= Date.max_ordinal ->
  date_loop remaining current end_date dates = Ok (dates ++ dates_from current k).
Proof.
  revert current dates. induction remaining as [|r IH]; intros current dates Hc; cbv zeta.
  - intros _. simpl. now rewrite app_nil_r.
  - intros Hk. simpl date_loop.
    destruct (current <=? end_date) eqn:L.
    + apply Z.leb_le in L.
      replace (Nat.min (S r) (Z.to_nat (end_date - current + 1)))
        with (S (Nat.min r (Z.to_nat (end_date - (current + 1) + 1)))) in * by lia.
      unfold Date.add_days.
      replace ((1 <=? current + 1) && (current + 1 <=? Date.max_ordinal)) with true
        by (symmetry; apply andb_true_intro; split; [apply Z.leb_le | apply Z.leb_le]; lia).
      cbn [bind]. rewrite IH by lia.
      rewrite dates_from_S, <- app_assoc. reflexivity.
    + apply Z.leb_gt in L.
      replace (Nat.min (S r) (Z.to_nat (end_date - current + 1))) with 0%nat by lia.
      simpl. now rewrite app_nil_r.
Qed.

Lemma date_loop_overflow (remaining : nat) (current : Date.t) (dates : list string) :
  1 <= current <= Date.max_ordinal ->
  Date.max_ordinal - current < Z.of_nat remaining ->
  date_loop remaining current Date.max_ordinal dates = Raise OverflowError.
Proof.
  revert current dates. induction remaining as [|r IH]; intros current dates Hc Hr; [lia|].
  simpl date_loop.
  replace (current <=? Date.max_ordinal) with true by (symmetry; apply Z.leb_le; lia).
  unfold Date.add_days.
  destruct (Z.eq_dec current Date.max_ordinal) as [->|Hne].
  - reflexivity.
  - replace ((1 <=? current + 1) && (current + 1 <=? Date.max_ordinal)) with true
      by (symmetry; apply andb_true_intro; split; [apply Z.leb_le | apply Z.leb_le]; lia).
    cbn [bind]. apply IH; lia.
Qed.

Lemma length_dates_from (start : Date.t) (k : nat) : length (dates_from start k) = k.
Proof. unfold dates_from. now rewrite length_map, length_seq. Qed.

(** X14.  [generate_date_range] returns exactly [max_days] texts: the
    days from the start date on, one after the other, as far as the end
    date and [max_days] allow, and then empty texts.  Without a start or
    an end date all texts are empty.  The one way it fails is by stepping
    past the last day of the calendar: when the end date is 9999-12-31
    and [max_days] reaches beyond it, adding a day raises
    [OverflowError]. *)
Theorem generate_date_range_fills_max_days
  (start_date end_date : Date.t) (max_days : Z) :
  1 <= start_date <= Date.max_ordinal -> end_date <= Date.max_ordinal ->
  let k := Z.to_nat (Z.min max_days (end_date - start_date + 1)) in
  (if start_date + Z.of_nat k <=? Date.max_ordinal then
     generate_date_range (Some start_date) (Some end_date) max_days
     = Ok (dates_from start_date k ++ replicate (Z.to_nat max_days - k) ""%string)
   else
     generate_date_range (Some start_date) (Some end_date) max_days = Raise OverflowError) /\
  generate_date_range None (Some end_date) max_days = Ok (replicate (Z.to_nat max_days) ""%string) /\
  generate_date_range (Some start_date) None max_days
  = Ok (replicate (Z.to_nat max_days) ""%string) /\
  forall dates, generate_date_range (Some start_date) (Some end_date) max_days = Ok dates ->
                length dates = Z.to_nat max_days.
Proof.
  intros Hs He. cbv zeta.
  set (k := Z.to_nat (Z.min max_days (end_date - start_date + 1))).
  assert (Ek : k = Nat.min (Z.to_nat max_days) (Z.to_nat (end_date - start_date + 1)))
    by (unfold k; lia).
  assert (Hmain :
    if start_date + Z.of_nat k <=? Date.max_ordinal then
      generate_date_range (Some start_date) (Some end_date) max_days
      = Ok (dates_from start_date k ++ replicate (Z.to_nat max_days - k) ""%string)
    else
      generate_date_range (Some start_date) (Some end_date) max_days = Raise OverflowError).
  { unfold generate_date_range.
    destruct (start_date + Z.of_nat k <=? Date.max_ordinal) eqn:L.
    - apply Z.leb_le in L.
      rewrite (date_loop_dates _ _ _ [] (proj1 Hs)) by (rewrite <- Ek; exact L).
      rewrite <- Ek. cbn [bind]. simpl app. now rewrite length_dates_from.
    - apply Z.leb_gt in L. rewrite Ek in L.
      assert (end_date = Date.max_ordinal) by lia. subst end_date.
      rewrite date_loop_overflow by lia. reflexivity. }
  split; [exact Hmain|]. split; [reflexivity|]. split; [reflexivity|].
  intros dates Hd. destruct (start_date + Z.of_nat k <=? Date.max_ordinal).
  - rewrite Hmain in Hd. injection Hd as <-.
    rewrite length_app, length_dates_from, length_replicate. lia.
  - rewrite Hmain in Hd. discriminate.
Qed.

Lemma generate_date_range_fills_max_days_witness :
  1 <= 739252 <= Date.max_ordinal /\ 739254 <= Date.max_ordinal /\
  generate_date_range (Some 739252) (Some 739254) 5
  = Ok (dates_from 739252 3 ++ replicate 2 ""%string).
Proof.
  split; [split; vm_compute; discriminate|]. split; [vm_compute; discriminate|].
  apply (generate_date_range_fills_max_days 739252 739254 5);
    [split|]; vm_compute; discriminate.
Defined.

Lemma drop_while_keeps_last {A : Type} (p : A -> bool) (l : list A) (c : A) :
  p c = false -> drop_while p (l ++ [c]) <> [].
Proof.
  intros Hc. induction l as [|x l IH]; simpl.
  - now rewrite Hc.
  - destruct (p x); [exact IH | discriminate].
Qed.

Lemma strip_chars_keeps_text (p : ascii -> bool) (c : ascii) (l : list ascii) :
  p c = false -> strip_chars p (c :: l) <> [].
Proof.
  intros Hc. unfold strip_chars. simpl drop_while at 2. rewrite Hc.
  change (rev (c :: l)) with (rev l ++ [c]).
  pose proof (drop_while_keeps_last p (rev l) c Hc) as H.
  destruct (drop_while p (rev l ++ [c])) as [|x m]; [congruence|].
  simpl. destruct (rev m); discriminate.
Qed.

Lemma strip_keeps_text (c : ascii) (s : string) :
  is_space c = false -> str_truthy (strip (String c s)) = true.
Proof.
  intros Hc. unfold strip.
  change (list_ascii_of_string (String c s)) with (c :: list_ascii_of_string s).
  pose proof (strip_chars_keeps_text is_space c (list_ascii_of_string s) Hc) as H.
  destruct (strip_chars is_space (c :: list_ascii_of_string s)); [congruence | reflexivity].
Qed.

Lemma two_digits_head (k : Z) :
  exists c rest, two_digits k = String c rest /\ is_space c = false.
Proof.
  unfold two_digits. eexists _, _. split; [reflexivity|].
  pose proof (Z.mod_pos_bound (k / 10) 10 ltac:(lia)) as H.
  set (d := k / 10 mod 10) in *.
  assert (E : d = 0 \/ d = 1 \/ d = 2 \/ d = 3 \/ d = 4 \/ d = 5 \/ d = 6 \/ d = 7 \/
              d = 8 \/ d = 9) by lia.
  destruct E as [->|[->|[->|[->|[->|[->|[->|[->|[->| ->]]]]]]]]]; reflexivity.
Qed.

(** A date as [strftime] writes it is never blank. *)
Lemma present_strftime (d : Date.t) : present (VStr (Date.strftime_mdy d)) = true.
Proof.
  rewrite present_str. unfold Date.strftime_mdy.
  destruct (Date.ord2ymd d) as [[year month] day].
  destruct (two_digits_head month) as (c & rest & -> & Hc).
  now apply strip_keeps_text.
Qed.

(** X15.  For a departure date and a return date that is not before it,
    [main] is not stopped, lays out between 1 and 60 day columns, one per
    day of the trip up to the sixtieth, and the dates it proposes for them
    are the days of the trip in order, none of them blank: no column is
    left without a date and no day within the first sixty is left out.
    (The return date is taken before the last day of the calendar.) *)
Theorem default_dates_cover_the_trip (departure_date return_date : Date.t) :
  1 <= departure_date <= return_date -> return_date < Date.max_ordinal ->
  let total_days := Dates.total_days (Some departure_date) (Some return_date) in
  Dates.range_rejected (Some departure_date) (Some return_date) = false /\
  1 <= total_days <= 60 /\
  total_days = Z.min (return_date - departure_date + 1) 60 /\
  Dates.default_dates (Some departure_date) (Some return_date)
  = Ok (dates_from departure_date (Z.to_nat total_days)) /\
  Forall (fun d => present (VStr d) = true) (dates_from departure_date (Z.to_nat total_days)).
Proof.
  intros Hd Hr. cbv zeta. unfold Dates.default_dates, Dates.total_days, Dates.range_rejected.
  replace (departure_date <=? return_date) with true by (symmetry; apply Z.leb_le; lia).
  replace (return_date <? departure_date) with false by (symmetry; apply Z.ltb_ge; lia).
  set (n := Z.min (return_date - departure_date + 1) 60).
  split; [reflexivity|]. split; [unfold n; lia|]. split; [reflexivity|]. split.
  - unfold generate_date_range.
    rewrite (date_loop_dates _ _ _ []) by (unfold n; lia). cbn [bind]. simpl app.
    replace (Nat.min (Z.to_nat n) (Z.to_nat (return_date - departure_date + 1)))
      with (Z.to_nat n) by (unfold n; lia).
    rewrite length_dates_from, Nat.sub_diag. f_equal. apply app_nil_r.
  - apply List.Forall_forall. intros d Hin. unfold dates_from in Hin.
    apply in_map_iff in Hin as (j & <- & _). apply present_strftime.
Qed.

Lemma default_dates_cover_the_trip_witness :
  1 <= 739252 <= 739254 /\ 739254 < Date.max_ordinal /\
  Dates.default_dates (Some 739252) (Some 739254) = Ok (dates_from 739252 3).
Proof.
  split; [lia|]. split; [reflexivity|].
  apply (default_dates_cover_the_trip 739252 739254); [lia | reflexivity].
Defined.

Lemma enumerate_all {A : Type} (p : A -> bool) (xs : list A) (k : nat) :
  Forall (fun x => p x = true) xs ->
  map fst (List.filter (fun q => p (snd q)) (enumerate_from k xs)) = seq k (length xs).
Proof.
  revert k. induction xs as [|x xs IH]; intros k H; simpl; [reflexivity|].
  apply Forall_cons_iff in H as [Hx H]. rewrite Hx. simpl. f_equal. now apply IH.
Qed.

(** X16.  When the per diem date fields hold the dates [main] proposes,
    every day column is an active day: the active day set is all of
    0 .. n-1, so the first day of the trip is day 0 and the last is day
    n-1, and these are the two days that get the 75 percent rule. *)
Theorem proposed_dates_make_every_day_active (departure_date : Date.t) (n : nat) :
  let per_diem_dates := map VStr (dates_from departure_date (S n)) in
  Main.days_with_dates per_diem_dates = seq 0 (S n) /\
  Main.first_day_idx per_diem_dates = 0%nat /\
  Main.last_day_idx per_diem_dates = n.
Proof.
  cbv zeta.
  assert (E : Main.days_with_dates (map VStr (dates_from departure_date (S n))) = seq 0 (S n)).
  { unfold Main.days_with_dates. rewrite (enumerate_all present).
    - now rewrite length_map, length_dates_from.
    - apply List.Forall_forall. intros v Hv. apply in_map_iff in Hv as (d & <- & Hd).
      unfold dates_from in Hd. apply in_map_iff in Hd as (j & <- & _).
      apply present_strftime. }
  split; [exact E|]. unfold Main.first_day_idx, Main.last_day_idx. rewrite E.
  split; [reflexivity|].
  rewrite seq_S. apply last_last.
Qed.

(** ** Keys of the session state *)

Lemma length_append (a b : string) :
  String.length (a ++ b) = (String.length a + String.length b)%nat.
Proof. induction a as [|c a IH]; simpl; [reflexivity | now rewrite IH]. Qed.

Lemma append_inv_head (a x y : string) : (a ++ x = a ++ y)%string -> x = y.
Proof. induction a as [|c a IH]; simpl; [auto | intros [= H]; auto]. Qed.

Lemma append_inv_tail (x y s : string) : (x ++ s = y ++ s)%string -> x = y.
Proof.
  revert y. induction x as [|c x IH]; intros [|d y] H; simpl in H.
  - reflexivity.
  - apply (f_equal String.length) in H. rewrite !length_append in H. simpl in H. exfalso. lia.
  - apply (f_equal String.length) in H. rewrite !length_append in H. simpl in H. exfalso. lia.
  - injection H as -> H. f_equal. now apply IH.
Qed.

Lemma substring_all (b : string) : substring 0 (String.length b) b = b.
Proof. induction b as [|c b IH]; simpl; [reflexivity | now rewrite IH]. Qed.

Lemma substring_append (a b : string) :
  substring (String.length a) (String.length b) (a ++ b) = b.
Proof. induction a as [|c a IH]; simpl; [apply substring_all | exact IH]. Qed.

Lemma endswith_append (a b : string) : endswith (a ++ b) b = true.
Proof.
  unfold endswith. rewrite length_append.
  replace (String.length a + String.length b - String.length b)%nat
    with (String.length a) by lia.
  rewrite substring_append, String.eqb_refl.
  replace (String.length b <=? String.length a + String.length b)%nat with true
    by (symmetry; apply Nat.leb_le; lia).
  reflexivity.
Qed.

Lemma prefix_append (p s : string) : String.prefix p (p ++ s) = true.
Proof.
  induction p as [|c p IH]; simpl; [now destruct s|].
  destruct (ascii_dec c c); [exact IH | congruence].
Qed.

Lemma to_int_normal (z : Z) : Decimal.norm (Z.to_int z) = Z.to_int z.
Proof. rewrite <- to_of. now rewrite of_to. Qed.

Lemma str_of_int_inj (z z' : Z) : str_of_int z = str_of_int z' -> z = z'.
Proof.
  unfold str_of_int. intros H.
  assert (Hn : forall w, Z.to_int w <> Decimal.Pos Decimal.Nil /\
                         Z.to_int w <> Decimal.Neg Decimal.Nil).
  { intros w. pose proof (to_int_normal w) as E.
    split; intros C; rewrite C in E; discriminate E. }
  apply (f_equal NilZero.int_of_string) in H.
  rewrite !NilZero.isi in H by apply Hn.
  injection H as H. now apply to_int_inj.
Qed.

Lemma uint_digits (u : Decimal.uint) : all_digits (NilEmpty.string_of_uint u) = true.
Proof. induction u; simpl; auto. Qed.

Lemma str_of_nat_digits (i : nat) :
  exists c rest,
    str_of_int (Z.of_nat i) = String c rest /\ is_digit c = true /\ all_digits rest = true.
Proof.
  unfold str_of_int.
  assert (H : exists u, Z.to_int (Z.of_nat i) = Decimal.Pos u).
  { destruct (Z.of_nat i) as [|q|q] eqn:E; [eexists; reflexivity | eexists; reflexivity |].
    exfalso. lia. }
  destruct H as [u ->]. simpl.
  pose proof (uint_digits u) as Hu.
  destruct u; simpl in *; eexists _, _; (split; [reflexivity|]); split;
    solve [reflexivity | exact Hu].
Qed.

Lemma append_cons (c : ascii) (s t : string) :
  (String c s ++ t)%string = String c (s ++ t).
Proof. reflexivity. Qed.

Lemma append_assoc (a b c : string) : ((a ++ b) ++ c = a ++ (b ++ c))%string.
Proof.
  induction a as [|x a IH]; [reflexivity|]. rewrite !append_cons. now rewrite IH.
Qed.

Lemma append_nil (t : string) : (EmptyString ++ t)%string = t.
Proof. reflexivity. Qed.

Lemma prefix_cons (a b : ascii) (s1 s2 : string) :
  String.prefix (String a s1) (String b s2) = Ascii.eqb a b && String.prefix s1 s2.
Proof.
  cbn [String.prefix]. destruct (ascii_dec a b) as [->|E].
  - now rewrite Ascii.eqb_refl.
  - apply Ascii.eqb_neq in E. now rewrite E.
Qed.

Lemma replace_step (c : ascii) (s : string) :
  Ascii.eqb "_" c = false ->
  replace_from "_has_error" "" 0 (String c s)
  = String c (replace_from "_has_error" "" 0 s).
Proof. intros H. cbn [replace_from]. now rewrite prefix_cons, H. Qed.

Lemma replace_step_underscore (c : ascii) (s : string) :
  is_digit c = true ->
  replace_from "_has_error" "" 0 (String "_" (String c s))
  = String "_" (replace_from "_has_error" "" 0 (String c s)).
Proof.
  intros H. cbn [replace_from]. rewrite !prefix_cons.
  replace (Ascii.eqb "h" c) with false; [reflexivity|].
  symmetry. apply Ascii.eqb_neq. intros <-. discriminate H.
Qed.

Lemma digit_not_underscore (c : ascii) : is_digit c = true -> Ascii.eqb "_" c = false.
Proof. intros H. apply Ascii.eqb_neq. intros <-. discriminate H. Qed.

Lemma replace_digits (d : string) :
  all_digits d = true -> replace_from "_has_error" "" 0 (d ++ "_has_error") = d.
Proof.
  induction d as [|c d IH]; intros H; [reflexivity|].
  cbn [all_digits] in H. apply andb_prop in H as [Hc H].
  rewrite append_cons, replace_step by (now apply digit_not_underscore).
  f_equal. now apply IH.
Qed.

Lemma replace_after_prefix (prefix : string) (c : ascii) (rest : string) :
  In prefix Form.input_prefixes -> is_digit c = true ->
  replace_from "_has_error" "" 0 (prefix ++ String c rest)
  = (prefix ++ replace_from "_has_error" "" 0 (String c rest))%string.
Proof.
  intros Hp Hc. unfold Form.input_prefixes in Hp. simpl in Hp.
  destruct Hp as [<-|[<-|[<-|[<-|[<-|[<-|[<-|[<-|[]]]]]]]]];
    rewrite !append_cons, !append_nil; repeat (rewrite replace_step by reflexivity);
    rewrite replace_step_underscore by exact Hc; reflexivity.
Qed.

(** The flag key of a numeric field is one the scan recognises. *)
Lemma flag_key_flags_error (prefix : string) (i : nat) (flag : value) :
  In prefix Form.input_prefixes -> flags_error (flag_key prefix i) flag = truthy flag.
Proof.
  intros Hp. unfold flags_error, flag_key.
  rewrite endswith_append. cbn [andb].
  destruct (str_of_nat_digits i) as (c & rest & Hd & Hc & Hrest).
  assert (Hbase : replace (day_key prefix i ++ "_has_error") "_has_error" ""
                  = day_key prefix i).
  { unfold replace, day_key. rewrite Hd.
    rewrite append_assoc, append_cons.
    rewrite (replace_after_prefix prefix c _ Hp Hc). f_equal.
    rewrite <- append_cons.
    apply (replace_digits (String c rest)). cbn [all_digits]. now rewrite Hc. }
  rewrite Hbase.
  replace (existsb _ Form.input_prefixes) with true; [apply andb_true_r|].
  symmetry. apply existsb_exists. exists prefix. split; [exact Hp|].
  unfold startswith, day_key. apply prefix_append.
Qed.

Lemma prefixes_apart (p q x y : string) :
  In p Form.input_prefixes -> In q Form.input_prefixes ->
  (p ++ x = q ++ y)%string -> p = q.
Proof.
  unfold Form.input_prefixes. simpl. intros Hp Hq.
  destruct Hp as [<-|[<-|[<-|[<-|[<-|[<-|[<-|[<-|[]]]]]]]]];
    destruct Hq as [<-|[<-|[<-|[<-|[<-|[<-|[<-|[<-|[]]]]]]]]];
    rewrite ?append_cons, ?append_nil; intros H; solve [reflexivity | discriminate H].
Qed.

(** Two numeric fields never share a flag key. *)
Lemma flag_key_inj (p q : string) (i j : nat) :
  In p Form.input_prefixes -> In q Form.input_prefixes ->
  flag_key p i = flag_key q j -> p = q /\ i = j.
Proof.
  intros Hp Hq H. unfold flag_key, day_key in H.
  rewrite !append_assoc in H.
  pose proof (prefixes_apart _ _ _ _ Hp Hq H) as ->. split; [reflexivity|].
  apply append_inv_head, append_inv_tail, str_of_int_inj in H. lia.
Qed.

(** ** The scan of the session state *)

Lemma has_errors_intro (st : session) (key : string) (flag : value) :
  st !! key = Some flag -> flags_error key flag = true ->
  Form.has_validation_errors st = true.
Proof.
  intros Hk Hf. unfold Form.has_validation_errors. apply existsb_exists.
  exists (key, flag). split; [|exact Hf].
  apply list_elem_of_In, elem_of_map_to_list. exact Hk.
Qed.

Lemma has_errors_none (st : session) :
  (forall key flag, st !! key = Some flag -> flags_error key flag = false) <->
  Form.has_validation_errors st = false.
Proof.
  unfold Form.has_validation_errors. split.
  - intros H. destruct (existsb _ _) eqn:E; [|reflexivity].
    apply existsb_exists in E as ([key flag] & Hin & Hf).
    apply list_elem_of_In, elem_of_map_to_list in Hin.
    change (flags_error key flag = true) in Hf. rewrite (H key flag Hin) in Hf.
    discriminate Hf.
  - intros H key flag Hk.
    destruct (flags_error key flag) eqn:E; [|reflexivity].
    rewrite <- H. symmetry. apply existsb_exists. exists (key, flag). split; [|exact E].
    apply list_elem_of_In, elem_of_map_to_list. exact Hk.
Qed.

Lemma write_all_app (a b : list (string * value)) (st : session) :
  write_all (a ++ b) st = write_all b (write_all a st).
Proof. unfold write_all. apply fold_left_app. Qed.

Lemma lookup_write_all_inv (writes : list (string * value)) (st : session)
  (key : string) (flag : value) :
  write_all writes st !! key = Some flag -> In (key, flag) writes \/ st !! key = Some flag.
Proof.
  revert st. induction writes as [|[k v] writes IH]; intros st H; [now right|].
  simpl in H. apply IH in H as [H|H]; [left; now right|].
  cbn [fst snd] in H.
  destruct (decide (k = key)) as [->|Hne].
  - rewrite lookup_insert_eq in H. injection H as <-. left. now left.
  - rewrite lookup_insert_ne in H by exact Hne. now right.
Qed.

Lemma lookup_write_all_other (writes : list (string * value)) (st : session) (key : string) :
  (forall flag, ~ In (key, flag) writes) -> write_all writes st !! key = st !! key.
Proof.
  revert st. induction writes as [|[k v] writes IH]; intros st H; [reflexivity|].
  simpl. rewrite IH by (intros f Hf; apply (H f); now right).
  cbn [fst snd]. apply lookup_insert_ne. intros ->. apply (H v). now left.
Qed.

Lemma lookup_write_all_same (writes : list (string * value)) (st : session)
  (key : string) (flag : value) :
  In (key, flag) writes -> (forall flag', In (key, flag') writes -> flag' = flag) ->
  write_all writes st !! key = Some flag.
Proof.
  induction writes as [|[k v] writes IH] using rev_ind; intros Hin Hsame; [destruct Hin|].
  rewrite write_all_app. simpl. cbn [fst snd].
  destruct (decide (k = key)) as [->|Hne].
  - rewrite lookup_insert_eq. f_equal. apply Hsame, in_or_app. right. now left.
  - rewrite lookup_insert_ne by exact Hne. apply IH.
    + apply in_app_or in Hin as [Hin|[[= -> ->]|[]]]; [exact Hin | congruence].
    + intros f Hf. apply Hsame, in_or_app. now left.
Qed.

(** ** From the widgets to the document *)

Lemma number_value_not_negative (text : string) : not_negative (number_value text) = true.
Proof.
  unfold number_value.
  destruct (number_text_input_default_not_negative text) as (v & b & -> & H). exact H.
Qed.

Lemma fold_left_snoc2 {A B C : Type} (f : A -> B) (g : A -> C) (xs : list A)
  (a : list B) (b : list C) :
  fold_left (fun '(a, b) x => (a ++ [f x], b ++ [g x])) xs (a, b)
  = (a ++ map f xs, b ++ map g xs).
Proof.
  revert a b. induction xs as [|x xs IH]; intros a b; simpl; [now rewrite !app_nil_r|].
  now rewrite IH, <- !app_assoc.
Qed.

Lemma fold_left_snoc5 {A B1 B2 B3 B4 B5 : Type}
  (f1 : A -> B1) (f2 : A -> B2) (f3 : A -> B3) (f4 : A -> B4) (f5 : A -> B5)
  (xs : list A) (a1 : list B1) (a2 : list B2) (a3 : list B3) (a4 : list B4) (a5 : list B5) :
  fold_left (fun '(a1, a2, a3, a4, a5) x =>
               (a1 ++ [f1 x], a2 ++ [f2 x], a3 ++ [f3 x], a4 ++ [f4 x], a5 ++ [f5 x]))
    xs (a1, a2, a3, a4, a5)
  = (a1 ++ map f1 xs, a2 ++ map f2 xs, a3 ++ map f3 xs, a4 ++ map f4 xs, a5 ++ map f5 xs).
Proof.
  revert a1 a2 a3 a4 a5.
  induction xs as [|x xs IH]; intros a1 a2 a3 a4 a5; simpl; [now rewrite !app_nil_r|].
  now rewrite IH, <- !app_assoc.
Qed.

Lemma fold_left_snoc6 {A B1 B2 B3 B4 B5 B6 : Type}
  (f1 : A -> B1) (f2 : A -> B2) (f3 : A -> B3) (f4 : A -> B4) (f5 : A -> B5) (f6 : A -> B6)
  (xs : list A) (a1 : list B1) (a2 : list B2) (a3 : list B3) (a4 : list B4) (a5 : list B5)
  (a6 : list B6) :
  fold_left (fun '(a1, a2, a3, a4, a5, a6) x =>
               (a1 ++ [f1 x], a2 ++ [f2 x], a3 ++ [f3 x], a4 ++ [f4 x], a5 ++ [f5 x],
                a6 ++ [f6 x]))
    xs (a1, a2, a3, a4, a5, a6)
  = (a1 ++ map f1 xs, a2 ++ map f2 xs, a3 ++ map f3 xs, a4 ++ map f4 xs, a5 ++ map f5 xs,
     a6 ++ map f6 xs).
Proof.
  revert a1 a2 a3 a4 a5 a6.
  induction xs as [|x xs IH]; intros a1 a2 a3 a4 a5 a6; simpl; [now rewrite !app_nil_r|].
  now rewrite IH, <- !app_assoc.
Qed.

Lemma number_text_input_value_flag (text : string) :
  number_text_input text default_min_value = Ok (number_value text, number_flag text).
Proof.
  unfold number_value, number_flag.
  destruct (number_text_input_default_not_negative text) as (v & b & -> & _). reflexivity.
Qed.

Lemma number_input_writes (st : session) (prefix : string) (text : nat -> string) (i : nat) :
  Form.number_input st (day_key prefix i) (text i)
  = Ok (number_value (text i), write_all [flag_write prefix text i] st).
Proof. unfold Form.number_input. now rewrite number_text_input_value_flag. Qed.

(** A field is flagged exactly when its text is not blank and [float()]
    does not read it. *)
Lemma number_flag_unread (text : string) :
  number_flag text
  = str_truthy (strip text)
    && match float_of_string (cleaned_text text) with Ok _ => false | Raise _ => true end.
Proof.
  unfold number_flag. destruct (str_truthy (strip text)) eqn:Hs.
  - rewrite (number_text_input_not_blank _ _ Hs).
    destruct (float_of_string (cleaned_text text)) as [parsed|e] eqn:E; [reflexivity|].
    destruct (matches_plain_number (cleaned_text text)) eqn:M; [|reflexivity].
    apply plain_number_parses in M as [f Hf]. congruence.
  - now rewrite (number_text_input_blank _ _ Hs).
Qed.

Lemma fold_left_state {A S L : Type} (f : S -> A -> S) (g : L -> A -> L) (xs : list A)
  (st : S) (l : L) :
  fold_left (fun '(st, l) x => (f st x, g l x)) xs (st, l)
  = (fold_left f xs st, fold_left g xs l).
Proof.
  revert st l. induction xs as [|x xs IH]; intros st l; simpl; [reflexivity | apply IH].
Qed.

Lemma fold_left_writes {A : Type} (ws : A -> list (string * value)) (xs : list A)
  (st : session) :
  fold_left (fun st x => write_all (ws x) st) xs st = write_all (flat_map ws xs) st.
Proof.
  revert st. induction xs as [|x xs IH]; intros st; simpl; [reflexivity|].
  now rewrite IH, write_all_app.
Qed.

Lemma flat_map_singleton {A B : Type} (f : A -> B) (xs : list A) :
  flat_map (fun x => [f x]) xs = map f xs.
Proof. induction xs as [|x xs IH]; simpl; [reflexivity | now rewrite IH]. Qed.

Section FormLists.

Variable session_state : session.
Variables name address1 city state zip_code destination email : string.
Variable total_days : Z.
Variables mileage_date_text expense_date_text per_diem_date_text : nat -> string.
Variables mileage_text airfare_text ground_text parking_text lodging_text
          baggage_text misc_text misc2_text : nat -> string.
Variables breakfast lunch dinner : nat -> bool.
Variable selected_per_diem : Z.

Let n := Z.to_nat total_days.

Lemma mileage_inputs_lists :
  Form.mileage_inputs session_state total_days mileage_date_text mileage_text
  = Ok (write_all (map (flag_write "mileage_" mileage_text) (seq 0 n)) session_state,
        (per_day VStr mileage_date_text n, per_day number_value mileage_text n)).
Proof.
  unfold Form.mileage_inputs. rewrite day_loop_flat.
  rewrite (for_each_ext _ _ _
             (fun s i =>
                Ok ((fun '(st, l) i =>
                       (write_all [flag_write "mileage_" mileage_text i] st,
                        (fun '(a, b) i => (a ++ [VStr (mileage_date_text i)],
                                           b ++ [number_value (mileage_text i)])) l i))
                      s i)))
    by (intros [st [a b]] i _; now rewrite number_input_writes).
  rewrite for_each_pure, fold_left_state, fold_left_writes, flat_map_singleton,
    fold_left_snoc2.
  reflexivity.
Qed.

Lemma expense_inputs_lists (st : session) :
  Form.expense_inputs total_days expense_date_text airfare_text ground_text parking_text
    lodging_text baggage_text st
  = Ok (write_all
          (flat_map
             (fun i => [flag_write "airfare_" airfare_text i;
                        flag_write "ground_" ground_text i;
                        flag_write "parking_" parking_text i;
                        flag_write "lodging_" lodging_text i;
                        flag_write "baggage_" baggage_text i])
             (seq 0 n)) st,
        (per_day VStr expense_date_text n, per_day number_value airfare_text n,
         per_day number_value ground_text n, per_day number_value parking_text n,
         per_day number_value lodging_text n, per_day number_value baggage_text n)).
Proof.
  unfold Form.expense_inputs. rewrite day_loop_flat.
  rewrite (for_each_ext _ _ _
             (fun s i =>
                Ok ((fun '(st, l) i =>
                       (write_all [flag_write "airfare_" airfare_text i;
                                   flag_write "ground_" ground_text i;
                                   flag_write "parking_" parking_text i;
                                   flag_write "lodging_" lodging_text i;
                                   flag_write "baggage_" baggage_text i] st,
                        (fun '(a1, a2, a3, a4, a5, a6) i =>
                           (a1 ++ [VStr (expense_date_text i)],
                            a2 ++ [number_value (airfare_text i)],
                            a3 ++ [number_value (ground_text i)],
                            a4 ++ [number_value (parking_text i)],
                            a5 ++ [number_value (lodging_text i)],
                            a6 ++ [number_value (baggage_text i)])) l i))
                      s i)))
    by (intros [s [[[[[a1 a2] a3] a4] a5] a6]] i _;
        repeat (rewrite number_input_writes; cbn [bind]); reflexivity).
  rewrite for_each_pure, fold_left_state, fold_left_writes, fold_left_snoc6.
  reflexivity.
Qed.

Lemma misc_inputs_lists (st : session) :
  Form.misc_inputs total_days misc_text st
  = Ok (write_all (map (flag_write "misc_" misc_text) (seq 0 n)) st,
        per_day number_value misc_text n).
Proof.
  unfold Form.misc_inputs. rewrite day_loop_flat.
  rewrite (for_each_ext _ _ _
             (fun s i =>
                Ok ((fun '(st, l) i =>
                       (write_all [flag_write "misc_" misc_text i] st,
                        l ++ [number_value (misc_text i)])) s i)))
    by (intros [s a] i _; now rewrite number_input_writes).
  rewrite for_each_pure, fold_left_state, fold_left_writes, flat_map_singleton,
    fold_left_snoc.
  reflexivity.
Qed.

Lemma misc2_inputs_lists (st : session) :
  Form.misc2_inputs total_days misc2_text st
  = Ok (write_all (map (flag_write "misc2_" misc2_text) (seq 0 n)) st,
        per_day number_value misc2_text n).
Proof.
  unfold Form.misc2_inputs. rewrite day_loop_flat.
  rewrite (for_each_ext _ _ _
             (fun s i =>
                Ok ((fun '(st, l) i =>
                       (write_all [flag_write "misc2_" misc2_text i] st,
                        l ++ [number_value (misc2_text i)])) s i)))
    by (intros [s a] i _; now rewrite number_input_writes).
  rewrite for_each_pure, fold_left_state, fold_left_writes, flat_map_singleton,
    fold_left_snoc.
  reflexivity.
Qed.

Lemma per_diem_inputs_lists :
  Form.per_diem_inputs total_days per_diem_date_text breakfast lunch dinner selected_per_diem
  = Ok (per_day VStr per_diem_date_text n, per_day VInt (fun _ => selected_per_diem) n,
        per_day VBool breakfast n, per_day VBool lunch n, per_day VBool dinner n).
Proof.
  unfold Form.per_diem_inputs. rewrite day_loop_flat.
  rewrite (for_each_ext _ _ _
             (fun st i =>
                Ok ((fun '(a1, a2, a3, a4, a5) i =>
                       (a1 ++ [VStr (per_diem_date_text i)], a2 ++ [VInt selected_per_diem],
                        a3 ++ [VBool (breakfast i)], a4 ++ [VBool (lunch i)],
                        a5 ++ [VBool (dinner i)])) st i)))
    by (intros [[[[a1 a2] a3] a4] a5] i _; reflexivity).
  rewrite for_each_pure, fold_left_snoc5. reflexivity.
Qed.

(** The run, with its loops worked out: the session state after the
    widgets is the starting one with the flags written over it, and the
    lists hold the numbers of the fields day by day. *)
Lemma submitted_run :
  Form.submitted session_state name address1 city state zip_code destination email
    total_days mileage_date_text expense_date_text per_diem_date_text
    mileage_text airfare_text ground_text parking_text lodging_text baggage_text
    misc_text misc2_text breakfast lunch dinner selected_per_diem
  = match Form.missing_fields name address1 city state zip_code destination email with
    | _ :: _ => Ok None
    | [] =>
        if Form.has_validation_errors
             (write_all (form_writes n mileage_text airfare_text ground_text parking_text
                           lodging_text baggage_text misc_text misc2_text) session_state)
        then Ok None
        else
          let* form_data :=
            Main.form_data
              (per_day number_value mileage_text n) (per_day number_value airfare_text n)
              (per_day number_value ground_text n) (per_day number_value parking_text n)
              (per_day number_value lodging_text n) (per_day number_value baggage_text n)
              (per_day number_value misc_text n) (per_day number_value misc2_text n)
              (per_day VStr per_diem_date_text n)
              (per_day VInt (fun _ => selected_per_diem) n)
              (per_day VBool breakfast n) (per_day VBool lunch n) (per_day VBool dinner n) in
          Ok (Some form_data)
    end.
Proof.
  unfold Form.submitted.
  rewrite mileage_inputs_lists. cbn [bind].
  rewrite expense_inputs_lists. cbn [bind].
  rewrite misc_inputs_lists. cbn [bind].
  rewrite misc2_inputs_lists. cbn [bind].
  rewrite per_diem_inputs_lists. cbn [bind].
  unfold form_writes. rewrite !write_all_app. reflexivity.
Qed.

End FormLists.

Lemma main_form_data_record
  (mileage_amounts airfare ground_transport parking lodging baggage misc misc2 : list float)
  (dates amounts bs ls ds : list value) (fd : FormData.t) :
  Main.form_data mileage_amounts airfare ground_transport parking lodging baggage misc misc2
    dates amounts bs ls ds = Ok fd ->
  exists total_misc adj total,
    Main.total_misc misc misc2 = Ok total_misc /\
    Main.adjusted_per_diem_daily dates amounts bs ls ds = Ok adj /\
    Main.total_amount_due mileage_amounts airfare ground_transport parking lodging baggage
      misc misc2 dates amounts bs ls ds = Ok total /\
    fd = {| FormData.mileage_amounts := map VFloat mileage_amounts;
            FormData.per_diem_dates := dates;
            FormData.per_diem_amounts := amounts;
            FormData.breakfast_checks := bs;
            FormData.lunch_checks := ls;
            FormData.dinner_checks := ds;
            FormData.total_mileage := Main.total_mileage mileage_amounts;
            FormData.total_airfare := py_sum airfare;
            FormData.total_ground_transport := py_sum ground_transport;
            FormData.total_parking := py_sum parking;
            FormData.total_lodging := py_sum lodging;
            FormData.total_baggage := py_sum baggage;
            FormData.total_misc := total_misc;
            FormData.total_per_diem := py_sum adj;
            FormData.total_amount_due := total |}.
Proof.
  unfold Main.form_data, Main.total_per_diem.
  destruct (Main.total_misc misc misc2) as [tm|]; [|discriminate].
  destruct (Main.adjusted_per_diem_daily dates amounts bs ls ds) as [adj|]; [|discriminate].
  cbn [bind].
  destruct (Main.total_amount_due _ _ _ _ _ _ _ _ _ _ _ _ _) as [t|]; [|discriminate].
  cbn [bind]. intros [= <-]. exists tm, adj, t. repeat split.
Qed.

Lemma sub_totals_running (fd : FormData.t) :
  Forall running_total (sub_total_list fd) ->
  exists t, CreatePdf.sub_totals fd = Ok t /\ running_total t.
Proof.
  intros H. unfold sub_total_list in H. split_Forall H.
  unfold CreatePdf.sub_totals.
  repeat match goal with
         | Ha : running_total ?a, Hb : running_total ?b |- context [num_add ?a ?b] =>
             let c := fresh "c" in
             let Hc := fresh "Hc" in
             destruct (num_add_running a b Ha Hb) as (c & -> & Hc); cbn [bind]
         end.
  eauto.
Qed.

Lemma per_day_lookup {A B : Type} (wrap : A -> B) (widget : nat -> A) (n i : nat) :
  per_day wrap widget n !! i = if decide (i < n)%nat then Some (wrap (widget i)) else None.
Proof.
  unfold per_day. rewrite list_lookup_fmap.
  destruct (decide (i < n)%nat) as [Hi|Hi].
  - now rewrite lookup_seq_lt.
  - rewrite lookup_seq_ge by lia. reflexivity.
Qed.

Lemma per_day_length {A B : Type} (wrap : A -> B) (widget : nat -> A) (n : nat) :
  length (per_day wrap widget n) = n.
Proof. unfold per_day. now rewrite length_map, length_seq. Qed.

Lemma option_tier_ok (t : Z) : In t per_diem_options -> tier_ok (VInt t) = true.
Proof. intros H. each_option H; reflexivity. Qed.

Section Flags.

Variable n : nat.
Variables mileage_text airfare_text ground_text parking_text lodging_text
          baggage_text misc_text misc2_text : nat -> string.

Let fields :=
  numeric_fields mileage_text airfare_text ground_text parking_text lodging_text
    baggage_text misc_text misc2_text.
Let writes :=
  form_writes n mileage_text airfare_text ground_text parking_text lodging_text
    baggage_text misc_text misc2_text.

Lemma numeric_field_prefix (p : string) (text : nat -> string) :
  In (p, text) fields -> In p Form.input_prefixes.
Proof.
  intros H. unfold fields in H. each_field H; unfold Form.input_prefixes; simpl; tauto.
Qed.

Lemma numeric_field_text (p : string) (t1 t2 : nat -> string) :
  In (p, t1) fields -> In (p, t2) fields -> t1 = t2.
Proof.
  intros H1 H2. unfold fields in H1, H2. unfold numeric_fields in H2. simpl in H2.
  each_field H1;
    destruct H2 as [H2|[H2|[H2|[H2|[H2|[H2|[H2|[H2|[]]]]]]]]];
    solve [discriminate H2 | now injection H2].
Qed.

(** The flags written in a run are those of the eight numeric fields of
    the days shown, and no others. *)
Lemma form_writes_In (key : string) (flag : value) :
  In (key, flag) writes <->
  exists p text i, In (p, text) fields /\ (i < n)%nat /\ (key, flag) = flag_write p text i.
Proof.
  unfold writes, form_writes. rewrite !in_app_iff, !in_map_iff, in_flat_map. split.
  - intros [(i & E & Hi)|[(i & Hi & Hw)|[(i & E & Hi)|(i & E & Hi)]]];
      apply in_seq in Hi.
    + exists "mileage_"%string, mileage_text, i. repeat split; [|lia|now symmetry].
      unfold fields, numeric_fields. simpl. tauto.
    + simpl in Hw.
      destruct Hw as [E|[E|[E|[E|[E|[]]]]]];
        [exists "airfare_"%string, airfare_text, i
        |exists "ground_"%string, ground_text, i
        |exists "parking_"%string, parking_text, i
        |exists "lodging_"%string, lodging_text, i
        |exists "baggage_"%string, baggage_text, i];
        (repeat split; [|lia|now symmetry]); unfold fields, numeric_fields; simpl; tauto.
    + exists "misc_"%string, misc_text, i. repeat split; [|lia|now symmetry].
      unfold fields, numeric_fields. simpl. tauto.
    + exists "misc2_"%string, misc2_text, i. repeat split; [|lia|now symmetry].
      unfold fields, numeric_fields. simpl. tauto.
  - intros (p & text & i & Hf & Hi & E).
    assert (Hs : In i (seq 0 n)) by (apply in_seq; lia).
    unfold fields in Hf. each_field Hf.
    + left. now exists i.
    + right. left. exists i. split; [exact Hs|]. rewrite E. simpl. tauto.
    + right. left. exists i. split; [exact Hs|]. rewrite E. simpl. tauto.
    + right. left. exists i. split; [exact Hs|]. rewrite E. simpl. tauto.
    + right. left. exists i. split; [exact Hs|]. rewrite E. simpl. tauto.
    + right. left. exists i. split; [exact Hs|]. rewrite E. simpl. tauto.
    + right. right. left. now exists i.
    + right. right. right. now exists i.
Qed.

(** After the widgets the flag of a field shown says whether its text
    was refused, whatever the session state held before. *)
Lemma lookup_flag_shown (st : session) (p : string) (text : nat -> string) (i : nat) :
  In (p, text) fields -> (i < n)%nat ->
  write_all writes st !! flag_key p i = Some (VBool (number_flag (text i))).
Proof.
  intros Hf Hi. apply lookup_write_all_same.
  - apply form_writes_In. exists p, text, i. repeat split; assumption.
  - intros flag' H. apply form_writes_In in H as (q & text' & j & Hq & Hj & E).
    unfold flag_write in E. injection E as Ek ->.
    apply flag_key_inj in Ek as [-> ->]; try (eapply numeric_field_prefix; eassumption).
    now rewrite (numeric_field_text _ _ _ Hf Hq).
Qed.

(** Every other entry of the session state is left as it was. *)
Lemma lookup_flag_not_shown (st : session) (key : string) :
  (forall p i, In p Form.input_prefixes -> (i < n)%nat -> key <> flag_key p i) ->
  write_all writes st !! key = st !! key.
Proof.
  intros H. apply lookup_write_all_other. intros flag Hin.
  apply form_writes_In in Hin as (p & text & i & Hf & Hi & E).
  unfold flag_write in E. injection E as Ek _.
  apply (H p i); [eapply numeric_field_prefix; eassumption | exact Hi | exact Ek].
Qed.

Lemma prefix_numeric_field (p : string) :
  In p Form.input_prefixes -> exists text, In (p, text) fields.
Proof.
  unfold Form.input_prefixes, fields, numeric_fields. simpl.
  intros [<-|[<-|[<-|[<-|[<-|[<-|[<-|[<-|[]]]]]]]]]; eexists; tauto.
Qed.

(** The scan after the widgets finds nothing when no field shown is
    flagged and the session state held no flagged entry of its own. *)
Lemma scan_finds_nothing (st : session) :
  (forall p text i, In (p, text) fields -> (i < n)%nat -> number_flag (text i) = false) ->
  (forall key flag,
     st !! key = Some flag -> flags_error key flag = true ->
     exists p i, In p Form.input_prefixes /\ (i < n)%nat /\ key = flag_key p i) ->
  Form.has_validation_errors (write_all writes st) = false.
Proof.
  intros Hflags Hstale. apply has_errors_none. intros key flag Hk.
  destruct (flags_error key flag) eqn:Hf; [exfalso | reflexivity].
  assert (Hshown : exists p text i, In (p, text) fields /\ (i < n)%nat /\
                                    key = flag_key p i).
  { apply lookup_write_all_inv in Hk as [Hk|Hk].
    - apply form_writes_In in Hk as (p & text & i & Hin & Hi & E).
      injection E as -> _. now exists p, text, i.
    - destruct (Hstale key flag Hk Hf) as (p & i & Hp & Hi & ->).
      destruct (prefix_numeric_field p Hp) as [text Hin]. now exists p, text, i. }
  destruct Hshown as (p & text & i & Hin & Hi & ->).
  rewrite (lookup_flag_shown st p text i Hin Hi) in Hk. injection Hk as <-.
  rewrite flag_key_flags_error in Hf by (eapply numeric_field_prefix; eassumption).
  cbn [truthy] in Hf. rewrite (Hflags p text i Hin Hi) in Hf. discriminate.
Qed.

(** It finds the flag of a field shown whose text was refused. *)
Lemma scan_finds_flagged_field (st : session) (p : string) (text : nat -> string) (i : nat) :
  In (p, text) fields -> (i < n)%nat -> number_flag (text i) = true ->
  Form.has_validation_errors (write_all writes st) = true.
Proof.
  intros Hin Hi Hflag.
  apply (has_errors_intro _ (flag_key p i) (VBool true)).
  - rewrite (lookup_flag_shown st p text i Hin Hi), Hflag. reflexivity.
  - rewrite flag_key_flags_error by (eapply numeric_field_prefix; eassumption).
    reflexivity.
Qed.

(** It finds a flag left under the key of a day that is no longer
    shown. *)
Lemma scan_finds_stale_flag (st : session) (p : string) (i : nat) (flag : value) :
  In p Form.input_prefixes -> (n <= i)%nat ->
  st !! flag_key p i = Some flag -> truthy flag = true ->
  Form.has_validation_errors (write_all writes st) = true.
Proof.
  intros Hp Hi Hk Hflag.
  apply (has_errors_intro _ (flag_key p i) flag).
  - rewrite lookup_flag_not_shown; [exact Hk|].
    intros q j Hq Hj E. apply flag_key_inj in E as [_ ->]; [lia | exact Hp | exact Hq].
  - now rewrite flag_key_flags_error.
Qed.

End Flags.

Lemma stripped_text_not_empty (field : string) :
  str_truthy (strip field) = true -> Form.blank field = false.
Proof.
  intros H. unfold Form.blank. rewrite H.
  destruct field; [discriminate H | reflexivity].
Qed.

Lemma no_missing_fields (name address1 city state zip_code destination email : string) :
  Forall (fun field => str_truthy (strip field) = true)
    [name; address1; city; state; zip_code; destination; email] ->
  Form.missing_fields name address1 city state zip_code destination email = [].
Proof.
  intros H. split_Forall H. unfold Form.missing_fields.
  now rewrite !stripped_text_not_empty.
Qed.

Section StoredForm.

Variable n : nat.
Variables mileage_text airfare_text ground_text parking_text lodging_text
          baggage_text misc_text misc2_text per_diem_date_text : nat -> string.
Variables breakfast lunch dinner : nat -> bool.
Variable selected_per_diem : Z.
Hypothesis selected_option : In selected_per_diem per_diem_options.

Let dates := per_day VStr per_diem_date_text n.
Let amounts := per_day VInt (fun _ : nat => selected_per_diem) n.

(** With one of the five rates selected the form data is always built,
    and is this record. *)
Lemma stored_record :
  exists total_misc adj total,
    Main.adjusted_per_diem_daily dates amounts (per_day VBool breakfast n)
      (per_day VBool lunch n) (per_day VBool dinner n) = Ok adj /\
    running_total total_misc /\ total_not_negative total /\
    Main.form_data
      (per_day number_value mileage_text n) (per_day number_value airfare_text n)
      (per_day number_value ground_text n) (per_day number_value parking_text n)
      (per_day number_value lodging_text n) (per_day number_value baggage_text n)
      (per_day number_value misc_text n) (per_day number_value misc2_text n)
      dates amounts (per_day VBool breakfast n) (per_day VBool lunch n)
      (per_day VBool dinner n)
    = Ok {| FormData.mileage_amounts := map VFloat (per_day number_value mileage_text n);
            FormData.per_diem_dates := dates;
            FormData.per_diem_amounts := amounts;
            FormData.breakfast_checks := per_day VBool breakfast n;
            FormData.lunch_checks := per_day VBool lunch n;
            FormData.dinner_checks := per_day VBool dinner n;
            FormData.total_mileage := Main.total_mileage (per_day number_value mileage_text n);
            FormData.total_airfare := py_sum (per_day number_value airfare_text n);
            FormData.total_ground_transport := py_sum (per_day number_value ground_text n);
            FormData.total_parking := py_sum (per_day number_value parking_text n);
            FormData.total_lodging := py_sum (per_day number_value lodging_text n);
            FormData.total_baggage := py_sum (per_day number_value baggage_text n);
            FormData.total_misc := total_misc;
            FormData.total_per_diem := py_sum adj;
            FormData.total_amount_due := total |}.
Proof.
  assert (Hok : forall i v, present_at dates i = true -> amounts !! i = Some v ->
                            tier_ok v = true).
  { intros i v _ Hv. unfold amounts in Hv. rewrite per_day_lookup in Hv.
    destruct (decide (i < n)%nat); [|discriminate]. injection Hv as <-.
    now apply option_tier_ok. }
  assert (Hnn : forall text, Forall (fun x => not_negative x = true)
                               (per_day number_value text n)).
  { intros text. apply List.Forall_forall. intros x Hx. unfold per_day in Hx.
    apply in_map_iff in Hx as (i & <- & _). apply number_value_not_negative. }
  destruct (main_total_not_negative
              (per_day number_value mileage_text n) (per_day number_value airfare_text n)
              (per_day number_value ground_text n) (per_day number_value parking_text n)
              (per_day number_value lodging_text n) (per_day number_value baggage_text n)
              (per_day number_value misc_text n) (per_day number_value misc2_text n)
              dates amounts (per_day VBool breakfast n) (per_day VBool lunch n)
              (per_day VBool dinner n)) as (t & Ht & Hpos).
  { repeat (apply List.Forall_cons; [apply Hnn|]). apply List.Forall_nil. }
  { exact Hok. }
  destruct (main_form_data_ok _ _ _ _ _ _ _ _ _ _ _ _ _ t Ht) as (fd & Hfd & _).
  destruct (main_form_data_record _ _ _ _ _ _ _ _ _ _ _ _ _ fd Hfd)
    as (tm & adj & t' & Hmisc & Hadj & Ht' & Efd).
  rewrite Ht in Ht'. injection Ht' as <-.
  exists tm, adj, t. split; [exact Hadj|]. split; [|split; [exact Hpos|]].
  - unfold Main.total_misc in Hmisc.
    destruct (num_add_running _ _ (running_total_py_sum (per_day number_value misc_text n))
                (running_total_py_sum (per_day number_value misc2_text n)))
      as (c & Hc & Hrc).
    rewrite Hc in Hmisc. injection Hmisc as <-. exact Hrc.
  - rewrite Hfd, Efd. reflexivity.
Qed.

(** What is stored goes through the computations of [create_pdf]: the
    lists have one entry per day, the amount due is not negative, and
    the two per diem loops and the sum of the sub-totals return. *)
Lemma stored_record_is_computed :
  exists fd adj meal_totals reductions s,
    Main.form_data
      (per_day number_value mileage_text n) (per_day number_value airfare_text n)
      (per_day number_value ground_text n) (per_day number_value parking_text n)
      (per_day number_value lodging_text n) (per_day number_value baggage_text n)
      (per_day number_value misc_text n) (per_day number_value misc2_text n)
      dates amounts (per_day VBool breakfast n) (per_day VBool lunch n)
      (per_day VBool dinner n) = Ok fd /\
    FormData.total_mileage fd = Main.total_mileage (per_day number_value mileage_text n) /\
    Forall (fun l => length l = n)
      [FormData.mileage_amounts fd; FormData.per_diem_dates fd;
       FormData.per_diem_amounts fd; FormData.breakfast_checks fd;
       FormData.lunch_checks fd; FormData.dinner_checks fd] /\
    total_not_negative (FormData.total_amount_due fd) /\
    CreatePdf.adjusted_loop fd = Ok (adj, adj) /\
    CreatePdf.meal_totals_loop fd = Ok (meal_totals, reductions) /\
    CreatePdf.sub_totals fd = Ok s.
Proof.
  destruct stored_record as (tm & adj & t & Hadj & Hrm & Hpos & Hfd).
  match type of Hfd with _ = Ok ?r => set (fd := r) in * end.
  assert (Hrun : Forall running_total (sub_total_list fd)).
  { unfold sub_total_list, fd. cbn [FormData.total_mileage FormData.total_airfare
      FormData.total_ground_transport FormData.total_parking FormData.total_lodging
      FormData.total_baggage FormData.total_misc FormData.total_per_diem].
    repeat (apply List.Forall_cons;
            [first [apply running_total_py_sum
                   | apply running_total_round, running_total_py_sum
                   | exact Hrm]|]).
    apply List.Forall_nil. }
  destruct (sub_totals_running fd Hrun) as (st & Hst & _).
  assert (Hloop1 : CreatePdf.adjusted_loop fd = Ok (adj, adj)).
  { rewrite create_pdf_adjusted_loop. unfold fd.
    cbn [FormData.per_diem_dates FormData.per_diem_amounts FormData.breakfast_checks
         FormData.lunch_checks FormData.dinner_checks].
    rewrite <- main_adjusted_map_result. fold dates. fold amounts. rewrite Hadj.
    reflexivity. }
  assert (Hloop2 : exists ms, map_result (meal_day fd)
                                (seq 0 (length (FormData.per_diem_dates fd))) = Ok ms).
  { apply map_result_total. intros i _. unfold meal_day, fd.
    cbn [FormData.per_diem_dates FormData.per_diem_amounts].
    destruct (present_at dates i) eqn:Hp; [|eauto].
    assert (Hi : (i < n)%nat).
    { unfold present_at in Hp.
      destruct (dates !! i) eqn:E; [|discriminate].
      apply lookup_lt_Some in E. unfold dates in E. now rewrite per_day_length in E. }
    unfold amounts. rewrite per_day_lookup.
    destruct (decide (i < n)%nat); [|contradiction].
    each_option selected_option; cbn [truthy negb Z.eqb py_int bind]; eexists; reflexivity. }
  destruct Hloop2 as [ms Hms].
  exists fd, adj, (map fst ms), (map snd ms), st.
  split; [exact Hfd|]. split; [reflexivity|]. split; [|split; [|split; [|split]]].
  - unfold fd. cbn [FormData.mileage_amounts FormData.per_diem_dates
      FormData.per_diem_amounts FormData.breakfast_checks FormData.lunch_checks
      FormData.dinner_checks].
    repeat (apply List.Forall_cons; [rewrite ?length_map; apply per_day_length|]).
    apply List.Forall_nil.
  - exact Hpos.
  - exact Hloop1.
  - rewrite meal_totals_loop_map_result, Hms. reflexivity.
  - exact Hst.
Qed.

End StoredForm.

(** X17.  A submission goes through when the seven required fields hold
    more than blanks, every numeric field of the days shown is blank or
    holds a text [float()] reads, the session state holds no flagged
    entry besides those of the fields shown, and one of the five rates
    is selected.  Then the form data is stored with one entry per day in
    each list and an amount due that is not negative; flags an earlier
    run left on the fields shown do not stop it.  On what is stored the
    two per diem loops of [create_pdf] and its sum of the sub-totals
    return: the [IndexError] of the second loop and the exceptions of
    [int()] and [float()] in the loops cannot happen.  (A mileage total
    that is NaN or infinite still stops the tables: X18, X20.) *)
Theorem clean_form_is_stored_and_computed
  (session_state : session)
  (name address1 city state zip_code destination email : string)
  (total_days : Z)
  (mileage_date_text expense_date_text per_diem_date_text : nat -> string)
  (mileage_text airfare_text ground_text parking_text lodging_text
     baggage_text misc_text misc2_text : nat -> string)
  (breakfast lunch dinner : nat -> bool) (selected_per_diem : Z) :
  Forall (fun field => str_truthy (strip field) = true)
    [name; address1; city; state; zip_code; destination; email] ->
  (forall p text i,
     In (p, text) (numeric_fields mileage_text airfare_text ground_text parking_text
                     lodging_text baggage_text misc_text misc2_text) ->
     (i < Z.to_nat total_days)%nat -> str_truthy (strip (text i)) = true ->
     exists x, float_of_string (cleaned_text (text i)) = Ok x) ->
  (forall key flag,
     session_state !! key = Some flag -> flags_error key flag = true ->
     exists p i, In p Form.input_prefixes /\ (i < Z.to_nat total_days)%nat /\
                 key = flag_key p i) ->
  In selected_per_diem per_diem_options ->
  exists fd adj meal_totals reductions s,
    Form.submitted session_state name address1 city state zip_code destination email
      total_days mileage_date_text expense_date_text per_diem_date_text
      mileage_text airfare_text ground_text parking_text lodging_text baggage_text
      misc_text misc2_text breakfast lunch dinner selected_per_diem = Ok (Some fd) /\
    Forall (fun l => length l = Z.to_nat total_days)
      [FormData.mileage_amounts fd; FormData.per_diem_dates fd;
       FormData.per_diem_amounts fd; FormData.breakfast_checks fd;
       FormData.lunch_checks fd; FormData.dinner_checks fd] /\
    total_not_negative (FormData.total_amount_due fd) /\
    CreatePdf.adjusted_loop fd = Ok (adj, adj) /\
    CreatePdf.meal_totals_loop fd = Ok (meal_totals, reductions) /\
    CreatePdf.sub_totals fd = Ok s.
Proof.
  intros Hreq Hread Hstale Hsel.
  rewrite submitted_run, (no_missing_fields _ _ _ _ _ _ _ Hreq).
  rewrite scan_finds_nothing; [| |exact Hstale].
  - destruct (stored_record_is_computed (Z.to_nat total_days) mileage_text
                airfare_text ground_text parking_text lodging_text baggage_text misc_text
                misc2_text per_diem_date_text breakfast lunch dinner selected_per_diem Hsel)
      as (fd & adj & meal & red & s & Hfd & _ & Hlen & Hpos & Hadj & Hmeal & Hs).
    exists fd, adj, meal, red, s. rewrite Hfd. cbn [bind]. repeat split; assumption.
  - intros p text i Hin Hi. rewrite number_flag_unread.
    destruct (str_truthy (strip (text i))) eqn:Hs; [|reflexivity].
    destruct (Hread p text i Hin Hi Hs) as [x ->]. reflexivity.
Qed.

Lemma clean_form_is_stored_and_computed_witness :
  exists fd,
    Form.submitted {[ flag_key "mileage_" 1 := VBool true ]}
      "A. Traveler" "37th and O" "Washington" "DC" "20057" "Boston" "a@b.edu"
      3 (fun _ => "03/01/25"%string) (fun _ => "03/01/25"%string)
      (fun _ => "03/01/25"%string) (fun _ => "12"%string) (fun _ => " 1e3 "%string)
      (fun _ => ""%string) (fun _ => "$1,000.50"%string) (fun _ => "-4"%string)
      (fun _ => "nan"%string) (fun _ => "7"%string) (fun _ => "8"%string)
      (fun _ => true) (fun _ => false) (fun _ => true) 80 = Ok (Some fd) /\
    length (FormData.per_diem_amounts fd) = 3%nat.
Proof.
  destruct (clean_form_is_stored_and_computed
              {[ flag_key "mileage_" 1 := VBool true ]}
              "A. Traveler" "37th and O" "Washington" "DC" "20057" "Boston" "a@b.edu"
              3 (fun _ => "03/01/25"%string) (fun _ => "03/01/25"%string)
              (fun _ => "03/01/25"%string) (fun _ => "12"%string)
              (fun _ => " 1e3 "%string)
              (fun _ => ""%string) (fun _ => "$1,000.50"%string) (fun _ => "-4"%string)
              (fun _ => "nan"%string) (fun _ => "7"%string) (fun _ => "8"%string)
              (fun _ => true) (fun _ => false) (fun _ => true) 80)
    as (fd & adj & meal & red & s & Hfd & Hlen & _).
  - repeat (apply List.Forall_cons; [vm_compute; reflexivity|]). apply List.Forall_nil.
  - intros p text i Hin _ Hs.
    each_field Hin;
      first [discriminate Hs | eexists; vm_compute; reflexivity].
  - intros key flag Hk _. apply lookup_singleton_Some in Hk as [<- _].
    exists "mileage_"%string, 1%nat. split; [|split; [simpl; lia | reflexivity]].
    unfold Form.input_prefixes. simpl. tauto.
  - unfold per_diem_options. simpl. tauto.
  - exists fd. split; [exact Hfd|].
    apply Forall_cons_iff in Hlen as [_ Hlen]. apply Forall_cons_iff in Hlen as [_ Hlen].
    apply Forall_cons_iff in Hlen as [Hl _]. exact Hl.
Defined.

(** X22.  A numeric field of a day shown whose text is not blank and is
    not read by [float()] stops the submission: nothing is stored,
    whatever the other widgets and the session state hold. *)
Theorem unread_number_stops_the_form
  (session_state : session)
  (name address1 city state zip_code destination email : string)
  (total_days : Z)
  (mileage_date_text expense_date_text per_diem_date_text : nat -> string)
  (mileage_text airfare_text ground_text parking_text lodging_text
     baggage_text misc_text misc2_text : nat -> string)
  (breakfast lunch dinner : nat -> bool) (selected_per_diem : Z)
  (p : string) (text : nat -> string) (i : nat) (e : exn) :
  In (p, text) (numeric_fields mileage_text airfare_text ground_text parking_text
                  lodging_text baggage_text misc_text misc2_text) ->
  (i < Z.to_nat total_days)%nat ->
  str_truthy (strip (text i)) = true ->
  float_of_string (cleaned_text (text i)) = Raise e ->
  Form.submitted session_state name address1 city state zip_code destination email
    total_days mileage_date_text expense_date_text per_diem_date_text
    mileage_text airfare_text ground_text parking_text lodging_text baggage_text
    misc_text misc2_text breakfast lunch dinner selected_per_diem = Ok None.
Proof.
  intros Hin Hi Hs He. rewrite submitted_run.
  destruct (Form.missing_fields _ _ _ _ _ _ _); [|reflexivity].
  rewrite (scan_finds_flagged_field _ _ _ _ _ _ _ _ _ _ p text i Hin Hi); [reflexivity|].
  now rewrite number_flag_unread, Hs, He.
Qed.

Lemma unread_number_stops_the_form_witness :
  Form.submitted ∅ "A. Traveler" "37th and O" "Washington" "DC" "20057" "Boston" "a@b.edu"
    2 (fun _ => "03/01/25"%string) (fun _ => "03/01/25"%string)
    (fun _ => "03/01/25"%string) (fun _ => "12"%string) (fun _ => ""%string)
    (fun _ => ""%string) (fun _ => ""%string)
    (fun i => if Nat.eqb i 1 then "12 USD"%string else ""%string)
    (fun _ => ""%string) (fun _ => ""%string) (fun _ => ""%string)
    (fun _ => false) (fun _ => false) (fun _ => false) 80 = Ok None.
Proof.
  apply (unread_number_stops_the_form _ _ _ _ _ _ _ _ _ _ _ _ _ _ _ _ _ _ _ _ _ _ _ _
           "lodging_"%string
           (fun i => if Nat.eqb i 1 then "12 USD"%string else ""%string) 1%nat ValueError).
  - unfold numeric_fields. simpl. tauto.
  - simpl. lia.
  - vm_compute. reflexivity.
  - vm_compute. reflexivity.
Defined.

(** X23.  The flags are entries of the session state that no run
    removes.  A truthy flag left under the key of a numeric field of a
    day that is no longer shown (the trip was shortened after a text was
    refused) stops every later submission, whatever the widgets hold:
    the fields of the days shown cannot clear it. *)
Theorem stale_flag_stops_the_form
  (session_state : session)
  (name address1 city state zip_code destination email : string)
  (total_days : Z)
  (mileage_date_text expense_date_text per_diem_date_text : nat -> string)
  (mileage_text airfare_text ground_text parking_text lodging_text
     baggage_text misc_text misc2_text : nat -> string)
  (breakfast lunch dinner : nat -> bool) (selected_per_diem : Z)
  (p : string) (i : nat) (flag : value) :
  In p Form.input_prefixes ->
  (Z.to_nat total_days <= i)%nat ->
  session_state !! flag_key p i = Some flag ->
  truthy flag = true ->
  Form.submitted session_state name address1 city state zip_code destination email
    total_days mileage_date_text expense_date_text per_diem_date_text
    mileage_text airfare_text ground_text parking_text lodging_text baggage_text
    misc_text misc2_text breakfast lunch dinner selected_per_diem = Ok None.
Proof.
  intros Hp Hi Hk Hflag. rewrite submitted_run.
  destruct (Form.missing_fields _ _ _ _ _ _ _); [|reflexivity].
  now rewrite (scan_finds_stale_flag _ _ _ _ _ _ _ _ _ _ p i flag Hp Hi Hk Hflag).
Qed.

Lemma stale_flag_stops_the_form_witness :
  Form.submitted {[ flag_key "parking_" 4 := VBool true ]}
    "A. Traveler" "37th and O" "Washington" "DC" "20057" "Boston" "a@b.edu"
    3 (fun _ => "03/01/25"%string) (fun _ => "03/01/25"%string)
    (fun _ => "03/01/25"%string) (fun _ => "12"%string) (fun _ => ""%string)
    (fun _ => ""%string) (fun _ => ""%string) (fun _ => ""%string)
    (fun _ => ""%string) (fun _ => ""%string) (fun _ => ""%string)
    (fun _ => false) (fun _ => false) (fun _ => false) 80 = Ok None.
Proof.
  apply (stale_flag_stops_the_form _ _ _ _ _ _ _ _ _ _ _ _ _ _ _ _ _ _ _ _ _ _ _ _
           "parking_"%string 4%nat (VBool true)).
  - unfold Form.input_prefixes. simpl. tauto.
  - simpl. lia.
  - apply lookup_singleton_eq.
  - reflexivity.
Defined.

Lemma blank_text_is_not_read (text : string) :
  str_truthy (strip text) = false -> float_of_string (cleaned_text text) = Raise ValueError.
Proof.
  unfold cleaned_text. destruct (strip text); [reflexivity | discriminate].
Qed.

(** X18.  A Miles field whose text [float()] reads as NaN (the text
    nan, for one) is let through without an error flag, and makes the
    mileage total NaN whatever the other days hold.  When the submission
    goes through, the form data is stored with that total, and the
    [int(total_mileage)] of the review pane and of the sub-totals table
    of [create_pdf] then raises [ValueError]: the totals cannot be
    shown. *)
Theorem nan_miles_break_the_totals
  (session_state : session)
  (name address1 city state zip_code destination email : string)
  (total_days : Z)
  (mileage_date_text expense_date_text per_diem_date_text : nat -> string)
  (mileage_text airfare_text ground_text parking_text lodging_text
     baggage_text misc_text misc2_text : nat -> string)
  (breakfast lunch dinner : nat -> bool) (selected_per_diem : Z) (i : nat)
  (fd : FormData.t) :
  (i < Z.to_nat total_days)%nat ->
  float_of_string (cleaned_text (mileage_text i)) = Ok S754_nan ->
  Form.submitted session_state name address1 city state zip_code destination email
    total_days mileage_date_text expense_date_text per_diem_date_text
    mileage_text airfare_text ground_text parking_text lodging_text baggage_text
    misc_text misc2_text breakfast lunch dinner selected_per_diem = Ok (Some fd) ->
  number_text_input (mileage_text i) default_min_value = Ok (S754_nan, false) /\
  FormData.total_mileage fd = NFloat S754_nan /\
  Review.totals_html fd = Raise ValueError /\
  forall due, TotalsTable.totals_data fd due = Raise ValueError.
Proof.
  intros Hi Hnan Hsub.
  assert (Hfield : number_text_input (mileage_text i) default_min_value
                   = Ok (S754_nan, false)).
  { destruct (str_truthy (strip (mileage_text i))) eqn:Hs.
    - rewrite (number_text_input_not_blank _ _ Hs), Hnan. reflexivity.
    - rewrite (blank_text_is_not_read _ Hs) in Hnan. discriminate. }
  split; [exact Hfield|].
  assert (Hm : Main.total_mileage (per_day number_value mileage_text (Z.to_nat total_days))
               = NFloat S754_nan).
  { apply total_mileage_meets_nan. unfold per_day. apply in_map_iff.
    exists i. split; [|apply in_seq; lia]. unfold number_value. now rewrite Hfield. }
  rewrite submitted_run in Hsub.
  destruct (Form.missing_fields _ _ _ _ _ _ _); [|discriminate].
  destruct (Form.has_validation_errors _); [discriminate|].
  destruct (Main.form_data _ _ _ _ _ _ _ _ _ _ _ _ _) as [fd'|] eqn:Hfd; [|discriminate].
  cbn [bind] in Hsub. injection Hsub as ->.
  apply main_form_data_record in Hfd as (tm & adj & t & _ & _ & _ & ->).
  cbn [FormData.total_mileage]. split; [exact Hm|].
  unfold Review.totals_html, TotalsTable.totals_data. cbn [FormData.total_mileage].
  rewrite Hm. split; [reflexivity | intros due; reflexivity].
Qed.

Lemma nan_miles_break_the_totals_witness :
  exists fd,
    Form.submitted ∅ "A. Traveler" "37th and O" "Washington" "DC" "20057" "Boston" "a@b.edu"
      2 (fun _ => "03/01/25"%string) (fun _ => "03/01/25"%string)
      (fun _ => "03/01/25"%string) (fun _ => " NaN "%string) (fun _ => ""%string)
      (fun _ => ""%string) (fun _ => ""%string) (fun _ => ""%string)
      (fun _ => ""%string) (fun _ => ""%string) (fun _ => ""%string)
      (fun _ => false) (fun _ => false) (fun _ => false) 80 = Ok (Some fd) /\
    Review.totals_html fd = Raise ValueError.
Proof.
  assert (H : exists fd,
             Form.submitted ∅ "A. Traveler" "37th and O" "Washington" "DC" "20057" "Boston"
               "a@b.edu" 2 (fun _ => "03/01/25"%string) (fun _ => "03/01/25"%string)
               (fun _ => "03/01/25"%string) (fun _ => " NaN "%string) (fun _ => ""%string)
               (fun _ => ""%string) (fun _ => ""%string) (fun _ => ""%string)
               (fun _ => ""%string) (fun _ => ""%string) (fun _ => ""%string)
               (fun _ => false) (fun _ => false) (fun _ => false) 80 = Ok (Some fd))
    by (vm_compute; eexists; reflexivity).
  destruct H as [fd Hsub]. exists fd. split; [exact Hsub|].
  assert (Hday : (1 < Z.to_nat 2)%nat) by (simpl; lia).
  assert (Hnan : float_of_string (cleaned_text " NaN ") = Ok S754_nan)
    by (vm_compute; reflexivity).
  destruct (nan_miles_break_the_totals _ _ _ _ _ _ _ _ _ _ _ _ _ _ _ _ _ _ _ _ _ _ _ _
              1%nat fd Hday Hnan Hsub) as (_ & _ & Hrev & _).
  exact Hrev.
Defined.

(** ** The per diem tables *)

Lemma plain_tier_int (v : value) :
  plain_tier v -> (exists z, py_int v = Ok z) \/ py_int v = Raise TypeError.
Proof. destruct v as [|b|z|f|s]; simpl; intros H; try contradiction; eauto. Qed.

Lemma first_amount_plain (test : nat -> bool) (amount_at : nat -> result value)
  (js : list nat) :
  (forall j, In j js -> test j = true -> exists v, amount_at j = Ok v /\ plain_tier v) ->
  exists r, PerDiemTable.first_amount test amount_at js = Ok r.
Proof.
  induction js as [|j js IH]; intros H; simpl; [eauto|].
  assert (IH' : exists r, PerDiemTable.first_amount test amount_at js = Ok r).
  { apply IH. intros k Hk. apply H. now right. }
  destruct (test j) eqn:T; [|exact IH'].
  destruct (H j (or_introl eq_refl) T) as (v & -> & Hv). cbn [bind].
  destruct (plain_tier_int v Hv) as [[z ->]| ->]; [eauto | exact IH'].
Qed.

Lemma index_lookup {A : Type} (xs : list A) (j : nat) (x : A) :
  xs !! j = Some x -> index xs j = Ok x.
Proof. unfold index. now intros ->. Qed.

Lemma common_amount_plain (fd : FormData.t) (idx_start : nat) (pd amounts : list value) :
  Forall plain_tier (FormData.per_diem_amounts fd) -> Forall plain_tier amounts ->
  exists z, PerDiemTable.common_amount fd idx_start pd amounts = Ok z.
Proof.
  intros Hall Hpad. unfold PerDiemTable.common_amount.
  destruct (first_amount_plain (fun j => present_at pd j && flag_at amounts j)
              (index amounts) (seq 0 (length pd))) as [r ->].
  { intros j _ T. apply andb_prop in T as [_ T]. unfold flag_at in T.
    destruct (amounts !! j) as [v|] eqn:E; [|discriminate].
    exists v. split; [now apply index_lookup|].
    rewrite Forall_lookup in Hpad. exact (Hpad _ _ E). }
  cbn [bind]. destruct r as [z|]; [cbn [bind]; eauto|].
  destruct (_ <? _)%nat; [|cbn [bind]; eauto].
  destruct (first_amount_plain (present_at (FormData.per_diem_dates fd))
              (index (FormData.per_diem_amounts fd))
              (seq idx_start
                 (Nat.min (idx_start + 7) (length (FormData.per_diem_amounts fd)) - idx_start)))
    as [r ->]; [|cbn [bind]; eauto].
  intros j Hj _. apply in_seq in Hj.
  destruct (FormData.per_diem_amounts fd !! j) as [v|] eqn:E.
  - exists v. split; [now apply index_lookup|].
    rewrite Forall_lookup in Hall. exact (Hall _ _ E).
  - apply lookup_ge_None in E. lia.
Qed.

Lemma meal_marks_ok (chk pd : list value) :
  length chk = 7%nat -> length pd = 7%nat ->
  exists marks, PerDiemTable.meal_marks chk pd = Ok marks /\ length marks = 7%nat.
Proof.
  intros Lc Lp. unfold PerDiemTable.meal_marks.
  destruct (map_result_total
              (fun j => let* c := index chk j in
                        if truthy c then
                          let* d := index pd j in Ok (VStr (if truthy d then "X" else ""))
                        else Ok (VStr ""))
              (seq 0 7)) as [marks Hm].
  { intros j Hj. apply in_seq in Hj.
    destruct (lookup_lt_is_Some_2 chk j) as [c Hc]; [lia|].
    destruct (lookup_lt_is_Some_2 pd j) as [d Hd]; [lia|].
    rewrite (index_lookup _ _ _ Hc). cbn [bind].
    destruct (truthy c); [rewrite (index_lookup _ _ _ Hd)|]; eauto. }
  exists marks. split; [exact Hm|]. now apply map_result_length in Hm.
Qed.

Lemma plain_tier_dollars (x : value) :
  plain_tier x -> truthy x = true -> exists text, dollars_int_of x = Ok text.
Proof.
  unfold dollars_int_of. destruct x as [|b|z|f|s]; simpl; intros H T;
    try contradiction; try discriminate; eauto.
Qed.

Lemma allowance_ok (pd amounts : list value) :
  Forall plain_tier amounts -> length pd = 7%nat -> length amounts = 7%nat ->
  exists cells,
    map_result
      (fun '(j, x) =>
         if truthy x then
           let* d := index pd j in
           if truthy d then let* text := dollars_int_of x in Ok (VStr text)
           else Ok (VStr "")
         else Ok (VStr ""))
      (enumerate_from 0 amounts) = Ok cells /\
    length cells = 7%nat.
Proof.
  intros Hplain Lp La.
  match goal with
  | |- exists cells, map_result ?f ?l = _ /\ _ =>
      destruct (map_result_total f l) as [cells Hc]
  end.
  { intros [j x] Hjx. apply enumerate_from_In in Hjx as [_ Hx].
    rewrite Nat.sub_0_r in Hx.
    destruct (truthy x) eqn:T; [|eauto].
    destruct (lookup_lt_is_Some_2 pd j) as [d Hd].
    { apply lookup_lt_Some in Hx. lia. }
    rewrite (index_lookup _ _ _ Hd). cbn [bind].
    destruct (truthy d); [|eauto].
    rewrite Forall_lookup in Hplain.
    destruct (plain_tier_dollars x (Hplain _ _ Hx) T) as [text ->]. cbn [bind]. eauto. }
  exists cells. split; [exact Hc|].
  apply map_result_length in Hc. now rewrite length_enumerate_from, La in Hc.
Qed.

Lemma padded_chunk_length {A : Type} (chunk : list A) (pad_value : A) :
  (length chunk <= 7)%nat -> length (pad_to_length chunk 7 pad_value) = 7%nat.
Proof. intros H. rewrite pad_to_length_length. lia. Qed.

Lemma padded_slice_length {A : Type} (xs : list A) (i : nat) (pad_value : A) :
  length (pad_to_length (slice xs i (i + 7)) 7 pad_value) = 7%nat.
Proof. apply padded_chunk_length, slice_length. Qed.

Section PerDiemRows.

Variable fd : FormData.t.
Variables adj meal red : list float.
Variable total : num.
Hypothesis plain_amounts : Forall plain_tier (FormData.per_diem_amounts fd).
Hypothesis total_running : running_total total.

(** One table: its nine rows, with the rows that only format what the
    loops have computed written out. *)
Lemma per_diem_data_rows (k total_chunks : nat) (chunk : list value) :
  (length chunk <= 7)%nat ->
  exists table total_text,
    PerDiemTable.per_diem_data fd adj meal red total k total_chunks chunk = Ok table /\
    dollars_2f total = Ok total_text /\
    length table = 9%nat /\
    table !! 0%nat
    = Some ([VStr "Date (MM/DD/YY)"]
              ++ map date_cell (pad_to_length chunk 7 (VStr "")) ++ [VStr ""]) /\
    table !! 6%nat
    = Some ([VStr "Total Reduction ($)"]
              ++ map (money_cell not_zero)
                   (pad_to_length (slice red (k * 7) (k * 7 + 7)) 7 Float.zero)
              ++ [VStr ""]) /\
    table !! 7%nat
    = Some ([VStr "Daily Meal Total"]
              ++ map (money_cell above_zero)
                   (pad_to_length (slice meal (k * 7) (k * 7 + 7)) 7 Float.zero)
              ++ [VStr ""]) /\
    table !! 8%nat
    = Some ([VStr "Total Per Diem"]
              ++ map (money_cell above_zero)
                   (pad_to_length (slice adj (k * 7) (k * 7 + 7)) 7 Float.zero)
              ++ [VStr (if Z.of_nat k =? Z.of_nat total_chunks - 1 then total_text else "")]).
Proof.
  intros Lc. unfold PerDiemTable.per_diem_data.
  set (pd := pad_to_length chunk 7 (VStr "")).
  set (amounts := pad_to_length (slice (FormData.per_diem_amounts fd) (k * 7) (k * 7 + 7))
                    7 (VInt 80)).
  assert (Lpd : length pd = 7%nat) by (now apply padded_chunk_length).
  assert (Lam : length amounts = 7%nat) by apply padded_slice_length.
  assert (Pam : Forall plain_tier amounts).
  { apply List.Forall_forall. intros x Hx.
    apply pad_to_length_In in Hx as [Hx| ->]; [|simpl; lia].
    apply slice_In in Hx. rewrite List.Forall_forall in plain_amounts.
    now apply plain_amounts. }
  destruct (common_amount_plain fd (k * 7) pd amounts plain_amounts Pam) as [z ->].
  cbn [bind]. destruct (PerDiemTable.labels z) as [[b_lbl l_lbl] d_lbl].
  destruct (allowance_ok pd amounts Pam Lpd Lam) as (cells & -> & _). cbn [bind].
  destruct (meal_marks_ok
              (pad_to_length (slice (FormData.breakfast_checks fd) (k * 7) (k * 7 + 7)) 7
                 (VBool false)) pd (padded_slice_length _ _ _) Lpd) as (bm & -> & _).
  cbn [bind].
  destruct (meal_marks_ok
              (pad_to_length (slice (FormData.lunch_checks fd) (k * 7) (k * 7 + 7)) 7
                 (VBool false)) pd (padded_slice_length _ _ _) Lpd) as (lm & -> & _).
  cbn [bind].
  destruct (meal_marks_ok
              (pad_to_length (slice (FormData.dinner_checks fd) (k * 7) (k * 7 + 7)) 7
                 (VBool false)) pd (padded_slice_length _ _ _) Lpd) as (dm & -> & _).
  cbn [bind].
  destruct (dollars_2f_running total total_running) as [text Ht]. rewrite Ht.
  destruct (Z.of_nat k =? Z.of_nat total_chunks - 1); cbn [bind];
    eexists _, text; (split; [reflexivity|]); repeat split.
Qed.

End PerDiemRows.

Lemma lookup_enumerate_from {A : Type} (xs : list A) (s k : nat) (x : A) :
  xs !! k = Some x -> enumerate_from s xs !! k = Some ((s + k)%nat, x).
Proof.
  revert s k. induction xs as [|y xs IH]; intros s k H; [destruct k; discriminate|].
  destruct k as [|k]; simpl in *.
  - injection H as <-. now rewrite Nat.add_0_r.
  - rewrite (IH (S s) k H). do 2 f_equal. lia.
Qed.

Lemma row_cell {A : Type} (label last : A) (cells : list A) (j : nat) (x : A) :
  cells !! j = Some x -> ([label] ++ cells ++ [last]) !! S j = Some x.
Proof. intros H. simpl. now apply lookup_app_l_Some. Qed.

Lemma row_last_cell {A : Type} (label last : A) (cells : list A) :
  length cells = 7%nat -> ([label] ++ cells ++ [last]) !! 8%nat = Some last.
Proof.
  intros H. change 8%nat with (S 7). simpl.
  rewrite lookup_app_r by lia. now rewrite H.
Qed.

Lemma padded_cell {A B : Type} (f : A -> B) (xs : list A) (pad_value : A) (i : nat) :
  map f (pad_to_length (slice xs (i / 7 * 7) (i / 7 * 7 + 7)) 7 pad_value) !! (i mod 7)%nat
  = Some (f (default pad_value (xs !! i))).
Proof.
  rewrite list_lookup_fmap, padded_row_lookup by (apply Nat.mod_upper_bound; lia).
  replace (i / 7 * 7 + i mod 7)%nat with i; [reflexivity|].
  pose proof (Nat.div_mod_eq i 7). lia.
Qed.

(** X19.  The per diem tables of [create_pdf] always come out when the
    per diem entries are as the form can hold them: one table of nine
    rows for every seven date entries.  No day is left out, shown twice
    or moved: day [i] stands in table [i // 7], column [i % 7], where the
    date row shows its date (nothing for a blank one), the reduction row
    shows its reduction unless it is zero, and the two total rows show
    its daily meal total and its adjusted per diem when they are above
    zero.  The sum of the per diem is printed in the last table only. *)
Theorem per_diem_tables_show_each_day
  (fd : FormData.t) (adj meal red : list float) (total : num) :
  Forall plain_tier (FormData.per_diem_amounts fd) -> running_total total ->
  exists tables total_text,
    PerDiemTable.per_diem_tables fd adj meal red total = Ok tables /\
    dollars_2f total = Ok total_text /\
    length tables = ((length (FormData.per_diem_dates fd) + 6) / 7)%nat /\
    Forall (fun table => length table = 9%nat) tables /\
    (forall i, (i < length (FormData.per_diem_dates fd))%nat ->
       let k := (i / 7)%nat in
       let c := S (i mod 7) in
       cell tables k 0 c
       = Some (date_cell (default (VStr "") (FormData.per_diem_dates fd !! i))) /\
       cell tables k 6 c = Some (money_cell not_zero (default Float.zero (red !! i))) /\
       cell tables k 7 c = Some (money_cell above_zero (default Float.zero (meal !! i))) /\
       cell tables k 8 c = Some (money_cell above_zero (default Float.zero (adj !! i)))) /\
    (forall k, (k < length tables)%nat ->
       cell tables k 8 8
       = Some (VStr (if (S k =? length tables)%nat then total_text else ""))).
Proof.
  intros Hplain Hrun. unfold PerDiemTable.per_diem_tables.
  destruct (chunk_list_seven (FormData.per_diem_dates fd)) as [chunks Hchunks].
  rewrite Hchunks. cbn [bind].
  pose proof (chunk_list_lengths _ _ Hchunks) as Hlen.
  destruct (chunk_list_lookup (FormData.per_diem_dates fd) chunks 0 Hchunks) as [Hcount _].
  destruct (dollars_2f_running total Hrun) as [total_text Htext].
  set (f := fun p : nat * list value =>
              PerDiemTable.per_diem_data fd adj meal red total (fst p) (length chunks) (snd p)).
  rewrite (for_each_ext _ _ _ (fun acc p => let* y := f p in Ok (acc ++ [y])))
    by (intros acc [i c] _; reflexivity).
  rewrite for_each_snoc.
  assert (Hrow : forall k chunk, chunks !! k = Some chunk ->
            exists table,
              f (k, chunk) = Ok table /\ length table = 9%nat /\
              table !! 0%nat
              = Some ([VStr "Date (MM/DD/YY)"]
                        ++ map date_cell (pad_to_length chunk 7 (VStr "")) ++ [VStr ""]) /\
              table !! 6%nat
              = Some ([VStr "Total Reduction ($)"]
                        ++ map (money_cell not_zero)
                             (pad_to_length (slice red (k * 7) (k * 7 + 7)) 7 Float.zero)
                        ++ [VStr ""]) /\
              table !! 7%nat
              = Some ([VStr "Daily Meal Total"]
                        ++ map (money_cell above_zero)
                             (pad_to_length (slice meal (k * 7) (k * 7 + 7)) 7 Float.zero)
                        ++ [VStr ""]) /\
              table !! 8%nat
              = Some ([VStr "Total Per Diem"]
                        ++ map (money_cell above_zero)
                             (pad_to_length (slice adj (k * 7) (k * 7 + 7)) 7 Float.zero)
                        ++ [VStr (if Z.of_nat k =? Z.of_nat (length chunks) - 1
                                  then total_text else "")])).
  { intros k chunk Hk.
    destruct (per_diem_data_rows fd adj meal red total Hplain Hrun k (length chunks) chunk)
      as (table & text & Ht & Htext' & Hl & H0 & H6 & H7 & H8).
    { rewrite Forall_lookup in Hlen. exact (Hlen _ _ Hk). }
    rewrite Htext in Htext'. injection Htext' as <-.
    exists table. unfold f. cbn [fst snd]. repeat split; assumption. }
  destruct (map_result_total f (enumerate_from 0 chunks)) as [tables Ht].
  { intros [k chunk] Hp. apply enumerate_from_In in Hp as [_ Hk].
    rewrite Nat.sub_0_r in Hk. destruct (Hrow k chunk Hk) as (table & H & _). eauto. }
  rewrite Ht. cbn [bind]. simpl app. exists tables, total_text.
  split; [reflexivity|]. split; [exact Htext|].
  pose proof (map_result_length _ _ _ Ht) as Lt. rewrite length_enumerate_from in Lt.
  assert (Htable : forall k, (k < length chunks)%nat ->
            exists chunk table,
              chunks !! k = Some chunk /\ tables !! k = Some table /\
              f (k, chunk) = Ok table).
  { intros k Hk. destruct (lookup_lt_is_Some_2 chunks k Hk) as [chunk Hc].
    pose proof (lookup_enumerate_from chunks 0 k chunk Hc) as Hp. simpl in Hp.
    destruct (map_result_lookup _ _ _ Ht k _ Hp) as (table & Htk & Hf).
    exists chunk, table. repeat split; assumption. }
  split; [now rewrite Lt|]. split.
  { apply Forall_lookup. intros k table Hk.
    destruct (Htable k) as (chunk & table' & Hc & Hk' & Hf).
    { rewrite <- Lt. now apply lookup_lt_Some in Hk. }
    rewrite Hk in Hk'. injection Hk' as <-.
    destruct (Hrow k chunk Hc) as (table' & Hf' & Hl & _).
    rewrite Hf in Hf'. now injection Hf' as <-. }
  split.
  - intros i Hi. cbv zeta.
    assert (Hk : (i / 7 < length chunks)%nat).
    { rewrite Hcount. apply Nat.Div0.div_lt_upper_bound.
      pose proof (Nat.div_mod_eq (length (FormData.per_diem_dates fd) + 6) 7).
      pose proof (Nat.mod_upper_bound (length (FormData.per_diem_dates fd) + 6) 7). lia. }
    destruct (Htable _ Hk) as (chunk & table & Hc & Htk & Hf).
    destruct (Hrow _ chunk Hc) as (table' & Hf' & _ & H0 & H6 & H7 & H8).
    rewrite Hf in Hf'. injection Hf' as <-.
    destruct (chunk_list_lookup (FormData.per_diem_dates fd) chunks (i / 7) Hchunks)
      as [_ Hslice].
    rewrite (Hslice Hk) in Hc. injection Hc as <-.
    unfold cell. rewrite Htk, H0, H6, H7, H8.
    repeat split; apply row_cell, padded_cell.
  - intros k Hk. rewrite Lt in Hk.
    destruct (Htable _ Hk) as (chunk & table & Hc & Htk & Hf).
    destruct (Hrow _ chunk Hc) as (table' & Hf' & _ & _ & _ & _ & H8).
    rewrite Hf in Hf'. injection Hf' as <-.
    unfold cell. rewrite Htk, H8, row_last_cell
      by (rewrite length_map; apply padded_slice_length).
    do 2 f_equal. rewrite Lt.
    destruct (Z.of_nat k =? Z.of_nat (length chunks) - 1) eqn:E1,
             (S k =? length chunks)%nat eqn:E2; try reflexivity.
    + apply Z.eqb_eq in E1. apply Nat.eqb_neq in E2. lia.
    + apply Z.eqb_neq in E1. apply Nat.eqb_eq in E2. lia.
Qed.

Lemma per_diem_tables_show_each_day_witness :
  Forall plain_tier (FormData.per_diem_amounts trip_form) /\
  exists tables,
    PerDiemTable.per_diem_tables trip_form
      [Float.of_Z 60; Float.of_Z 60; Float.of_Z 60]
      [Float.of_Z 80; Float.of_Z 60; Float.of_Z 80]
      [Float.zero; Float.of_Z 20; Float.zero] (NFloat (Float.of_Z 180)) = Ok tables /\
    cell tables 0 6 2 = Some (VStr "$20.00") /\
    cell tables 0 8 8 = Some (VStr "$180.00").
Proof.
  assert (H : Forall plain_tier (FormData.per_diem_amounts trip_form)).
  { repeat (apply List.Forall_cons; [simpl; lia|]). apply List.Forall_nil. }
  split; [exact H|].
  destruct (per_diem_tables_show_each_day trip_form
              [Float.of_Z 60; Float.of_Z 60; Float.of_Z 60]
              [Float.of_Z 80; Float.of_Z 60; Float.of_Z 80]
              [Float.zero; Float.of_Z 20; Float.zero] (NFloat (Float.of_Z 180)) H)
    as (tables & text & Ht & Htext & Hl & _ & Hday & Hlast).
  { right. eexists. reflexivity. }
  exists tables. split; [exact Ht|]. split.
  - destruct (Hday 1%nat) as (_ & H6 & _); [simpl; lia|]. exact H6.
  - rewrite Hlast by (rewrite Hl; simpl; lia). rewrite Hl.
    injection Htext as <-. reflexivity.
Defined.

(** ** The mileage tables *)

Lemma mileage_chunk_cell (amounts : list value) (chunks : list (list value)) (k j : nat) :
  chunk_list (Some amounts) 7 = Ok chunks -> (j < 7)%nat ->
  pad_to_length (default [] (chunks !! k)) 7 (VStr "") !! j
  = Some (default (VStr "") (amounts !! (k * 7 + j)%nat)).
Proof.
  intros Hc Hj. destruct (chunk_list_lookup amounts chunks k Hc) as [Hcount Hk].
  destruct (decide (k < length chunks)%nat) as [Hlt|Hge].
  - rewrite (Hk Hlt). simpl. now apply padded_row_lookup.
  - rewrite (proj2 (lookup_ge_None chunks k)) by lia. simpl.
    rewrite pad_to_length_lookup. simpl.
    replace (Z.of_nat j <? 7) with true by (symmetry; apply Z.ltb_lt; lia).
    rewrite (proj2 (lookup_ge_None amounts (k * 7 + j)%nat)); [reflexivity|].
    pose proof (Nat.div_mod_eq (length amounts + 6) 7).
    pose proof (Nat.mod_upper_bound (length amounts + 6) 7). lia.
Qed.

Lemma forallb_not_last (count : nat) :
  (0 < count)%nat ->
  forallb (fun idx => negb (Z.of_nat idx =? Z.of_nat count - 1)) (seq 0 count) = false.
Proof.
  intros H. destruct count as [|c]; [lia|]. rewrite seq_S, forallb_app. simpl.
  replace (Z.of_nat c =? Z.of_nat (S c) - 1) with true by (symmetry; apply Z.eqb_eq; lia).
  simpl. apply andb_false_r.
Qed.

(** X20.  The Mileage Rate rows follow the mileage dates: there is one
    row of seven day cells for every seven date entries; the cell of day
    [i] stands in row [i // 7], column [i % 7], and shows the rounded
    rate of that day, or nothing when the day has no miles or its rate
    cannot be shown; miles entered beyond the last row of dates are in
    the grand total but in no cell.  Only the last row carries the grand
    total, and that cell is the one thing that can fail: as soon as there
    is a date entry, a grand total that is NaN or infinite raises. *)
Theorem mileage_rate_rows_follow_the_dates
  (all_mileage_dates all_mileage_amounts : list value) (grand : float) :
  match dollars_int (NFloat grand) with
  | Ok total_text =>
      exists rows,
        MileageTable.mileage_rate_rows all_mileage_dates all_mileage_amounts grand
        = Ok rows /\
        length rows = ((length all_mileage_dates + 6) / 7)%nat /\
        forall k, (k < length rows)%nat ->
          (forall j, (j < 7)%nat ->
             entry rows k (S j)
             = Some (MileageTable.mileage_rate
                       (default (VStr "") (all_mileage_amounts !! (k * 7 + j)%nat)))) /\
          entry rows k 8 = Some (if (S k =? length rows)%nat then total_text else ""%string)
  | Raise e =>
      MileageTable.mileage_rate_rows all_mileage_dates all_mileage_amounts grand
      = match all_mileage_dates with [] => Ok [] | _ => Raise e end
  end.
Proof.
  unfold MileageTable.mileage_rate_rows.
  destruct (chunk_list_seven all_mileage_dates) as [dchunks Hd].
  destruct (chunk_list_seven all_mileage_amounts) as [achunks Ha].
  rewrite Hd, Ha. cbn [bind].
  destruct (chunk_list_lookup all_mileage_dates dchunks 0 Hd) as [Hcount _].
  set (count := length dchunks) in *.
  set (f := fun idx : nat =>
              let* total_cell :=
                (if Z.of_nat idx =? Z.of_nat count - 1
                 then dollars_int (NFloat grand) else Ok ""%string) in
              Ok (["Mileage Rate"%string]
                    ++ map MileageTable.mileage_rate
                         (pad_to_length (default [] (achunks !! idx)) 7 (VStr ""))
                    ++ [total_cell])).
  rewrite (for_each_ext _ _ _ (fun acc idx => let* y := f idx in Ok (acc ++ [y])))
    by (intros acc idx _; unfold f; now destruct (_ =? _); [destruct (dollars_int _)|]).
  rewrite for_each_snoc.
  destruct (dollars_int (NFloat grand)) as [total_text|e] eqn:Eg.
  - destruct (map_result_total f (seq 0 count)) as [rows Hrows].
    { intros idx _. unfold f. destruct (_ =? _); cbn [bind]; eauto. }
    rewrite Hrows. cbn [bind]. simpl app. exists rows. split; [reflexivity|].
    pose proof (map_result_length _ _ _ Hrows) as Lr. rewrite length_seq in Lr.
    split; [now rewrite Lr|]. intros k Hk.
    destruct (map_result_lookup _ _ _ Hrows k k) as (row & Hrow & Hf);
      [apply lookup_seq_lt; lia|].
    assert (Erow : row = ["Mileage Rate"%string]
                           ++ map MileageTable.mileage_rate
                                (pad_to_length (default [] (achunks !! k)) 7 (VStr ""))
                           ++ [if (S k =? length rows)%nat then total_text else ""%string]).
    { revert Hf. unfold f. rewrite Lr.
      destruct (Z.of_nat k =? Z.of_nat count - 1) eqn:E1,
               (S k =? count)%nat eqn:E2; try rewrite Eg; cbn [bind]; try (now intros [= <-]).
      - apply Z.eqb_eq in E1. apply Nat.eqb_neq in E2. lia.
      - apply Z.eqb_neq in E1. apply Nat.eqb_eq in E2. lia. }
    unfold entry. rewrite Hrow, Erow. split.
    + intros j Hj. apply row_cell. rewrite list_lookup_fmap.
      now rewrite (mileage_chunk_cell all_mileage_amounts achunks k j Ha Hj).
    + apply row_last_cell. rewrite length_map, pad_to_length_length.
      assert (length (default [] (achunks !! k)) <= 7)%nat; [|lia].
      destruct (achunks !! k) as [c|] eqn:Ec; simpl; [|lia].
      pose proof (chunk_list_lengths _ _ Ha) as Hl. rewrite Forall_lookup in Hl.
      exact (Hl _ _ Ec).
  - destruct all_mileage_dates as [|d ds].
    + simpl in Hcount. unfold count in *.
      destruct dchunks; [reflexivity | discriminate Hcount].
    + assert (Hpos : (0 < count)%nat).
      { rewrite Hcount. simpl length.
        apply Nat.div_str_pos. lia. }
      pose proof (map_result_cond f (fun idx => negb (Z.of_nat idx =? Z.of_nat count - 1)) e
                    (seq 0 count)) as Hc.
      rewrite (forallb_not_last count Hpos) in Hc. rewrite Hc; [reflexivity| |].
      * intros idx _ Hi. unfold f. apply negb_true_iff in Hi. rewrite Hi. cbn [bind]. eauto.
      * intros idx _ Hi. unfold f. apply negb_false_iff in Hi. now rewrite Hi.
Qed.

(** ** The labels of the meal rows *)

Lemma first_amount_found (test : nat -> bool) (amount_at : nat -> result value)
  (js : list nat) (z : Z) :
  (exists j, In j js /\ test j = true) ->
  (forall j, In j js -> test j = true -> (let* v := amount_at j in py_int v) = Ok z) ->
  PerDiemTable.first_amount test amount_at js = Ok (Some z).
Proof.
  induction js as [|j js IH]; intros (j0 & Hin & Hj0) Hread; [destruct Hin|].
  simpl. destruct (test j) eqn:T.
  - now rewrite (Hread j (or_introl eq_refl) T).
  - apply IH.
    + destruct Hin as [->|Hin]; [congruence | eauto].
    + intros i Hi. apply Hread. now right.
Qed.

Lemma first_amount_none (test : nat -> bool) (amount_at : nat -> result value)
  (js : list nat) :
  (forall j, In j js -> test j = false) ->
  PerDiemTable.first_amount test amount_at js = Ok None.
Proof.
  induction js as [|j js IH]; intros H; simpl; [reflexivity|].
  rewrite (H j (or_introl eq_refl)). apply IH. intros i Hi. apply H. now right.
Qed.

Lemma present_at_padded (dates : list value) (k j : nat) :
  (j < 7)%nat ->
  present_at (pad_to_length (slice dates (k * 7) (k * 7 + 7)) 7 (VStr "")) j
  = present_at dates (k * 7 + j).
Proof.
  intros Hj. unfold present_at. rewrite padded_row_lookup by exact Hj.
  now destruct (dates !! (k * 7 + j)%nat).
Qed.

Lemma existsb_present_slice (dates : list value) (k : nat) :
  existsb present (slice dates (k * 7) (k * 7 + 7)) = true
  <-> exists j, (j < 7)%nat /\ present_at dates (k * 7 + j) = true.
Proof.
  rewrite existsb_exists. unfold present_at. split.
  - intros (d & Hin & Hd).
    apply list_elem_of_In, list_elem_of_lookup_1 in Hin as [j Hj].
    rewrite slice_row in Hj. apply lookup_take_Some in Hj as [Hj Hlt].
    rewrite lookup_drop in Hj. exists j. split; [exact Hlt|]. now rewrite Hj.
  - intros (j & Hlt & Hp).
    destruct (dates !! (k * 7 + j)%nat) as [d|] eqn:E; [|discriminate].
    exists d. split; [|exact Hp].
    eapply list_elem_of_In, list_elem_of_lookup_2.
    rewrite slice_row, lookup_take_lt, lookup_drop by exact Hlt. exact E.
Qed.

(** X21.  When every day carries the same rate that is one of the five
    (as every form [main] stores does), the labels of the three meal rows
    of a table name the deduction amounts of that rate, the ones the
    loops have used for its days, provided the table has at least one
    dated day.  A table without any dated day falls back to the labels
    of the rate 80, whatever rate was selected. *)
Theorem meal_labels_name_the_deductions
  (fd : FormData.t) (t : Z) (row : deduction_row) (k : nat) :
  (forall i, (i < length (FormData.per_diem_dates fd))%nat ->
             FormData.per_diem_amounts fd !! i = Some (VInt t)) ->
  CreatePdf.meal_deductions !! t = Some row ->
  let dates_chunk := slice (FormData.per_diem_dates fd) (k * 7) (k * 7 + 7) in
  let pd := pad_to_length dates_chunk 7 (VStr "") in
  let amounts :=
    pad_to_length (slice (FormData.per_diem_amounts fd) (k * 7) (k * 7 + 7)) 7 (VInt 80) in
  PerDiemTable.common_amount fd (k * 7) pd amounts
  = Ok (if existsb present dates_chunk then t else 80) /\
  PerDiemTable.labels t
  = (("Breakfast -$" ++ str_of_int (breakfast row))%string,
     ("Lunch -$" ++ str_of_int (lunch row))%string,
     ("Dinner -$" ++ str_of_int (dinner row))%string).
Proof.
  intros Hamounts Hrow. cbv zeta.
  split; [|unfold PerDiemTable.labels; now rewrite Hrow].
  assert (Ht : t <> 0).
  { pose proof (recognised_tier t row Hrow) as Hin. each_option Hin; lia. }
  assert (Hdated : forall i, present_at (FormData.per_diem_dates fd) i = true ->
                             FormData.per_diem_amounts fd !! i = Some (VInt t)).
  { intros i Hp. apply Hamounts. unfold present_at in Hp.
    destruct (FormData.per_diem_dates fd !! i) eqn:E; [|discriminate].
    now apply lookup_lt_Some in E. }
  unfold PerDiemTable.common_amount.
  rewrite padded_slice_length.
  destruct (existsb present (slice (FormData.per_diem_dates fd) (k * 7) (k * 7 + 7))) eqn:Ex.
  - apply existsb_present_slice in Ex as (j0 & Hj0 & Hp0).
    rewrite (first_amount_found _ _ _ t); [reflexivity| |].
    + exists j0. split; [apply in_seq; lia|].
      rewrite present_at_padded, Hp0 by exact Hj0. unfold flag_at.
      rewrite padded_row_lookup, (Hdated _ Hp0) by exact Hj0. simpl.
      now apply negb_true_iff, Z.eqb_neq.
    + intros j Hj T. apply in_seq in Hj. apply andb_prop in T as [T _].
      rewrite present_at_padded in T by lia.
      unfold index. rewrite padded_row_lookup, (Hdated _ T) by lia. reflexivity.
  - assert (Hnone : forall j, (j < 7)%nat ->
                      present_at (FormData.per_diem_dates fd) (k * 7 + j) = false).
    { intros j Hj. destruct (present_at _ _) eqn:E; [|reflexivity].
      assert (existsb present (slice (FormData.per_diem_dates fd) (k * 7) (k * 7 + 7)) = true)
        by (apply existsb_present_slice; eauto).
      congruence. }
    rewrite first_amount_none.
    2:{ intros j Hj. apply in_seq in Hj. rewrite present_at_padded by lia.
        now rewrite Hnone by lia. }
    cbn [bind]. destruct (_ <? _)%nat; [|reflexivity].
    rewrite first_amount_none; [reflexivity|].
    intros j Hj. apply in_seq in Hj.
    replace j with (k * 7 + (j - k * 7))%nat by lia. apply Hnone. lia.
Qed.

Lemma meal_labels_name_the_deductions_witness :
  CreatePdf.meal_deductions !! 80 = Some CreatePdf.meal_deductions_80 /\
  PerDiemTable.common_amount trip_form 0
    (pad_to_length (slice (FormData.per_diem_dates trip_form) 0 7) 7 (VStr ""))
    (pad_to_length (slice (FormData.per_diem_amounts trip_form) 0 7) 7 (VInt 80))
  = Ok 80.
Proof.
  split; [reflexivity|].
  apply (meal_labels_name_the_deductions trip_form 80 CreatePdf.meal_deductions_80 0).
  - intros i Hi. destruct i as [|[|[|i]]]; try reflexivity. simpl in Hi. lia.
  - reflexivity.
Defined.

(** ** The date fields in the session state *)

Lemma last_char_append (a b : string) :
  b <> EmptyString -> last_char (a ++ b) = last_char b.
Proof.
  intros Hb. induction a as [|c a IH]; [reflexivity|].
  rewrite append_cons. simpl. rewrite IH.
  destruct (a ++ b)%string eqn:E; [|reflexivity].
  destruct a; simpl in E; [contradiction | discriminate].
Qed.

Lemma last_char_digits (s : string) :
  s <> EmptyString -> all_digits s = true ->
  exists d, last_char s = Some d /\ is_digit d = true.
Proof.
  induction s as [|c s IH]; intros Hs Hd; [contradiction|].
  simpl in Hd. apply andb_prop in Hd as [Hc Hd].
  destruct s as [|c' s]; [exists c; now split|].
  change (last_char (String c (String c' s))) with (last_char (String c' s)).
  apply IH; [discriminate | exact Hd].
Qed.

Lemma day_key_last (p : string) (i : nat) :
  exists d, last_char (day_key p i) = Some d /\ is_digit d = true.
Proof.
  unfold day_key. destruct (str_of_nat_digits i) as (c & rest & Hd & Hc & Hrest).
  rewrite Hd, last_char_append by discriminate.
  apply last_char_digits; [discriminate|]. simpl. now rewrite Hc, Hrest.
Qed.

(** The key of a flag is never the key of a field. *)
Lemma flag_key_not_day_key (p q : string) (i j : nat) : flag_key p i <> day_key q j.
Proof.
  intros E. destruct (day_key_last q j) as (d & Hl & Hd).
  rewrite <- E in Hl. unfold flag_key in Hl.
  rewrite last_char_append in Hl by discriminate.
  injection Hl as <-. discriminate Hd.
Qed.

Lemma date_prefixes_apart (p q x y : string) :
  In p date_prefixes -> In q date_prefixes -> (p ++ x = q ++ y)%string -> p = q.
Proof.
  unfold date_prefixes. simpl. intros Hp Hq.
  destruct Hp as [<-|[<-|[<-|[]]]]; destruct Hq as [<-|[<-|[<-|[]]]];
    rewrite ?append_cons, ?append_nil; intros H; solve [reflexivity | discriminate H].
Qed.

Lemma date_key_inj (p q : string) (i j : nat) :
  In p date_prefixes -> In q date_prefixes -> day_key p i = day_key q j -> p = q /\ i = j.
Proof.
  intros Hp Hq H. unfold day_key in H.
  pose proof (date_prefixes_apart _ _ _ _ Hp Hq H) as ->. split; [reflexivity|].
  apply append_inv_head, str_of_int_inj in H. lia.
Qed.

Lemma date_prefix_cases (p : string) :
  In p date_prefixes ->
  p = "mileage_date_"%string \/ p = "expense_date_"%string \/ p = "per_diem_date_"%string.
Proof. intros H. each_date_prefix H; tauto. Qed.

Lemma date_keys_apart (p q : string) (i : nat) :
  In p date_prefixes -> In q date_prefixes -> p <> q -> day_key p i <> day_key q i.
Proof. intros Hp Hq Hne E. now apply date_key_inj in E as [-> _]. Qed.

Lemma lookup_set_dates_same (st : session) (i : nat) (text p : string) :
  In p date_prefixes -> Defaults.set_dates st i text !! day_key p i = Some (VStr text).
Proof.
  intros Hp. unfold Defaults.set_dates.
  assert (Hm : In "mileage_date_"%string date_prefixes) by (simpl; tauto).
  assert (He : In "expense_date_"%string date_prefixes) by (simpl; tauto).
  assert (Hd : In "per_diem_date_"%string date_prefixes) by (simpl; tauto).
  destruct (date_prefix_cases p Hp) as [-> | [-> | ->]].
  - rewrite lookup_insert_ne by (apply date_keys_apart; [assumption..|discriminate]).
    rewrite lookup_insert_ne by (apply date_keys_apart; [assumption..|discriminate]).
    apply lookup_insert_eq.
  - rewrite lookup_insert_ne by (apply date_keys_apart; [assumption..|discriminate]).
    apply lookup_insert_eq.
  - apply lookup_insert_eq.
Qed.

Lemma lookup_set_dates_other (st : session) (i : nat) (text key : string) :
  (forall p, In p date_prefixes -> key <> day_key p i) ->
  Defaults.set_dates st i text !! key = st !! key.
Proof.
  intros H. unfold Defaults.set_dates.
  rewrite !lookup_insert_ne; [reflexivity | | |];
    intros E; symmetry in E; revert E; apply H; simpl; tauto.
Qed.

Lemma str_falsy_empty (s : string) : str_truthy s = false -> s = EmptyString.
Proof. destruct s; [reflexivity | discriminate]. Qed.

Lemma reset_day_sets (default_dates : list string) (st : session) (i : nat) :
  Defaults.reset_day default_dates st i
  = Defaults.set_dates st i
      (match default_dates !! i with Some d => d | None => "" end).
Proof.
  unfold Defaults.reset_day. destruct (default_dates !! i) as [d|]; [|reflexivity].
  destruct (str_truthy d) eqn:E; [reflexivity|]. now rewrite (str_falsy_empty d E).
Qed.

Lemma reset_lookup_other (default_dates : list string) (days : list nat) (st : session)
  (key : string) :
  (forall p i, In p date_prefixes -> In i days -> key <> day_key p i) ->
  fold_left (Defaults.reset_day default_dates) days st !! key = st !! key.
Proof.
  revert st. induction days as [|x days IH]; intros st H; [reflexivity|].
  simpl. rewrite IH by (intros p i Hp Hi; apply H; [exact Hp | now right]).
  rewrite reset_day_sets. apply lookup_set_dates_other.
  intros p Hp. apply H; [exact Hp | now left].
Qed.

Lemma reset_lookup_day (default_dates : list string) (days : list nat) (st : session)
  (p : string) (i : nat) :
  In p date_prefixes -> In i days ->
  fold_left (Defaults.reset_day default_dates) days st !! day_key p i
  = Some (proposed_text default_dates i).
Proof.
  intros Hp. induction days as [|x days IH] using rev_ind; intros Hi; [destruct Hi|].
  rewrite fold_left_app. simpl. rewrite reset_day_sets.
  destruct (Nat.eq_dec x i) as [->|Hne].
  - now apply lookup_set_dates_same.
  - rewrite lookup_set_dates_other.
    + apply IH. apply in_app_or in Hi as [Hi|[Hi|[]]]; [exact Hi | contradiction].
    + intros q Hq E. apply date_key_inj in E as [_ E]; auto.
Qed.

Lemma init_entry_keeps (default_dates : list string) (key : string) (i : nat)
  (st : session) (k : string) (v : value) :
  st !! k = Some v -> Defaults.init_entry default_dates key i st !! k = Some v.
Proof.
  intros H. unfold Defaults.init_entry. destruct (st !! key) eqn:E; [exact H|].
  rewrite lookup_insert_ne; [exact H|]. intros ->. congruence.
Qed.

Lemma init_entry_fills (default_dates : list string) (key : string) (i : nat)
  (st : session) :
  st !! key = None ->
  Defaults.init_entry default_dates key i st !! key = Some (proposed_text default_dates i).
Proof.
  intros H. unfold Defaults.init_entry. rewrite H. apply lookup_insert_eq.
Qed.

Lemma init_entry_other (default_dates : list string) (key : string) (i : nat)
  (st : session) (k : string) :
  k <> key -> Defaults.init_entry default_dates key i st !! k = st !! k.
Proof.
  intros H. unfold Defaults.init_entry. destruct (st !! key); [reflexivity|].
  apply lookup_insert_ne. congruence.
Qed.

Lemma init_day_keeps (default_dates : list string) (st : session) (i : nat)
  (k : string) (v : value) :
  st !! k = Some v -> Defaults.init_day default_dates st i !! k = Some v.
Proof. intros H. unfold Defaults.init_day. now repeat apply init_entry_keeps. Qed.

Lemma init_day_other (default_dates : list string) (st : session) (i : nat) (k : string) :
  (forall p, In p date_prefixes -> k <> day_key p i) ->
  Defaults.init_day default_dates st i !! k = st !! k.
Proof.
  intros H. unfold Defaults.init_day.
  rewrite !init_entry_other; [reflexivity | | |]; apply H; simpl; tauto.
Qed.

Lemma init_day_fills (default_dates : list string) (st : session) (i : nat) (p : string) :
  In p date_prefixes -> st !! day_key p i = None ->
  Defaults.init_day default_dates st i !! day_key p i = Some (proposed_text default_dates i).
Proof.
  intros Hp Hn. unfold Defaults.init_day.
  assert (Hm : In "mileage_date_"%string date_prefixes) by (simpl; tauto).
  assert (He : In "expense_date_"%string date_prefixes) by (simpl; tauto).
  assert (Hd : In "per_diem_date_"%string date_prefixes) by (simpl; tauto).
  destruct (date_prefix_cases p Hp) as [-> | [-> | ->]].
  - apply init_entry_keeps, init_entry_keeps, init_entry_fills, Hn.
  - apply init_entry_keeps, init_entry_fills.
    rewrite init_entry_other; [exact Hn|].
    apply date_keys_apart; [assumption..|discriminate].
  - apply init_entry_fills.
    rewrite !init_entry_other; [exact Hn | |];
      apply date_keys_apart; solve [assumption | discriminate].
Qed.

Lemma init_lookup_keeps (default_dates : list string) (days : list nat) (st : session)
  (k : string) (v : value) :
  st !! k = Some v -> fold_left (Defaults.init_day default_dates) days st !! k = Some v.
Proof.
  revert st. induction days as [|x days IH]; intros st H; [exact H|].
  simpl. now apply IH, init_day_keeps.
Qed.

Lemma init_lookup_other (default_dates : list string) (days : list nat) (st : session)
  (key : string) :
  (forall p i, In p date_prefixes -> In i days -> key <> day_key p i) ->
  fold_left (Defaults.init_day default_dates) days st !! key = st !! key.
Proof.
  revert st. induction days as [|x days IH]; intros st H; [reflexivity|].
  simpl. rewrite IH by (intros p i Hp Hi; apply H; [exact Hp | now right]).
  apply init_day_other. intros p Hp. apply H; [exact Hp | now left].
Qed.

Lemma init_lookup_fills (default_dates : list string) (days : list nat) (st : session)
  (p : string) (i : nat) :
  In p date_prefixes -> In i days -> st !! day_key p i = None ->
  fold_left (Defaults.init_day default_dates) days st !! day_key p i
  = Some (proposed_text default_dates i).
Proof.
  intros Hp. revert st. induction days as [|x days IH]; intros st Hi Hn; [destruct Hi|].
  simpl. destruct (Nat.eq_dec x i) as [->|Hne].
  - apply init_lookup_keeps. now apply init_day_fills.
  - apply IH; [destruct Hi as [Hi|Hi]; [contradiction | exact Hi]|].
    rewrite init_day_other; [exact Hn|].
    intros q Hq E. apply date_key_inj in E as [_ E]; auto.
Qed.

Lemma total_days_bounds (departure_date return_date : option Date.t) :
  1 <= Dates.total_days departure_date return_date <= 60.
Proof.
  unfold Dates.total_days.
  destruct departure_date as [d|]; [|lia]. destruct return_date as [r|]; [|lia].
  destruct (d <=? r) eqn:E; [|lia]. apply Z.leb_le in E. lia.
Qed.

Lemma tracked_when_unchanged (t : Defaults.tracked)
  (departure_date return_date : option Date.t) :
  Defaults.dates_changed t departure_date return_date = false ->
  t = {| Defaults.last_departure := Some departure_date;
         Defaults.last_return := Some return_date |}.
Proof.
  unfold Defaults.dates_changed. intros H. apply orb_false_elim in H as [H1 H2].
  apply negb_false_iff, bool_decide_eq_true in H1, H2.
  destruct t as [a b]. simpl in *. now subst.
Qed.

(** X24.  When a date of the trip differs from the one of the last
    run, the date fields of the first hundred days of the three sections
    are overwritten, whatever the traveler had typed there: with the
    proposed date where there is one, with the empty text beyond.  No
    other entry of the session state is touched; in particular every
    error flag is left as it was, also those of days that are no longer
    shown. *)
Theorem date_change_resets_the_date_fields
  (t : Defaults.tracked) (st : session) (departure_date return_date : option Date.t)
  (default_dates : list string) :
  Dates.range_rejected departure_date return_date = false ->
  Defaults.dates_changed (Defaults.track t departure_date return_date)
    departure_date return_date = true ->
  Dates.default_dates departure_date return_date = Ok default_dates ->
  exists st',
    Defaults.run t st departure_date return_date
    = Ok (Some ({| Defaults.last_departure := Some departure_date;
                   Defaults.last_return := Some return_date |}, st')) /\
    (forall p i, In p date_prefixes -> (i < 100)%nat ->
                 st' !! day_key p i = Some (proposed_text default_dates i)) /\
    (forall key, (forall p i, In p date_prefixes -> (i < 100)%nat -> key <> day_key p i) ->
                 st' !! key = st !! key) /\
    (forall p i, st' !! flag_key p i = st !! flag_key p i).
Proof.
  intros Hrange Hchanged Hdates. unfold Defaults.run.
  rewrite Hrange, Hdates. cbn [bind]. rewrite Hchanged.
  eexists. split; [reflexivity|]. split; [|split].
  - intros p i Hp Hi. apply reset_lookup_day; [exact Hp | apply in_seq; lia].
  - intros key H. apply reset_lookup_other. intros p i Hp Hi.
    apply H; [exact Hp | apply in_seq in Hi; lia].
  - intros p i. apply reset_lookup_other. intros q j _ _. apply flag_key_not_day_key.
Qed.

Lemma date_change_resets_the_date_fields_witness :
  exists st',
    Defaults.run {| Defaults.last_departure := Some (Some 739311);
                    Defaults.last_return := Some (Some 739320) |}
      {[ day_key "expense_date_" 1 := VStr "my note"; flag_key "parking_" 8 := VBool true ]}
      (Some 739311) (Some 739312)
    = Ok (Some ({| Defaults.last_departure := Some (Some 739311);
                   Defaults.last_return := Some (Some 739312) |}, st')) /\
    st' !! day_key "expense_date_" 1 = Some (VStr "03/02/25") /\
    st' !! day_key "expense_date_" 5 = Some (VStr "") /\
    st' !! flag_key "parking_" 8 = Some (VBool true).
Proof.
  destruct (date_change_resets_the_date_fields
              {| Defaults.last_departure := Some (Some 739311);
                 Defaults.last_return := Some (Some 739320) |}
              {[ day_key "expense_date_" 1 := VStr "my note";
                 flag_key "parking_" 8 := VBool true ]}
              (Some 739311) (Some 739312) ["03/01/25"; "03/02/25"]%string)
    as (st' & Hrun & Hdays & _ & Hflags); [reflexivity | reflexivity | reflexivity |].
  exists st'. split; [exact Hrun|].
  assert (He : In "expense_date_"%string date_prefixes) by (simpl; tauto).
  split; [|split].
  - apply (Hdays _ 1%nat He). lia.
  - apply (Hdays _ 5%nat He). lia.
  - rewrite Hflags. reflexivity.
Defined.

(** X25.  When the dates of the trip are those of the last run, no
    entry of the session state is changed: what the traveler typed in a
    date field stays.  A date field of a day shown that has no entry yet
    gets the proposed date, and nothing but the date fields of the days
    shown is written. *)
Theorem unchanged_dates_keep_the_date_fields
  (t : Defaults.tracked) (st : session) (departure_date return_date : option Date.t)
  (default_dates : list string) :
  Dates.range_rejected departure_date return_date = false ->
  Defaults.dates_changed (Defaults.track t departure_date return_date)
    departure_date return_date = false ->
  Dates.default_dates departure_date return_date = Ok default_dates ->
  exists st',
    Defaults.run t st departure_date return_date
    = Ok (Some ({| Defaults.last_departure := Some departure_date;
                   Defaults.last_return := Some return_date |}, st')) /\
    (forall key v, st !! key = Some v -> st' !! key = Some v) /\
    (forall p i,
       In p date_prefixes ->
       (i < Z.to_nat (Dates.total_days departure_date return_date))%nat ->
       st !! day_key p i = None ->
       st' !! day_key p i = Some (proposed_text default_dates i)) /\
    (forall key,
       (forall p i,
          In p date_prefixes ->
          (i < Z.to_nat (Dates.total_days departure_date return_date))%nat ->
          key <> day_key p i) ->
       st' !! key = st !! key).
Proof.
  intros Hrange Hsame Hdates. unfold Defaults.run.
  rewrite Hrange, Hdates. cbn [bind]. rewrite Hsame.
  cbv zeta. rewrite (tracked_when_unchanged _ _ _ Hsame).
  eexists. split; [reflexivity|]. split; [|split].
  - intros key v. apply init_lookup_keeps.
  - intros p i Hp Hi Hn. apply init_lookup_fills; [exact Hp | apply in_seq; lia | exact Hn].
  - intros key H. apply init_lookup_other. intros p i Hp Hi.
    apply H; [exact Hp | apply in_seq in Hi; lia].
Qed.

Lemma unchanged_dates_keep_the_date_fields_witness :
  exists st',
    Defaults.run {| Defaults.last_departure := None; Defaults.last_return := None |}
      {[ day_key "expense_date_" 1 := VStr "my note" ]}
      (Some 739311) (Some 739312)
    = Ok (Some ({| Defaults.last_departure := Some (Some 739311);
                   Defaults.last_return := Some (Some 739312) |}, st')) /\
    st' !! day_key "expense_date_" 1 = Some (VStr "my note") /\
    st' !! day_key "mileage_date_" 1 = Some (VStr "03/02/25").
Proof.
  destruct (unchanged_dates_keep_the_date_fields
              {| Defaults.last_departure := None; Defaults.last_return := None |}
              {[ day_key "expense_date_" 1 := VStr "my note" ]}
              (Some 739311) (Some 739312) ["03/01/25"; "03/02/25"]%string)
    as (st' & Hrun & Hkeep & Hfill & _); [reflexivity | reflexivity | reflexivity |].
  exists st'. split; [exact Hrun|]. split.
  - apply Hkeep. apply lookup_singleton_eq.
  - apply (Hfill "mileage_date_"%string 1%nat); [simpl; tauto | simpl; lia |].
    vm_compute. reflexivity.
Defined.

(** X26.  Unless the run is stopped for a return date before the
    departure date or the proposal of the dates fails, the block ends
    with the dates of the trip as the dates of the last run and with an
    entry for the date field of every day shown in each of the three
    sections, whichever branch is taken: the hundred days of the reset
    cover the sixty days the form shows at most.  On the first run, with
    no dates kept yet, nothing is taken for a change. *)
Theorem date_fields_exist_for_the_days_shown
  (t : Defaults.tracked) (st : session) (departure_date return_date : option Date.t) :
  (Defaults.dates_changed
     (Defaults.track {| Defaults.last_departure := None; Defaults.last_return := None |}
        departure_date return_date) departure_date return_date = false) /\
  (Dates.range_rejected departure_date return_date = true ->
   Defaults.run t st departure_date return_date = Ok None) /\
  (Dates.range_rejected departure_date return_date = false ->
   forall default_dates,
     Dates.default_dates departure_date return_date = Ok default_dates ->
     exists st',
       Defaults.run t st departure_date return_date
       = Ok (Some ({| Defaults.last_departure := Some departure_date;
                      Defaults.last_return := Some return_date |}, st')) /\
       forall p i,
         In p date_prefixes ->
         (i < Z.to_nat (Dates.total_days departure_date return_date))%nat ->
         is_Some (st' !! day_key p i)).
Proof.
  split; [|split].
  - unfold Defaults.dates_changed, Defaults.track. simpl.
    now rewrite !bool_decide_eq_true_2.
  - intros Hrange. unfold Defaults.run. now rewrite Hrange.
  - intros Hrange default_dates Hdates.
    pose proof (total_days_bounds departure_date return_date) as Hb.
    unfold Defaults.run. rewrite Hrange, Hdates. cbn [bind]. cbv zeta.
    destruct (Defaults.dates_changed _ _ _) eqn:Hc.
    + eexists. split; [reflexivity|]. intros p i Hp Hi.
      rewrite reset_lookup_day; [eauto | exact Hp | apply in_seq; lia].
    + rewrite (tracked_when_unchanged _ _ _ Hc).
      eexists. split; [reflexivity|]. intros p i Hp Hi.
      destruct (st !! day_key p i) as [v|] eqn:E.
      * rewrite (init_lookup_keeps _ _ _ _ _ E). eauto.
      * rewrite init_lookup_fills; [eauto | exact Hp | apply in_seq; lia | exact E].
Qed.
